(** * Smite panel: Rathole server lifecycle manager and core reset endpoints

    A shallow embedding of [panel/app/rathole_server.py] (class
    [RatholeServerManager]) and of the health and reset endpoints of
    [panel/app/routers/core_health.py], with the properties of the
    specification stated and proved (or refuted) against the embedding.

    Python objects with external state are modelled by an explicit world: the
    manager's two dictionaries, the file system, the process table, the open
    file objects, the logger output and the sequence of operating-system calls
    issued.  Python exceptions are modelled by a state-and-exception monad with
    the three control constructs the source uses: sequencing, [try/except]
    and [try/finally].  Each function of the manager is then shown to run as
    an explicit, total transformation of the world, from which the properties
    are read off. *)

From Stdlib Require Import ZArith String Ascii List DecimalString Lia.
From stdpp Require Import gmap strings list fin_maps.

Local Open Scope string_scope.
Local Open Scope list_scope.
Local Open Scope Z_scope.

(* ===================================================================== *)
(** * Strings *)
(* ===================================================================== *)

Module Str.

(** The two characters of the source's string literals that cannot be
    written inside a literal here. *)
Definition nl : string := String (ascii_of_nat 10) EmptyString.
Definition dq : string := String (ascii_of_nat 34) EmptyString.

(** [str(n)] for a Python [int]. *)
Definition of_int (z : Z) : string := NilZero.string_of_int (Z.to_int z).

(** [c in s] for a one-character [c]. *)
Fixpoint has_char (c : ascii) (s : string) : bool :=
  match s with
  | EmptyString => false
  | String a s' => if Ascii.eqb a c then true else has_char c s'
  end.

(** [s.split(c)] for a one-character separator. *)
Fixpoint split (c : ascii) (s : string) : list string :=
  match s with
  | EmptyString => [EmptyString]
  | String a s' =>
      if Ascii.eqb a c then EmptyString :: split c s'
      else match split c s' with
           | x :: xs => String a x :: xs
           | [] => [String a EmptyString]
           end
  end.

(** [s[-n:]]: the last [n] characters of [s], or [s] when it is shorter. *)
Definition last_chars (n : nat) (s : string) : string :=
  substring (String.length s - n) n s.

(** [s[-500:] if len(s) > 500 else s] *)
Definition tail500 (s : string) : string :=
  if Nat.ltb 500 (String.length s) then last_chars 500 s else s.

(** [needle in hay] for strings, as a proposition. *)
Definition occurs_in (needle hay : string) : Prop :=
  exists pre post, hay = pre +:+ needle +:+ post.

(** [hay.endswith(suffix)] *)
Definition ends_with (suffix hay : string) : Prop :=
  exists pre, hay = pre +:+ suffix.

End Str.

(* ===================================================================== *)
(** * Insertion-ordered dictionaries

    [active_servers] is iterated ([items()], [keys()]) while its loop bodies
    can raise, so its iteration order is observable: it is modelled as an
    association list with Python's [dict] discipline (assignment to an existing
    key keeps its position, a new key goes last, keys are unique). *)
(* ===================================================================== *)

Module Dict.
Section Dict.
Context {V : Type}.

Definition t := list (string * V).

Fixpoint get (k : string) (d : list (string * V)) : option V :=
match d with
| [] => None
| (k', v) :: d' => if String.eqb k k' then Some v else get k d'
end.

Definition mem (k : string) (d : list (string * V)) : bool :=
match get k d with Some _ => true | None => false end.

Fixpoint set (k : string) (v : V) (d : list (string * V)) : list (string * V) :=
match d with
| [] => [(k, v)]
| (k', v') :: d' =>
    if String.eqb k k' then (k, v) :: d' else (k', v') :: set k v d'
end.

Fixpoint del (k : string) (d : list (string * V)) : list (string * V) :=
match d with
| [] => []
| (k', v') :: d' =>
    if String.eqb k k' then del k d' else (k', v') :: del k d'
end.

Definition keys (d : list (string * V)) : list string := map fst d.

End Dict.
End Dict.

(* ===================================================================== *)
(** * Exceptions and the world *)
(* ===================================================================== *)

(** The exception classes the two modules can meet.  All of them derive from
    [Exception]; [OSError] stands for [PermissionError] and the other
    subclasses of [OSError] except [FileNotFoundError], which the source
    catches on its own. *)
Inductive exn : Type :=
| ValueError (msg : string)
| TypeError (msg : string)
| AttributeError (msg : string)
| KeyError (msg : string)
| FileNotFoundError (msg : string)
| OSError (msg : string)
| TimeoutExpired (msg : string)
| RuntimeError (msg : string)
| HTTPException (status : Z) (detail : string).

(** [str(e)] *)
Definition exn_str (e : exn) : string :=
  match e with
  | ValueError m | TypeError m | AttributeError m | KeyError m
  | FileNotFoundError m | OSError m | TimeoutExpired m | RuntimeError m => m
  | HTTPException s d => Str.of_int s +:+ ": " +:+ d
  end.

(** The values stored in [active_servers]: the annotation says
    [Dict[str, subprocess.Popen]], but [start_server] also stores the open
    log file under a second key. *)
Inductive handle : Type :=
| Popen (pid : nat)
| LogFile (fd : nat).

Inductive pstatus : Type :=
| Running
| Exited (returncode : Z).

(** A child process.  [p_term] is its reaction to SIGTERM: [Some c] when it
    exits with code [c] within the five-second grace period, [None] when it
    does not. *)
Record Process : Type := mkProcess {
  p_argv : list string;
  p_status : pstatus;
  p_term : option Z
}.

Record FileObj : Type := mkFileObj {
  f_path : string;
  f_closed : bool
}.

(** The value of [server_configs[tunnel_id]]. *)
Record ServerConfig : Type := mkServerConfig {
  sc_remote_addr : string;
  sc_token : string;
  sc_proxy_port : Z;
  sc_bind_addr : string;
  sc_config_path : string
}.

Inductive level : Type := INFO | WARNING | ERROR.

(** Operating-system calls, recorded in the order they are issued. *)
Inductive syscall : Type :=
| SysSpawn (pid : nat) (argv : list string)
| SysTerminate (pid : nat)
| SysKill (pid : nat)
| SysUnlink (path : string)
| SysSleep
| SysConnect.

Record World : Type := mkWorld {
  (* the manager object *)
  active_servers : list (string * handle);
  server_configs : gmap string ServerConfig;
  (* the operating system *)
  files : gmap string string;        (* path -> content *)
  procs : list Process;              (* indexed by pid *)
  fds : list FileObj;                (* indexed by descriptor *)
  installed : gset string;           (* executables that can be launched *)
  undeletable : gset string;         (* paths whose unlink fails *)
  failing_close : gset nat;          (* file objects whose close fails *)
  (* observations *)
  log : list (level * string);       (* logger records, oldest first *)
  trace : list syscall               (* system calls, oldest first *)
}.

Definition with_active (f : list (string * handle) -> list (string * handle))
    (w : World) : World :=
  mkWorld (f (active_servers w)) (server_configs w) (files w) (procs w) (fds w)
          (installed w) (undeletable w) (failing_close w) (log w) (trace w).

Definition with_configs (f : gmap string ServerConfig -> gmap string ServerConfig)
    (w : World) : World :=
  mkWorld (active_servers w) (f (server_configs w)) (files w) (procs w) (fds w)
          (installed w) (undeletable w) (failing_close w) (log w) (trace w).

Definition with_files (f : gmap string string -> gmap string string)
    (w : World) : World :=
  mkWorld (active_servers w) (server_configs w) (f (files w)) (procs w) (fds w)
          (installed w) (undeletable w) (failing_close w) (log w) (trace w).

Definition with_procs (f : list Process -> list Process) (w : World) : World :=
  mkWorld (active_servers w) (server_configs w) (files w) (f (procs w)) (fds w)
          (installed w) (undeletable w) (failing_close w) (log w) (trace w).

Definition with_fds (f : list FileObj -> list FileObj) (w : World) : World :=
  mkWorld (active_servers w) (server_configs w) (files w) (procs w) (f (fds w))
          (installed w) (undeletable w) (failing_close w) (log w) (trace w).

Definition with_log (f : list (level * string) -> list (level * string))
    (w : World) : World :=
  mkWorld (active_servers w) (server_configs w) (files w) (procs w) (fds w)
          (installed w) (undeletable w) (failing_close w) (f (log w)) (trace w).

Definition with_trace (f : list syscall -> list syscall) (w : World) : World :=
  mkWorld (active_servers w) (server_configs w) (files w) (procs w) (fds w)
          (installed w) (undeletable w) (failing_close w) (log w) (f (trace w)).

(** The state of the process behind a [Popen] object.  A pid the process
    table does not know is a child that was reaped long ago. *)
Definition status_of (ps : list Process) (pid : nat) : pstatus :=
  match ps !! pid with
  | Some p => p_status p
  | None => Exited 0
  end.

Definition proc_status (w : World) (pid : nat) : pstatus :=
  status_of (procs w) pid.

Definition alive (w : World) (pid : nat) : bool :=
  match proc_status w pid with Running => true | Exited _ => false end.

Definition set_status (pid : nat) (s : pstatus) (ps : list Process) : list Process :=
  match ps !! pid with
  | Some p => <[pid := mkProcess (p_argv p) s (p_term p)]> ps
  | None => ps
  end.

(** A fresh manager ([RatholeServerManager.__init__]) on a machine with the
    given executables and no child processes; [undel] and [failing] are the
    paths that cannot be unlinked and the file objects that cannot be closed. *)
Definition machine (bins undel : gset string) (failing : gset nat) : World :=
  mkWorld [] ∅ ∅ [] [] bins undel failing [] [].

Definition init_world (bins : gset string) : World := machine bins ∅ ∅.

(* ===================================================================== *)
(** * The monad of Python statements *)
(* ===================================================================== *)

(** A statement returns, raises, or blocks forever. *)
Inductive res (A : Type) : Type :=
| Ret (a : A)
| Raise (e : exn)
| Hang.
Arguments Ret {A} a.
Arguments Raise {A} e.
Arguments Hang {A}.

(** A statement over a state of type [Σ]; [M] is the instance for the world
    of the process manager. *)
Definition St (Σ A : Type) : Type := Σ -> res A * Σ.

Definition M (A : Type) : Type := St World A.

Definition ret {Σ A} (a : A) : St Σ A := fun w => (Ret a, w).
Definition raise {Σ A} (e : exn) : St Σ A := fun w => (Raise e, w).

Definition bind {Σ A B} (m : St Σ A) (k : A -> St Σ B) : St Σ B :=
  fun w =>
    match m w with
    | (Ret a, w') => k a w'
    | (Raise e, w') => (Raise e, w')
    | (Hang, w') => (Hang, w')
    end.

Notation "x <- m ;; k" := (bind m (fun x => k))
  (at level 100, m at next level, right associativity).
Notation "m ;;; k" := (bind m (fun _ => k))
  (at level 100, right associativity).

Definition gets {Σ A} (f : Σ -> A) : St Σ A := fun w => (Ret (f w), w).
Definition modify {Σ} (f : Σ -> Σ) : St Σ unit := fun w => (Ret tt, f w).

(** [try: m  except <clauses>]: [h e] is [Some k] when a clause matches [e],
    and [k] is that clause's body; an exception raised by the body
    propagates. *)
Definition try_except {Σ A} (m : St Σ A) (h : exn -> option (St Σ A)) : St Σ A :=
  fun w =>
    match m w with
    | (Raise e, w') =>
        match h e with
        | Some k => k w'
        | None => (Raise e, w')
        end
    | r => r
    end.

(** [try: m  finally: f]: [f] runs whether [m] returned or raised, and an
    exception of [f] replaces the outcome of [m]. *)
Definition try_finally {Σ A} (m : St Σ A) (f : St Σ unit) : St Σ A :=
  fun w =>
    match m w with
    | (Hang, w') => (Hang, w')
    | (r, w') =>
        match f w' with
        | (Ret _, w'') => (r, w'')
        | (Raise e, w'') => (Raise e, w'')
        | (Hang, w'') => (Hang, w'')
        end
    end.

(** [for x in xs: body], threading an accumulator. *)
Fixpoint for_each {Σ A B} (xs : list A) (acc : B) (body : A -> B -> St Σ B)
    : St Σ B :=
  match xs with
  | [] => ret acc
  | x :: xs' => acc' <- body x acc ;; for_each xs' acc' body
  end.

Definition when {Σ} (b : bool) (m : St Σ unit) : St Σ unit :=
  if b then m else ret tt.

(* ===================================================================== *)
(** * Primitive operations *)
(* ===================================================================== *)

Definition logger (lv : level) (msg : string) : M unit :=
  modify (with_log (fun l => l ++ [(lv, msg)])).

Definition sys (c : syscall) : M unit :=
  modify (with_trace (fun t => t ++ [c])).

(** ** The two dictionaries of the manager *)

Definition active_contains (k : string) : M bool :=
  gets (fun w => Dict.mem k (active_servers w)).

Definition active_getitem (k : string) : M handle :=
  fun w =>
    match Dict.get k (active_servers w) with
    | Some h => (Ret h, w)
    | None => (Raise (KeyError k), w)
    end.

Definition active_setitem (k : string) (h : handle) : M unit :=
  modify (with_active (Dict.set k h)).

Definition active_delitem (k : string) : M unit :=
  fun w =>
    if Dict.mem k (active_servers w)
    then (Ret tt, with_active (Dict.del k) w)
    else (Raise (KeyError k), w).

Definition configs_contains (k : string) : M bool :=
  gets (fun w => bool_decide (is_Some (server_configs w !! k))).

Definition configs_getitem (k : string) : M ServerConfig :=
  fun w =>
    match server_configs w !! k with
    | Some c => (Ret c, w)
    | None => (Raise (KeyError k), w)
    end.

Definition configs_setitem (k : string) (c : ServerConfig) : M unit :=
  modify (with_configs (insert k c)).

Definition configs_delitem (k : string) : M unit :=
  fun w =>
    match server_configs w !! k with
    | Some _ => (Ret tt, with_configs (delete k) w)
    | None => (Raise (KeyError k), w)
    end.

(** ** Methods of the values of [active_servers]

    A [Popen] object has [poll], [terminate], [wait] and [kill]; a text file
    object has [close].  Calling a method the object does not have raises
    [AttributeError].  Signalling one's own child does not fail, and neither
    does signalling a child that has already exited. *)

Definition no_attribute (cls attr : string) : exn :=
  AttributeError ("'" +:+ cls +:+ "' object has no attribute '" +:+ attr +:+ "'").

Definition file_cls : string := "_io.TextIOWrapper".
Definition popen_cls : string := "Popen".

Definition poll (h : handle) : M (option Z) :=
  match h with
  | Popen pid =>
      gets (fun w => match proc_status w pid with
                     | Running => None
                     | Exited c => Some c
                     end)
  | LogFile _ => raise (no_attribute file_cls "poll")
  end.

(** SIGTERM makes a running child exit if it reacts to it; SIGKILL always
    does.  Neither changes a child that has exited. *)
Definition sigterm_procs (pid : nat) (ps : list Process) : list Process :=
  match ps !! pid with
  | Some p =>
      match p_status p, p_term p with
      | Running, Some c => set_status pid (Exited c) ps
      | _, _ => ps
      end
  | None => ps
  end.

Definition sigkill_procs (pid : nat) (ps : list Process) : list Process :=
  match status_of ps pid with
  | Running => set_status pid (Exited (-9)) ps
  | Exited _ => ps
  end.

Definition deliver_sigterm (pid : nat) : World -> World :=
  with_procs (sigterm_procs pid).

Definition deliver_sigkill (pid : nat) : World -> World :=
  with_procs (sigkill_procs pid).

Definition terminate (h : handle) : M unit :=
  match h with
  | Popen pid => sys (SysTerminate pid) ;;; modify (deliver_sigterm pid)
  | LogFile _ => raise (no_attribute file_cls "terminate")
  end.

Definition kill (h : handle) : M unit :=
  match h with
  | Popen pid => sys (SysKill pid) ;;; modify (deliver_sigkill pid)
  | LogFile _ => raise (no_attribute file_cls "kill")
  end.

(** [proc.wait(timeout=t)] and [proc.wait()]: without a timeout the call
    blocks for as long as the child runs. *)
Definition wait (h : handle) (timeout : option nat) : M Z :=
  match h with
  | Popen pid =>
      fun w =>
        match proc_status w pid, timeout with
        | Exited c, _ => (Ret c, w)
        | Running, Some t =>
            (Raise (TimeoutExpired ("timed out after " +:+ Str.of_int (Z.of_nat t)
                                    +:+ " seconds")), w)
        | Running, None => (Hang, w)
        end
  | LogFile _ => raise (no_attribute file_cls "wait")
  end.

Definition mark_closed (fd : nat) (fs : list FileObj) : list FileObj :=
  match fs !! fd with
  | Some f => <[fd := mkFileObj (f_path f) true]> fs
  | None => fs
  end.

Definition close (h : handle) : M unit :=
  match h with
  | LogFile fd =>
      fun w =>
        if decide (fd ∈ failing_close w)
        then (Raise (OSError "[Errno 5] Input/output error"), with_fds (mark_closed fd) w)
        else (Ret tt, with_fds (mark_closed fd) w)
  | Popen _ => raise (no_attribute popen_cls "close")
  end.

(** ** Files *)

(** [with open(path, "w") as f: f.write(content)] *)
Definition write_file (path content : string) : M unit :=
  modify (with_files (insert path content)).

(** [open(path, 'w', buffering=1)]: truncates and returns a new file object. *)
Definition open_w (path : string) : M nat :=
  fun w =>
    (Ret (length (fds w)),
     with_fds (fun l => l ++ [mkFileObj path false])
              (with_files (insert path EmptyString) w)).

(** [f.write(s)] followed, for a line-buffered file, by the text reaching the
    file. *)
Definition fwrite (fd : nat) (s : string) : M unit :=
  fun w =>
    match fds w !! fd with
    | Some f =>
        if f_closed f
        then (Raise (ValueError "I/O operation on closed file."), w)
        else (Ret tt, with_files (alter (fun c => c +:+ s) (f_path f)) w)
    | None => (Raise (ValueError "I/O operation on closed file."), w)
    end.

(** [path.exists()] *)
Definition path_exists (p : string) : M bool :=
  gets (fun w => bool_decide (is_Some (files w !! p))).

(** [path.unlink()] *)
Definition unlink (p : string) : M unit :=
  sys (SysUnlink p) ;;;
  fun w =>
    if decide (p ∈ undeletable w)
    then (Raise (OSError ("[Errno 13] Permission denied: '" +:+ p +:+ "'")), w)
    else match files w !! p with
         | Some _ => (Ret tt, with_files (delete p) w)
         | None => (Raise (FileNotFoundError
                             ("[Errno 2] No such file or directory: '" +:+ p +:+ "'")), w)
         end.

(** [with open(path, 'r') as f: f.read()]; [err] is the failure of the read,
    if the environment makes it fail. *)
Definition read_file (p : string) (err : option exn) : M string :=
  match err with
  | Some e => raise e
  | None =>
      fun w =>
        match files w !! p with
        | Some c => (Ret c, w)
        | None => (Raise (FileNotFoundError
                            ("[Errno 2] No such file or directory: '" +:+ p +:+ "'")), w)
        end
  end.

(** ** Processes *)

(** What a launched child does: whether it has exited by the time of the
    liveness check one second later, what it has printed by then, and how it
    will react to SIGTERM. *)
Record Child : Type := mkChild {
  child_exit : option Z;
  child_output : string;
  child_term : option Z
}.

(** [subprocess.Popen([exe, *args], stdout=log_f, stderr=STDOUT, ...)] *)
Definition popen (exe : string) (args : list string) (c : Child) : M nat :=
  fun w =>
    if decide (exe ∈ installed w)
    then let pid := length (procs w) in
         (Ret pid,
          with_trace (fun t => t ++ [SysSpawn pid (exe :: args)])
            (with_procs (fun ps => ps ++ [mkProcess (exe :: args) Running (child_term c)]) w))
    else (Raise (FileNotFoundError
                   ("[Errno 2] No such file or directory: '" +:+ exe +:+ "'")), w).

(** The first second of the child: it prints to its standard output, which
    is the log file, and possibly exits. *)
Definition child_runs (pid : nat) (out : string) (c : Child) (w : World) : World :=
  with_procs (fun ps => match child_exit c with
                        | Some code => set_status pid (Exited code) ps
                        | None => ps
                        end)
    (with_files (alter (fun s => s +:+ child_output c) out) w).

(** [time.sleep(...)], during which the rest of the machine runs. *)
Definition time_sleep (during : World -> World) : M unit :=
  sys SysSleep ;;; modify during.

(** The outcome of the loopback connection check.  [ProbeError] covers every
    exception of that block: a port that [int()] rejects, a socket error. *)
Inductive Probe : Type :=
| ProbeListening
| ProbeNotListening
| ProbeError (e : exn).

(** What the environment decides during one call of [start_server]. *)
Record StartEnv : Type := mkStartEnv {
  env_child : Child;
  env_log_read_error : option exn;
  env_probe : Probe
}.

(* ===================================================================== *)
(** * [RatholeServerManager] *)
(* ===================================================================== *)

Module Rathole.

(** [self.config_dir] *)
Definition config_dir : string := "/app/data/rathole".

(** [str(self.config_dir / f"{tunnel_id}.toml")] *)
Definition config_path (tunnel_id : string) : string :=
  config_dir +:+ "/" +:+ tunnel_id +:+ ".toml".

(** [self.config_dir / f"rathole_{tunnel_id}.log"] *)
Definition log_file (tunnel_id : string) : string :=
  config_dir +:+ "/rathole_" +:+ tunnel_id +:+ ".log".

(** [f"{tunnel_id}_log"] *)
Definition log_key (tunnel_id : string) : string := tunnel_id +:+ "_log".

(** The TOML text of [start_server]. *)
Definition render_config (bind_addr token tunnel_id : string) (proxy_port : Z)
    : string :=
  "[server]" +:+ Str.nl +:+
  "bind_addr = " +:+ Str.dq +:+ bind_addr +:+ Str.dq +:+ Str.nl +:+
  "default_token = " +:+ Str.dq +:+ token +:+ Str.dq +:+ Str.nl +:+
  Str.nl +:+
  "[server.services." +:+ tunnel_id +:+ "]" +:+ Str.nl +:+
  "bind_addr = " +:+ Str.dq +:+ "0.0.0.0:" +:+ Str.of_int proxy_port +:+ Str.dq
  +:+ Str.nl.

(** [stop_server], lines 153-160: ask the process to terminate, wait five
    seconds, kill it if it has not exited; any other failure is logged. *)
Definition stop_process (tunnel_id : string) (proc : handle) : M unit :=
  try_except
    (terminate proc ;;;
     _ <- wait proc (Some 5%nat) ;;
     ret tt)
    (fun e =>
       match e with
       | TimeoutExpired _ =>
           Some (kill proc ;;;
                 _ <- wait proc None ;;
                 ret tt)
       | _ =>
           Some (logger WARNING
                   ("Error stopping Rathole server for tunnel " +:+ tunnel_id
                    +:+ ": " +:+ exn_str e))
       end).

(** The [finally] block of [stop_server] (lines 162-170), which is also the
    first part of the [finally] block of [start_server] (lines 117-123):
    drop the record, close the log file and drop its key. *)
Definition forget_server (tunnel_id : string) : M unit :=
  active_delitem tunnel_id ;;;
  has_log <- active_contains (log_key tunnel_id) ;;
  when has_log (
    try_except
      (log_f <- active_getitem (log_key tunnel_id) ;;
       close log_f)
      (fun _ => Some (ret tt)) ;;;
    active_delitem (log_key tunnel_id)).

(** [stop_server], lines 174-182: "Clean up config file". *)
Definition remove_config (tunnel_id : string) : M unit :=
  tracked <- configs_contains tunnel_id ;;
  when tracked (
    cfg <- configs_getitem tunnel_id ;;
    let path := sc_config_path cfg in
    there <- path_exists path ;;
    when there (
      try_except
        (unlink path)
        (fun e =>
           Some (logger WARNING
                   ("Failed to delete config file " +:+ path +:+ ": " +:+ exn_str e)))) ;;;
    configs_delitem tunnel_id).

(** [stop_server] *)
Definition stop_server (tunnel_id : string) : M unit :=
  present <- active_contains tunnel_id ;;
  when present (
    proc <- active_getitem tunnel_id ;;
    try_finally (stop_process tunnel_id proc) (forget_server tunnel_id) ;;;
    logger INFO ("Stopped Rathole server for tunnel " +:+ tunnel_id)) ;;;
  remove_config tunnel_id.

(** [is_running] *)
Definition is_running (tunnel_id : string) : M bool :=
  present <- active_contains tunnel_id ;;
  if negb present then ret false
  else
    proc <- active_getitem tunnel_id ;;
    rc <- poll proc ;;
    ret (match rc with None => true | Some _ => false end).

(** The body of the loop of [get_active_servers]: a live entry is appended
    to the result, a dead one is removed from both dictionaries. *)
Definition poll_entry (item : string * handle) (active : list string)
    : M (list string) :=
  let '(tunnel_id, proc) := item in
  rc <- poll proc ;;
  match rc with
  | None => ret (active ++ [tunnel_id])
  | Some _ =>
      active_delitem tunnel_id ;;;
      tracked <- configs_contains tunnel_id ;;
      when tracked (configs_delitem tunnel_id) ;;;
      ret active
  end.

(** [get_active_servers] *)
Definition get_active_servers : M (list string) :=
  items <- gets active_servers ;;
  for_each items [] poll_entry.

(** [cleanup_all] *)
Definition cleanup_all : M unit :=
  tunnel_ids <- gets (fun w => Dict.keys (active_servers w)) ;;
  for_each tunnel_ids tt (fun tunnel_id _ => stop_server tunnel_id).

(** The liveness check of [start_server] found the child dead: build the
    error message, undo the bookkeeping, and return the message. *)
Definition died_immediately (tunnel_id : string) (code : Z) (env : StartEnv)
    : M string :=
  try_finally
    (try_except
       (there <- path_exists (log_file tunnel_id) ;;
        error_output <-
          (if there then read_file (log_file tunnel_id) (env_log_read_error env)
           else ret "Log file not found") ;;
        let error_msg :=
          "rathole server failed to start (exit code: " +:+ Str.of_int code
          +:+ "): " +:+ Str.tail500 error_output in
        logger ERROR error_msg ;;;
        ret error_msg)
       (fun e =>
          let error_msg :=
            "rathole server failed to start (exit code: " +:+ Str.of_int code
            +:+ "), could not read log: " +:+ exn_str e in
          Some (logger ERROR error_msg ;;; ret error_msg)))
    (forget_server tunnel_id ;;;
     tracked <- configs_contains tunnel_id ;;
     when tracked (configs_delitem tunnel_id)).

(** The block "Verify port is listening" of [start_server]. *)
Definition verify_port (bind_addr : string) (pid : nat) (pr : Probe) : M unit :=
  try_except
    (match pr with
     | ProbeError e => raise e
     | ProbeListening => sys SysConnect
     | ProbeNotListening =>
         sys SysConnect ;;;
         logger WARNING
           ("Rathole server port " +:+ nth 1 (Str.split ":" bind_addr) EmptyString
            +:+ " not listening after start, but process is running. PID: "
            +:+ Str.of_int (Z.of_nat pid))
     end)
    (fun e =>
       Some (logger WARNING
               ("Could not verify rathole server port is listening: " +:+ exn_str e))).

(** [start_server], lines 36-39: the bind address is the text between the
    first and the second colon of [remote_addr]. *)
Definition parse_remote_addr (remote_addr : string) : M string :=
  if Str.has_char ":" remote_addr
  then ret ("0.0.0.0:" +:+ nth 1 (Str.split ":" remote_addr) EmptyString)
  else raise (ValueError ("Invalid remote_addr format: " +:+ remote_addr)).

(** [start_server], lines 69-95: open the log, write the preamble and launch
    the binary, falling back to the one on [PATH] on [FileNotFoundError]. *)
Definition launch (tunnel_id bind_addr config : string) (proxy_port : Z)
    (env : StartEnv) : M (nat * nat) :=
  try_except
    (log_f <- open_w (log_file tunnel_id) ;;
     fwrite log_f ("Starting rathole server for tunnel " +:+ tunnel_id +:+ Str.nl) ;;;
     fwrite log_f ("Config: bind_addr=" +:+ bind_addr +:+ ", proxy_port="
                   +:+ Str.of_int proxy_port +:+ Str.nl) ;;;
     fwrite log_f ("Config file: " +:+ config_path tunnel_id +:+ Str.nl) ;;;
     fwrite log_f ("Config content:" +:+ Str.nl +:+ config +:+ Str.nl) ;;;
     proc <- popen "/usr/local/bin/rathole" ["-s"; config_path tunnel_id]
                   (env_child env) ;;
     ret (log_f, proc))
    (fun e =>
       match e with
       | FileNotFoundError _ =>
           Some (log_f <- open_w (log_file tunnel_id) ;;
                 fwrite log_f ("Starting rathole server (system binary) for tunnel "
                               +:+ tunnel_id +:+ Str.nl) ;;;
                 proc <- popen "rathole" ["-s"; config_path tunnel_id]
                               (env_child env) ;;
                 ret (log_f, proc))
       | _ => None
       end).

(** [start_server] *)
Definition start_server (tunnel_id remote_addr token : string) (proxy_port : Z)
    (env : StartEnv) : M bool :=
  try_except
    (bind_addr <- parse_remote_addr remote_addr ;;
     exists_already <- active_contains tunnel_id ;;
     when exists_already (
       logger WARNING ("Rathole server for tunnel " +:+ tunnel_id
                       +:+ " already exists, stopping it first") ;;;
       stop_server tunnel_id) ;;;
     let config := render_config bind_addr token tunnel_id proxy_port in
     write_file (config_path tunnel_id) config ;;;
     configs_setitem tunnel_id
       (mkServerConfig remote_addr token proxy_port bind_addr (config_path tunnel_id)) ;;;
     launched <- launch tunnel_id bind_addr config proxy_port env ;;
     let '(log_f, proc) := launched in
     active_setitem (log_key tunnel_id) (LogFile log_f) ;;;
     active_setitem tunnel_id (Popen proc) ;;;
     time_sleep (child_runs proc (log_file tunnel_id) (env_child env)) ;;;
     rc <- poll (Popen proc) ;;
     match rc with
     | Some code =>
         error_msg <- died_immediately tunnel_id code env ;;
         raise (RuntimeError error_msg)
     | None =>
         verify_port bind_addr proc (env_probe env) ;;;
         logger INFO ("Started Rathole server for tunnel " +:+ tunnel_id +:+ " on "
                      +:+ bind_addr +:+ ", proxy port: " +:+ Str.of_int proxy_port) ;;;
         ret true
     end)
    (fun e =>
       Some (logger ERROR ("Failed to start Rathole server for tunnel " +:+ tunnel_id
                           +:+ ": " +:+ exn_str e) ;;;
             raise e)).

End Rathole.


(* ===================================================================== *)
(** * Simplification of worlds *)
(* ===================================================================== *)

(** The projections of a world built by the [with_*] updates. *)
Ltac world_simpl :=
  cbn [active_servers server_configs files procs fds installed undeletable
       failing_close log trace with_active with_configs with_files with_procs
       with_fds with_log with_trace deliver_sigterm deliver_sigkill child_runs
       fst snd] in *.

(* ===================================================================== *)
(** * Facts about dictionaries, strings and the process table *)
(* ===================================================================== *)

Section DictFacts.
Context {V : Type}.
Implicit Types (d : list (string * V)) (k : string) (v : V).

Lemma dict_mem_get k d : Dict.mem k d = true <-> exists v, Dict.get k d = Some v.
Proof.
  unfold Dict.mem. destruct (Dict.get k d) as [v|]; split; intros H; eauto.
  - discriminate.
  - destruct H as [v Hv]. discriminate.
Qed.

Lemma dict_mem_false k d : Dict.mem k d = false <-> Dict.get k d = None.
Proof. unfold Dict.mem. destruct (Dict.get k d); split; congruence. Qed.

Lemma dict_get_set_eq k v d : Dict.get k (Dict.set k v d) = Some v.
Proof.
  induction d as [|[k' v'] d IH]; cbn.
  - now rewrite String.eqb_refl.
  - destruct (String.eqb k k') eqn:E; cbn; rewrite ?String.eqb_refl, ?E; auto.
Qed.

Lemma dict_get_set_ne k k' v d :
  k <> k' -> Dict.get k' (Dict.set k v d) = Dict.get k' d.
Proof.
  intros Hne. induction d as [|[k0 v0] d IH]; cbn.
  - destruct (String.eqb_spec k' k); congruence.
  - destruct (String.eqb_spec k k0) as [->|Hk]; cbn.
    + destruct (String.eqb_spec k' k0); congruence.
    + destruct (String.eqb_spec k' k0); auto.
Qed.

Lemma dict_get_del_eq k d : Dict.get k (Dict.del k d) = None.
Proof.
  induction d as [|[k' v'] d IH]; cbn; auto.
  destruct (String.eqb k k') eqn:E; cbn; rewrite ?E; auto.
Qed.

Lemma dict_get_del_ne k k' d :
  k <> k' -> Dict.get k' (Dict.del k d) = Dict.get k' d.
Proof.
  intros Hne. induction d as [|[k0 v0] d IH]; cbn; auto.
  destruct (String.eqb_spec k k0) as [->|Hk]; cbn.
  - destruct (String.eqb_spec k' k0); congruence.
  - destruct (String.eqb_spec k' k0); auto.
Qed.

Lemma dict_del_absent k d : Dict.get k d = None -> Dict.del k d = d.
Proof.
  induction d as [|[k' v'] d IH]; cbn; auto.
  destruct (String.eqb k k'); [discriminate|]. intros H. now rewrite IH.
Qed.

Lemma dict_get_In k v d : Dict.get k d = Some v -> In (k, v) d.
Proof.
  induction d as [|[k' v'] d IH]; cbn; [discriminate|].
  destruct (String.eqb_spec k k') as [->|Hk]; intros H.
  - left. congruence.
  - right. auto.
Qed.

Lemma dict_In_keys k v d : In (k, v) d -> In k (Dict.keys d).
Proof. intros H. unfold Dict.keys. apply (in_map fst) in H. exact H. Qed.

End DictFacts.

Section StringFacts.

Lemma string_append_cons (x : ascii) (a b : string) :
  String x a +:+ b = String x (a +:+ b).
Proof. reflexivity. Qed.

Lemma string_length_append (a b : string) :
  String.length (a +:+ b) = (String.length a + String.length b)%nat.
Proof.
  induction a as [|x a IH]; [reflexivity|].
  rewrite string_append_cons. simpl. f_equal. exact IH.
Qed.

Lemma string_append_assoc (a b c : string) : (a +:+ b) +:+ c = a +:+ (b +:+ c).
Proof.
  induction a as [|x a IH]; [reflexivity|].
  rewrite !string_append_cons. f_equal. exact IH.
Qed.

Lemma string_append_nil_r (a : string) : a +:+ EmptyString = a.
Proof.
  induction a as [|x a IH]; [reflexivity|].
  rewrite string_append_cons. f_equal. exact IH.
Qed.

Lemma log_key_ne tid : Rathole.log_key tid <> tid.
Proof.
  unfold Rathole.log_key. intros H.
  apply (f_equal String.length) in H.
  rewrite string_length_append in H. cbn in H. lia.
Qed.

End StringFacts.

Section ProcFacts.
Implicit Types (ps : list Process) (pid : nat) (s : pstatus).

Lemma set_status_length pid s ps : length (set_status pid s ps) = length ps.
Proof. unfold set_status. destruct (ps !! pid); auto. apply length_insert. Qed.

Lemma status_of_set_eq pid s ps :
  (pid < length ps)%nat -> status_of (set_status pid s ps) pid = s.
Proof.
  intros Hlt. unfold status_of, set_status.
  destruct (ps !! pid) as [p|] eqn:E.
  - rewrite list_lookup_insert_eq; auto.
  - apply lookup_ge_None in E. lia.
Qed.

Lemma lookup_set_status_ne pid pid' s ps :
  pid <> pid' -> set_status pid s ps !! pid' = ps !! pid'.
Proof.
  intros Hne. unfold set_status. destruct (ps !! pid); auto.
  now apply list_lookup_insert_ne.
Qed.

Lemma argv_set_status pid pid' s ps :
  p_argv <$> (set_status pid s ps !! pid') = p_argv <$> (ps !! pid').
Proof.
  unfold set_status. destruct (ps !! pid) as [p|] eqn:E; auto.
  destruct (decide (pid = pid')) as [<-|Hne].
  - rewrite list_lookup_insert_eq by (apply lookup_lt_Some in E; exact E).
    now rewrite E.
  - now rewrite list_lookup_insert_ne.
Qed.

(** Once SIGTERM and, if needed, SIGKILL have been delivered, the process
    is not running. *)
Lemma stopped_not_running pid ps :
  status_of (sigkill_procs pid (sigterm_procs pid ps)) pid <> Running.
Proof.
  unfold sigkill_procs.
  destruct (status_of (sigterm_procs pid ps) pid) eqn:E.
  - assert (pid < length (sigterm_procs pid ps))%nat as Hlt.
    { unfold status_of in E.
      destruct (sigterm_procs pid ps !! pid) eqn:E'; [|discriminate].
      now apply lookup_lt_Some in E'. }
    rewrite status_of_set_eq by exact Hlt. discriminate.
  - rewrite E. discriminate.
Qed.

Lemma stopped_other pid pid' ps :
  pid <> pid' -> sigkill_procs pid (sigterm_procs pid ps) !! pid' = ps !! pid'.
Proof.
  intros Hne. unfold sigkill_procs.
  assert (sigterm_procs pid ps !! pid' = ps !! pid') as Ht.
  { unfold sigterm_procs. destruct (ps !! pid) as [p|]; auto.
    destruct (p_status p), (p_term p); auto using lookup_set_status_ne. }
  destruct (status_of (sigterm_procs pid ps) pid); auto.
  now rewrite lookup_set_status_ne.
Qed.

Lemma stopped_length pid ps :
  length (sigkill_procs pid (sigterm_procs pid ps)) = length ps.
Proof.
  unfold sigkill_procs.
  assert (length (sigterm_procs pid ps) = length ps) as Ht.
  { unfold sigterm_procs. destruct (ps !! pid) as [p|]; auto.
    destruct (p_status p), (p_term p); auto using set_status_length. }
  destruct (status_of (sigterm_procs pid ps) pid); auto.
  now rewrite set_status_length.
Qed.

Lemma stopped_argv pid pid' ps :
  p_argv <$> (sigkill_procs pid (sigterm_procs pid ps) !! pid')
  = p_argv <$> (ps !! pid').
Proof.
  unfold sigkill_procs.
  assert (p_argv <$> (sigterm_procs pid ps !! pid') = p_argv <$> (ps !! pid')) as Ht.
  { unfold sigterm_procs. destruct (ps !! pid) as [p|]; auto.
    destruct (p_status p), (p_term p); auto using argv_set_status. }
  destruct (status_of (sigterm_procs pid ps) pid); auto.
  now rewrite argv_set_status.
Qed.

(** Signals never revive a process. *)
Lemma stopped_monotone pid pid' ps :
  status_of (sigkill_procs pid (sigterm_procs pid ps)) pid' = Running ->
  status_of ps pid' = Running.
Proof.
  destruct (decide (pid = pid')) as [<-|Hne].
  - intros H. now apply stopped_not_running in H.
  - unfold status_of at 1. now rewrite stopped_other.
Qed.

End ProcFacts.

(* ===================================================================== *)
(** * [stop_server] as a total state transformer

    [stop_server] never raises and never blocks: it always returns, and its
    effect on the world is the function [stopped] below, assembled from the
    effects of its three blocks. *)
(* ===================================================================== *)

Section StopServer.
Import Rathole.

(** The signals [stop_process] sends to a child. *)
Definition stop_calls (ps : list Process) (pid : nat) : list syscall :=
SysTerminate pid ::
match status_of (sigterm_procs pid ps) pid with
| Running => [SysKill pid]
| Exited _ => []
end.

(** The effect of [stop_process]. *)
Definition process_stopped (tunnel_id : string) (proc : handle) (w : World) : World :=
match proc with
| Popen pid =>
    with_procs (fun ps => sigkill_procs pid (sigterm_procs pid ps))
      (with_trace (fun t => t ++ stop_calls (procs w) pid) w)
| LogFile _ =>
    with_log (fun l => l ++ [(WARNING,
                "Error stopping Rathole server for tunnel " +:+ tunnel_id +:+ ": "
                +:+ exn_str (no_attribute file_cls "terminate"))]) w
end.

Lemma stop_process_run tid h w :
stop_process tid h w = (Ret tt, process_stopped tid h w).
Proof.
destruct w as [a c f p fd i u fc l t].
destruct h as [pid|lf]; [|reflexivity].
cbv beta iota zeta delta [stop_process try_except bind terminate wait kill sys modify ret
  process_stopped stop_calls proc_status sigkill_procs deliver_sigterm deliver_sigkill
  with_procs with_trace procs active_servers server_configs files fds installed
  undeletable failing_close log trace].
destruct (status_of (sigterm_procs pid p) pid) eqn:E.
- assert (pid < length (sigterm_procs pid p))%nat as Hlt.
  { unfold status_of in E.
    destruct (sigterm_procs pid p !! pid) eqn:E'; [|discriminate].
    now apply lookup_lt_Some in E'. }
  cbv beta iota. rewrite !E. rewrite status_of_set_eq by exact Hlt.
  rewrite <- app_assoc. reflexivity.
- reflexivity.
Qed.

(** The effect of [forget_server] when the record exists. *)
Definition forgotten (tunnel_id : string) (w : World) : World :=
with_active (fun d => Dict.del (log_key tunnel_id) (Dict.del tunnel_id d))
  (with_fds (match Dict.get (log_key tunnel_id) (active_servers w) with
             | Some (LogFile fd) => mark_closed fd
             | _ => fun fs => fs
             end) w).

Lemma forget_server_run tid w :
Dict.mem tid (active_servers w) = true ->
forget_server tid w = (Ret tt, forgotten tid w).
Proof.
intros Hmem.
destruct w as [a c f p fd i u fc l t].
cbv beta iota zeta delta [forget_server bind active_delitem active_contains gets when
  try_except active_getitem close ret raise forgotten
  with_active with_fds procs active_servers server_configs files fds installed
  undeletable failing_close log trace] in *.
rewrite Hmem.
unfold Dict.mem.
rewrite (dict_get_del_ne tid (log_key tid)) by (apply not_eq_sym, log_key_ne).
destruct (Dict.get (log_key tid) a) as [[pid|lf]|] eqn:E.
- rewrite (dict_get_del_ne tid (log_key tid)) by (apply not_eq_sym, log_key_ne).
  rewrite E. cbv beta iota. unfold Dict.mem.
  rewrite (dict_get_del_ne tid (log_key tid)) by (apply not_eq_sym, log_key_ne).
  rewrite E. reflexivity.
- rewrite (dict_get_del_ne tid (log_key tid)) by (apply not_eq_sym, log_key_ne).
  rewrite E. cbv beta iota.
  destruct (decide (lf ∈ fc)); cbv beta iota; unfold Dict.mem;
  rewrite (dict_get_del_ne tid (log_key tid)) by (apply not_eq_sym, log_key_ne);
  rewrite E; reflexivity.
- rewrite (dict_del_absent (log_key tid) (Dict.del tid a)); [reflexivity|].
  rewrite (dict_get_del_ne tid (log_key tid)) by (apply not_eq_sym, log_key_ne).
  exact E.
Qed.

(** The effect of [remove_config]. *)
Definition unlink_calls (path : string) (w : World) : list syscall :=
match files w !! path with
| Some _ => [SysUnlink path]
| None => []
end.

Definition config_removed (tunnel_id : string) (w : World) : World :=
match server_configs w !! tunnel_id with
| None => w
| Some cfg =>
    let path := sc_config_path cfg in
    with_configs (delete tunnel_id)
      (match files w !! path with
       | None => w
       | Some _ =>
           if decide (path ∈ undeletable w)
           then with_log (fun l => l ++ [(WARNING,
                            "Failed to delete config file " +:+ path +:+ ": "
                            +:+ "[Errno 13] Permission denied: '" +:+ path +:+ "'")])
                  (with_trace (fun t => t ++ [SysUnlink path]) w)
           else with_files (delete path)
                  (with_trace (fun t => t ++ [SysUnlink path]) w)
       end)
end.

Lemma remove_config_run tid w :
remove_config tid w = (Ret tt, config_removed tid w).
Proof.
destruct w as [a c f p fd i u fc l t].
cbv beta iota zeta delta [remove_config bind configs_contains gets when
  try_except configs_getitem path_exists unlink sys modify logger configs_delitem
  ret raise config_removed exn_str
  with_active with_fds with_configs with_files with_trace with_log
  procs active_servers server_configs files fds installed
  undeletable failing_close log trace].
destruct (c !! tid) as [cfg|] eqn:E.
- rewrite bool_decide_true by eauto. cbv beta iota. rewrite !E. cbv beta iota.
  destruct (f !! sc_config_path cfg) as [content|] eqn:Ef.
  + rewrite bool_decide_true by eauto. cbv beta iota.
    destruct (decide (sc_config_path cfg ∈ u)); cbv beta iota; rewrite ?Ef, ?E; reflexivity.
  + rewrite bool_decide_false by (intros [? ?]; discriminate). cbv beta iota.
    rewrite E. reflexivity.
- rewrite bool_decide_false by (intros [? ?]; discriminate). reflexivity.
Qed.

(** The effect of [stop_server]. *)
Definition stopped (tunnel_id : string) (w : World) : World :=
config_removed tunnel_id
  (match Dict.get tunnel_id (active_servers w) with
   | Some proc =>
       with_log (fun l => l ++ [(INFO, "Stopped Rathole server for tunnel " +:+ tunnel_id)])
         (forgotten tunnel_id (process_stopped tunnel_id proc w))
   | None => w
   end).

Lemma active_process_stopped tid h w :
active_servers (process_stopped tid h w) = active_servers w.
Proof. destruct h; reflexivity. Qed.

Lemma stop_server_run tid w : stop_server tid w = (Ret tt, stopped tid w).
Proof.
unfold stop_server, stopped.
unfold bind at 1. unfold active_contains, gets, Dict.mem.
destruct (Dict.get tid (active_servers w)) as [h|] eqn:E.
- unfold when, bind at 1. unfold bind at 1. unfold bind at 1.
  unfold active_getitem. rewrite E.
  unfold try_finally. rewrite stop_process_run.
  rewrite forget_server_run.
  2:{ rewrite active_process_stopped. apply dict_mem_get. eauto. }
  unfold logger, modify. apply remove_config_run.
- unfold when, bind, ret. apply remove_config_run.
Qed.



End StopServer.

Section StopFacts.
Import Rathole.

(** ** What [remove_config] leaves unchanged *)

Lemma config_removed_frame tid w :
  active_servers (config_removed tid w) = active_servers w /\
  procs (config_removed tid w) = procs w /\
  fds (config_removed tid w) = fds w /\
  installed (config_removed tid w) = installed w /\
  undeletable (config_removed tid w) = undeletable w /\
  failing_close (config_removed tid w) = failing_close w.
Proof.
  unfold config_removed. repeat case_match; world_simpl; auto 10.
Qed.

Lemma config_removed_configs tid w :
  server_configs (config_removed tid w) = delete tid (server_configs w).
Proof.
  unfold config_removed. destruct (server_configs w !! tid) eqn:E.
  - repeat case_match; reflexivity.
  - symmetry. now apply delete_id.
Qed.

Lemma config_removed_files tid w :
  files (config_removed tid w) =
  match server_configs w !! tid with
  | Some cfg =>
      if decide (sc_config_path cfg ∈ undeletable w) then files w
      else delete (sc_config_path cfg) (files w)
  | None => files w
  end.
Proof.
  unfold config_removed. destruct (server_configs w !! tid) as [cfg|]; [|reflexivity].
  world_simpl. destruct (files w !! sc_config_path cfg) eqn:E.
  - destruct (decide (sc_config_path cfg ∈ undeletable w)); reflexivity.
  - destruct (decide (sc_config_path cfg ∈ undeletable w)); [reflexivity|].
    symmetry. now apply delete_id.
Qed.

Lemma process_stopped_frame tid h w :
  active_servers (process_stopped tid h w) = active_servers w /\
  server_configs (process_stopped tid h w) = server_configs w /\
  files (process_stopped tid h w) = files w /\
  fds (process_stopped tid h w) = fds w /\
  installed (process_stopped tid h w) = installed w /\
  undeletable (process_stopped tid h w) = undeletable w /\
  failing_close (process_stopped tid h w) = failing_close w.
Proof. destruct h; cbn; auto 10. Qed.

(** ** Projections of [stopped] *)

Lemma stopped_active tid w :
  active_servers (stopped tid w) =
  match Dict.get tid (active_servers w) with
  | Some _ => Dict.del (log_key tid) (Dict.del tid (active_servers w))
  | None => active_servers w
  end.
Proof.
  unfold stopped.
  rewrite (proj1 (config_removed_frame tid _)).
  destruct (Dict.get tid (active_servers w)) as [h|]; [|reflexivity].
  cbn. now rewrite active_process_stopped.
Qed.

Lemma stopped_configs tid w :
  server_configs (stopped tid w) = delete tid (server_configs w).
Proof.
  unfold stopped. rewrite config_removed_configs.
  destruct (Dict.get tid (active_servers w)) as [h|]; [|reflexivity].
  cbn. now rewrite (proj1 (proj2 (process_stopped_frame tid h w))).
Qed.

Lemma stopped_procs tid w :
  procs (stopped tid w) =
  match Dict.get tid (active_servers w) with
  | Some (Popen pid) => sigkill_procs pid (sigterm_procs pid (procs w))
  | _ => procs w
  end.
Proof.
  unfold stopped.
  rewrite (proj1 (proj2 (config_removed_frame tid _))).
  destruct (Dict.get tid (active_servers w)) as [[pid|fd]|]; reflexivity.
Qed.

Lemma stopped_oracles tid w :
  installed (stopped tid w) = installed w /\
  undeletable (stopped tid w) = undeletable w /\
  failing_close (stopped tid w) = failing_close w.
Proof.
  unfold stopped.
  destruct (config_removed_frame tid
    (match Dict.get tid (active_servers w) with
     | Some proc =>
         with_log (fun l => l ++ [(INFO, "Stopped Rathole server for tunnel " +:+ tid)])
           (forgotten tid (process_stopped tid proc w))
     | None => w
     end)) as (_ & _ & _ & -> & -> & ->).
  destruct (Dict.get tid (active_servers w)) as [h|]; [|auto].
  cbn. destruct (process_stopped_frame tid h w) as (_ & _ & _ & _ & -> & -> & ->). auto.
Qed.

Lemma stopped_files tid w :
  files (stopped tid w) =
  match server_configs w !! tid with
  | Some cfg =>
      if decide (sc_config_path cfg ∈ undeletable w) then files w
      else delete (sc_config_path cfg) (files w)
  | None => files w
  end.
Proof.
  unfold stopped. rewrite config_removed_files.
  destruct (Dict.get tid (active_servers w)) as [h|]; [|reflexivity].
  cbn.
  destruct (process_stopped_frame tid h w) as (_ & -> & -> & _ & _ & -> & _).
  reflexivity.
Qed.

Lemma stopped_fds_length tid w : length (fds (stopped tid w)) = length (fds w).
Proof.
  unfold stopped. rewrite (proj1 (proj2 (proj2 (config_removed_frame tid _)))).
  destruct (Dict.get tid (active_servers w)) as [h|]; [|reflexivity].
  cbn. rewrite (proj1 (proj2 (proj2 (proj2 (process_stopped_frame tid h w))))).
  destruct (Dict.get (log_key tid) (active_servers (process_stopped tid h w)))
    as [[pid|fd]|]; auto.
  unfold mark_closed. destruct (fds w !! fd); auto. apply length_insert.
Qed.

End StopFacts.

(* ===================================================================== *)
(** * [start_server] path by path

    The outcome of [start_server] is determined by four things: whether
    [remote_addr] has a colon, which binary can be launched, whether the
    child has exited one second later, and the connection check.  The lemma
    [start_server_run] gives result and final world in each case. *)
(* ===================================================================== *)

Section StartServer.
Import Rathole.
Variables (tunnel_id remote_addr token : string) (proxy_port : Z) (env : StartEnv).

Definition bind_addr_of : string :=
  "0.0.0.0:" +:+ nth 1 (Str.split ":" remote_addr) EmptyString.

Definition config_of : string :=
  render_config bind_addr_of token tunnel_id proxy_port.

Definition primary_bin : string := "/usr/local/bin/rathole".
Definition fallback_bin : string := "rathole".

Definition not_found (exe : string) : exn :=
  FileNotFoundError ("[Errno 2] No such file or directory: '" +:+ exe +:+ "'").

(** Lines 41-66: the old server is stopped, the configuration written and
    recorded. *)
Definition prepared (w : World) : World :=
  with_configs
    (insert tunnel_id
       (mkServerConfig remote_addr token proxy_port bind_addr_of (config_path tunnel_id)))
    (with_files (insert (config_path tunnel_id) config_of)
       (match Dict.get tunnel_id (active_servers w) with
        | Some _ =>
            stopped tunnel_id
              (with_log (fun l => l ++ [(WARNING,
                           "Rathole server for tunnel " +:+ tunnel_id
                           +:+ " already exists, stopping it first")]) w)
        | None => w
        end)).

Definition preamble : list string :=
  [ "Starting rathole server for tunnel " +:+ tunnel_id +:+ Str.nl;
    "Config: bind_addr=" +:+ bind_addr_of +:+ ", proxy_port="
      +:+ Str.of_int proxy_port +:+ Str.nl;
    "Config file: " +:+ config_path tunnel_id +:+ Str.nl;
    "Config content:" +:+ Str.nl +:+ config_of +:+ Str.nl ].

Definition fallback_preamble : list string :=
  [ "Starting rathole server (system binary) for tunnel " +:+ tunnel_id +:+ Str.nl ].

(** The log file opened afresh and the given lines written to it. *)
Definition log_started (lines : list string) (w : World) : World :=
  with_fds (fun l => l ++ [mkFileObj (log_file tunnel_id) false])
    (with_files
       (fun f => fold_left (fun f s => alter (fun c => c +:+ s) (log_file tunnel_id) f)
                           lines (insert (log_file tunnel_id) EmptyString f))
       w).

Definition launcher (w : World) : option string :=
  if decide (primary_bin ∈ installed w) then Some primary_bin
  else if decide (fallback_bin ∈ installed w) then Some fallback_bin
  else None.

Definition log_ready (w : World) : World :=
  if decide (primary_bin ∈ installed w) then log_started preamble w
  else log_started fallback_preamble (log_started preamble w).

Definition spawned (exe : string) (w : World) : World :=
  with_trace (fun t => t ++ [SysSpawn (length (procs w)) [exe; "-s"; config_path tunnel_id]])
    (with_procs (fun ps => ps ++ [mkProcess [exe; "-s"; config_path tunnel_id] Running
                                            (child_term (env_child env))]) w).

Lemma lookup_snoc {A} (l : list A) (x : A) : (l ++ [x]) !! length l = Some x.
Proof. now apply list_lookup_middle. Qed.

Lemma launch_run w :
  launch tunnel_id bind_addr_of config_of proxy_port env w =
  match launcher w with
  | Some exe =>
      (Ret (pred (length (fds (log_ready w))), length (procs w)), spawned exe (log_ready w))
  | None => (Raise (not_found fallback_bin), log_ready w)
  end.
Proof.
  destruct w as [a c f p fd i u fc l t].
  cbv beta iota zeta delta [launch try_except bind open_w fwrite popen ret raise
    launcher log_ready log_started spawned preamble fallback_preamble fold_left
    with_active with_fds with_configs with_files with_trace with_log with_procs
    procs active_servers server_configs files fds installed
    undeletable failing_close log trace f_closed f_path primary_bin fallback_bin not_found].
  rewrite !lookup_snoc. cbv beta iota delta [f_closed f_path].
  destruct (decide ("/usr/local/bin/rathole" ∈ i)) as [Hp|Hp].
  - rewrite length_app. cbn [length]. rewrite Nat.add_1_r. reflexivity.
  - cbv beta iota. rewrite !lookup_snoc. cbv beta iota delta [f_closed f_path].
    destruct (decide ("rathole" ∈ i)) as [Hf|Hf].
    + rewrite !length_app. cbn [length]. rewrite !Nat.add_1_r. reflexivity.
    + reflexivity.
Qed.

(** The record and the log handle are stored, then the child runs for a
    second (lines 97-102). *)
Definition recorded (log_f proc : nat) (w : World) : World :=
  with_active (fun d => Dict.set tunnel_id (Popen proc)
                          (Dict.set (log_key tunnel_id) (LogFile log_f) d)) w.

Definition slept (proc : nat) (w : World) : World :=
  child_runs proc (log_file tunnel_id) (env_child env)
    (with_trace (fun t => t ++ [SysSleep]) w).

Definition running_world (exe : string) (w : World) : World :=
  let w2 := prepared w in
  let w3 := log_ready w2 in
  slept (length (procs w2))
    (recorded (pred (length (fds w3))) (length (procs w2)) (spawned exe w3)).

(** The error message of lines 105-115. *)
Definition died_message (code : Z) (w : World) : string :=
  match files w !! log_file tunnel_id with
  | Some content =>
      match env_log_read_error env with
      | None =>
          "rathole server failed to start (exit code: " +:+ Str.of_int code
          +:+ "): " +:+ Str.tail500 content
      | Some e =>
          "rathole server failed to start (exit code: " +:+ Str.of_int code
          +:+ "), could not read log: " +:+ exn_str e
      end
  | None =>
      "rathole server failed to start (exit code: " +:+ Str.of_int code
      +:+ "): " +:+ Str.tail500 "Log file not found"
  end.

(** The effect of lines 105-125. *)
Definition rolled_back (code : Z) (w : World) : World :=
  with_configs (delete tunnel_id)
    (forgotten tunnel_id
       (with_log (fun l => l ++ [(ERROR, died_message code w)]) w)).

Lemma died_immediately_run code w :
  Dict.mem tunnel_id (active_servers w) = true ->
  died_immediately tunnel_id code env w = (Ret (died_message code w), rolled_back code w).
Proof.
  intros Hmem.
  assert (forall msg,
    (forget_server tunnel_id ;;;
     tracked <- configs_contains tunnel_id ;;
     when tracked (configs_delitem tunnel_id))
      (with_log (fun l => l ++ [(ERROR, msg)]) w)
    = (Ret tt, with_configs (delete tunnel_id)
                 (forgotten tunnel_id (with_log (fun l => l ++ [(ERROR, msg)]) w)))) as Hfin.
  { intros msg. unfold bind at 1. rewrite forget_server_run by exact Hmem.
    unfold bind, configs_contains, gets, when, configs_delitem, ret.
    destruct (server_configs (forgotten tunnel_id (with_log _ w)) !! tunnel_id) eqn:E.
    - rewrite bool_decide_true by eauto. now rewrite E.
    - rewrite bool_decide_false by (intros [? ?]; discriminate).
      f_equal. destruct w as [a c f p fd i u fc l t].
      unfold forgotten, with_configs in *; cbn in *.
      rewrite delete_id by exact E. reflexivity. }
  unfold died_immediately, try_finally, try_except, rolled_back, died_message.
  unfold bind at 1. unfold path_exists, gets.
  destruct (files w !! log_file tunnel_id) as [content|] eqn:Ef.
  - rewrite bool_decide_true by eauto.
    unfold read_file. destruct (env_log_read_error env) as [e|].
    + unfold bind at 1. unfold raise. unfold bind at 1. unfold logger, modify, ret.
      rewrite Hfin. reflexivity.
    + unfold bind at 1. rewrite Ef. unfold bind at 1. unfold logger, modify, ret.
      rewrite Hfin. reflexivity.
  - rewrite bool_decide_false by (intros [? ?]; discriminate).
    unfold bind at 1. unfold ret at 1. unfold bind at 1. unfold logger, modify, ret.
    rewrite Hfin. reflexivity.
Qed.

(** The effect of the connection check (lines 129-139). *)
Definition probed (pid : nat) (w : World) : World :=
  match env_probe env with
  | ProbeListening => with_trace (fun t => t ++ [SysConnect]) w
  | ProbeNotListening =>
      with_log (fun l => l ++ [(WARNING,
                  "Rathole server port " +:+ nth 1 (Str.split ":" bind_addr_of) EmptyString
                  +:+ " not listening after start, but process is running. PID: "
                  +:+ Str.of_int (Z.of_nat pid))])
        (with_trace (fun t => t ++ [SysConnect]) w)
  | ProbeError e =>
      with_log (fun l => l ++ [(WARNING,
                  "Could not verify rathole server port is listening: " +:+ exn_str e)]) w
  end.

Lemma verify_port_run pid w :
  verify_port bind_addr_of pid (env_probe env) w = (Ret tt, probed pid w).
Proof. unfold verify_port, probed. destruct (env_probe env); reflexivity. Qed.

Definition failed_to_start (e : exn) : level * string :=
  (ERROR, "Failed to start Rathole server for tunnel " +:+ tunnel_id +:+ ": " +:+ exn_str e).

Definition started_message : level * string :=
  (INFO, "Started Rathole server for tunnel " +:+ tunnel_id +:+ " on " +:+ bind_addr_of
         +:+ ", proxy port: " +:+ Str.of_int proxy_port).

(** Result and final world of [start_server]. *)
Definition start_result (w : World) : res bool * World :=
  if Str.has_char ":" remote_addr then
    match launcher (prepared w) with
    | None =>
        (Raise (not_found fallback_bin),
         with_log (fun l => l ++ [failed_to_start (not_found fallback_bin)])
           (log_ready (prepared w)))
    | Some exe =>
        let w5 := running_world exe w in
        match child_exit (env_child env) with
        | Some code =>
            let e := RuntimeError (died_message code w5) in
            (Raise e, with_log (fun l => l ++ [failed_to_start e]) (rolled_back code w5))
        | None =>
            (Ret true,
             with_log (fun l => l ++ [started_message])
               (probed (length (procs (prepared w))) w5))
        end
    end
  else
    let e := ValueError ("Invalid remote_addr format: " +:+ remote_addr) in
    (Raise e, with_log (fun l => l ++ [failed_to_start e]) w).

Lemma log_ready_procs w : procs (log_ready w) = procs w.
Proof. unfold log_ready. case_decide; reflexivity. Qed.

Lemma log_ready_active w : active_servers (log_ready w) = active_servers w.
Proof. unfold log_ready. case_decide; reflexivity. Qed.

Lemma status_of_snoc (ps : list Process) (p : Process) :
  status_of (ps ++ [p]) (length ps) = p_status p.
Proof. unfold status_of. now rewrite lookup_snoc. Qed.

Lemma status_of_set_snoc (ps : list Process) (p : Process) (s : pstatus) :
  status_of (set_status (length ps) s (ps ++ [p])) (length ps) = s.
Proof. apply status_of_set_eq. rewrite length_app. cbn. lia. Qed.

Lemma start_server_run w :
  start_server tunnel_id remote_addr token proxy_port env w = start_result w.
Proof.
  unfold start_server, start_result, try_except.
  unfold bind at 1. unfold parse_remote_addr.
  destruct (Str.has_char ":" remote_addr); [|reflexivity].
  unfold ret at 1. fold bind_addr_of. fold config_of.
  unfold bind at 1. unfold active_contains, gets.
  unfold bind at 1.
  assert (when (Dict.mem tunnel_id (active_servers w))
            (logger WARNING ("Rathole server for tunnel " +:+ tunnel_id
                             +:+ " already exists, stopping it first") ;;;
             stop_server tunnel_id) w
          = (Ret tt, match Dict.get tunnel_id (active_servers w) with
                     | Some _ =>
                         stopped tunnel_id
                           (with_log (fun l => l ++ [(WARNING,
                              "Rathole server for tunnel " +:+ tunnel_id
                              +:+ " already exists, stopping it first")]) w)
                     | None => w
                     end)) as ->.
  { unfold Dict.mem. destruct (Dict.get tunnel_id (active_servers w)); [|reflexivity].
    unfold when, bind, logger, modify. apply stop_server_run. }
  unfold bind at 1. unfold write_file at 1. unfold modify at 1.
  unfold bind at 1. unfold configs_setitem at 1. unfold modify at 1.
  fold (prepared w).
  unfold bind at 1. rewrite launch_run.
  destruct (launcher (prepared w)) as [exe|]; [|reflexivity].
  unfold bind at 1. unfold active_setitem at 1. unfold modify at 1.
  unfold bind at 1. unfold active_setitem at 1. unfold modify at 1.
  unfold bind at 1. unfold time_sleep, sys, bind at 1. unfold modify at 1.
  unfold modify at 1.
  unfold bind at 1. unfold poll, gets, proc_status.
  set (w5 := child_runs _ _ _ _).
  assert (w5 = running_world exe w) as Hw5.
  { subst w5. reflexivity. }
  assert (status_of (procs w5) (length (procs (prepared w))) =
          match child_exit (env_child env) with
          | Some code => Exited code
          | None => Running
          end) as Hst.
  { subst w5. unfold child_runs. world_simpl. unfold spawned. world_simpl.
    rewrite log_ready_procs.
    destruct (child_exit (env_child env)).
    - apply status_of_set_snoc.
    - apply status_of_snoc. }
  rewrite Hst.
  destruct (child_exit (env_child env)) as [code|].
  - unfold bind at 1. rewrite died_immediately_run.
    2:{ subst w5. unfold child_runs. world_simpl. apply dict_mem_get.
        eexists. apply dict_get_set_eq. }
    unfold raise, bind, logger, modify. rewrite Hw5. reflexivity.
  - unfold bind at 1. rewrite verify_port_run.
    unfold bind, logger, modify, ret. rewrite Hw5. reflexivity.
Qed.
End StartServer.

(* ===================================================================== *)
(** * Properties of [RatholeServerManager] *)
(* ===================================================================== *)

Section RatholeProperties.
Import Rathole.

(** ** [is_running] *)

(** Killing a child from outside the manager. *)
Definition external_kill (pid : nat) : World -> World := deliver_sigkill pid.

Lemma is_running_run tid w :
  is_running tid w =
  match Dict.get tid (active_servers w) with
  | None => (Ret false, w)
  | Some (Popen pid) => (Ret (alive w pid), w)
  | Some (LogFile _) => (Raise (no_attribute file_cls "poll"), w)
  end.
Proof.
  destruct (Dict.get tid (active_servers w)) as [[pid|fd]|] eqn:E;
    cbv beta iota delta [is_running bind active_contains active_getitem gets Dict.mem
                         negb poll ret raise alive proc_status];
    rewrite !E; try reflexivity.
  cbv beta iota. now destruct (status_of (procs w) pid).
Qed.

Lemma alive_external_kill pid w : alive (external_kill pid w) pid = false.
Proof.
  unfold alive, proc_status, external_kill, deliver_sigkill. cbn.
  unfold sigkill_procs. destruct (status_of (procs w) pid) eqn:E.
  - assert (pid < length (procs w))%nat as Hlt.
    { unfold status_of in E. destruct (procs w !! pid) eqn:E'; [|discriminate].
      now apply lookup_lt_Some in E'. }
    now rewrite status_of_set_eq.
  - now rewrite E.
Qed.


(** ** [stop_server] *)

(** The records [stop_server] adds to the log that are not informational. *)
Definition is_complaint (r : level * string) : bool :=
  match fst r with INFO => false | _ => true end.

Definition complaints (w w' : World) : list (level * string) :=
  List.filter is_complaint (drop (length (log w)) (log w')).

Definition error_stopping (tid : string) : level * string :=
  (WARNING, "Error stopping Rathole server for tunnel " +:+ tid +:+ ": "
            +:+ exn_str (no_attribute file_cls "terminate")).

Definition failed_to_delete (path : string) : level * string :=
  (WARNING, "Failed to delete config file " +:+ path +:+ ": "
            +:+ "[Errno 13] Permission denied: '" +:+ path +:+ "'").

Lemma config_removed_log tid w :
  log (config_removed tid w) =
  log w ++
  match server_configs w !! tid with
  | Some cfg =>
      match files w !! sc_config_path cfg with
      | Some _ =>
          if decide (sc_config_path cfg ∈ undeletable w)
          then [failed_to_delete (sc_config_path cfg)] else []
      | None => []
      end
  | None => []
  end.
Proof.
  unfold config_removed.
  destruct (server_configs w !! tid) as [cfg|]; [|now rewrite app_nil_r].
  destruct (files w !! sc_config_path cfg); [|now rewrite app_nil_r].
  destruct (decide (sc_config_path cfg ∈ undeletable w)); cbn; [reflexivity|].
  now rewrite app_nil_r.
Qed.

Lemma stopped_log tid w :
  log (stopped tid w) =
  log w ++
  match Dict.get tid (active_servers w) with
  | Some (Popen _) => [(INFO, "Stopped Rathole server for tunnel " +:+ tid)]
  | Some (LogFile _) =>
      [error_stopping tid; (INFO, "Stopped Rathole server for tunnel " +:+ tid)]
  | None => []
  end ++
  match server_configs w !! tid with
  | Some cfg =>
      match files w !! sc_config_path cfg with
      | Some _ =>
          if decide (sc_config_path cfg ∈ undeletable w)
          then [failed_to_delete (sc_config_path cfg)] else []
      | None => []
      end
  | None => []
  end.
Proof.
  unfold stopped. rewrite config_removed_log.
  destruct (Dict.get tid (active_servers w)) as [h|].
  - cbn [server_configs files undeletable log with_log forgotten with_active with_fds].
    destruct (process_stopped_frame tid h w) as (_ & -> & -> & _ & _ & -> & _).
    destruct h as [pid|fd]; cbn; rewrite <- ?app_assoc; reflexivity.
  - reflexivity.
Qed.

Lemma stopped_not_alive tid pid w :
  Dict.get tid (active_servers w) = Some (Popen pid) ->
  alive (stopped tid w) pid = false.
Proof.
  intros E. unfold alive, proc_status. rewrite stopped_procs, E.
  pose proof (stopped_not_running pid (procs w)) as H.
  destruct (status_of (sigkill_procs pid (sigterm_procs pid (procs w))) pid); congruence.
Qed.

Lemma stopped_untracked tid w :
  Dict.get tid (active_servers w) = None ->
  server_configs w !! tid = None ->
  stopped tid w = w.
Proof.
  intros E1 E2. unfold stopped. rewrite E1. unfold config_removed. now rewrite E2.
Qed.


(** The sentence of C5 that fails: a failure while closing the log handle
    would be logged. *)
Definition close_failure_is_logged : Prop :=
  forall (tid : string) (w : World) (pid fd : nat),
    Dict.get tid (active_servers w) = Some (Popen pid) ->
    Dict.get (log_key tid) (active_servers w) = Some (LogFile fd) ->
    fd ∈ failing_close w ->
    complaints w (snd (stop_server tid w)) <> [].

(** A manager with one running server whose log file cannot be closed. *)
Definition world_bad_log : World :=
  mkWorld [("t1_log", LogFile 0); ("t1", Popen 0)] ∅ ∅
          [mkProcess ["/usr/local/bin/rathole"; "-s"; "/app/data/rathole/t1.toml"]
                     Running (Some (-15))]
          [mkFileObj "/app/data/rathole/rathole_t1.log" false]
          {[ "/usr/local/bin/rathole" ]} ∅ {[ 0%nat ]} [] [].


End RatholeProperties.

(* ===================================================================== *)
(** * The world after [start_server] *)
(* ===================================================================== *)

Section StartFacts.
Import Rathole.
Variables (tid remote_addr token : string) (proxy_port : Z) (env : StartEnv).

Local Notation "'prepared''" := (prepared tid remote_addr token proxy_port).
Local Notation "'log_ready''" := (log_ready tid remote_addr token proxy_port).
Local Notation "'running''" := (running_world tid remote_addr token proxy_port env).
Local Notation "'new_pid' w" := (length (procs (prepared' w))) (at level 10).
Local Notation "'new_fd' w" :=
  (pred (length (fds (log_ready' (prepared' w))))) (at level 10).
Local Notation "'new_config'" :=
  (mkServerConfig remote_addr token proxy_port (bind_addr_of remote_addr) (config_path tid)).

Lemma lookup_last {A} (l : list A) (x : A) :
  (l ++ [x]) !! pred (length (l ++ [x])) = Some x.
Proof. rewrite length_app. cbn. rewrite Nat.add_1_r. cbn. apply lookup_snoc. Qed.

Lemma probed_frame pid w :
  active_servers (probed remote_addr env pid w) = active_servers w /\
  server_configs (probed remote_addr env pid w) = server_configs w /\
  files (probed remote_addr env pid w) = files w /\
  procs (probed remote_addr env pid w) = procs w /\
  fds (probed remote_addr env pid w) = fds w /\
  undeletable (probed remote_addr env pid w) = undeletable w.
Proof. unfold probed. destruct (env_probe env); cbn; auto 10. Qed.

Lemma log_ready_frame w :
  active_servers (log_ready' w) = active_servers w /\
  server_configs (log_ready' w) = server_configs w /\
  procs (log_ready' w) = procs w /\
  installed (log_ready' w) = installed w /\
  undeletable (log_ready' w) = undeletable w /\
  failing_close (log_ready' w) = failing_close w /\
  log (log_ready' w) = log w /\
  trace (log_ready' w) = trace w.
Proof. unfold log_ready. case_decide; cbn; auto 10. Qed.

Lemma log_ready_new_fd w :
  fds (log_ready' w) !! pred (length (fds (log_ready' w)))
  = Some (mkFileObj (log_file tid) false).
Proof.
  unfold log_ready. case_decide; cbn; apply lookup_last.
Qed.

Lemma is_Some_alter {V} (f : V -> V) (k k' : string) (m : gmap string V) :
  is_Some (alter f k m !! k') <-> is_Some (m !! k').
Proof.
  rewrite lookup_alter. case_decide as E; [|reflexivity].
  subst k'. apply fmap_is_Some.
Qed.

Lemma log_ready_keeps_files w (k : string) :
  is_Some (files w !! k) -> is_Some (files (log_ready' w) !! k).
Proof.
  intros H. unfold log_ready, log_started, preamble, fallback_preamble.
  case_decide; cbn;
    repeat (apply is_Some_alter);
    repeat (rewrite lookup_insert; case_decide; [eauto|]);
    repeat (apply is_Some_alter);
    repeat (rewrite lookup_insert; case_decide; [eauto|]); exact H.
Qed.

(** ** The prepared world *)

Lemma prepared_active w :
  Dict.get tid (active_servers (prepared' w)) = None.
Proof.
  unfold prepared. cbn.
  destruct (Dict.get tid (active_servers w)) eqn:E; [|exact E].
  rewrite stopped_active. cbn. rewrite E.
  rewrite dict_get_del_ne by apply log_key_ne. apply dict_get_del_eq.
Qed.

Lemma prepared_undeletable w : undeletable (prepared' w) = undeletable w.
Proof.
  unfold prepared. cbn.
  destruct (Dict.get tid (active_servers w)); [|reflexivity].
  now rewrite (proj1 (proj2 (stopped_oracles tid _))).
Qed.

Lemma prepared_installed w : installed (prepared' w) = installed w.
Proof.
  unfold prepared. cbn.
  destruct (Dict.get tid (active_servers w)); [|reflexivity].
  now rewrite (proj1 (stopped_oracles tid _)).
Qed.

Lemma prepared_config w : server_configs (prepared' w) !! tid = Some new_config.
Proof. unfold prepared. cbn. apply lookup_insert_eq. Qed.

Lemma prepared_file w :
  files (prepared' w) !! config_path tid
  = Some (config_of tid remote_addr token proxy_port).
Proof. unfold prepared. cbn. apply lookup_insert_eq. Qed.

(** ** The world with the child launched *)

Lemma running_active exe w :
  active_servers (running' exe w) =
  Dict.set tid (Popen (new_pid w))
    (Dict.set (log_key tid) (LogFile (new_fd w)) (active_servers (prepared' w))).
Proof.
  unfold running_world, slept, recorded, spawned. cbn.
  now rewrite (proj1 (log_ready_frame _)).
Qed.

Lemma running_record exe w :
  Dict.get tid (active_servers (running' exe w)) = Some (Popen (new_pid w)).
Proof. rewrite running_active. apply dict_get_set_eq. Qed.

Lemma running_log_handle exe w :
  Dict.get (log_key tid) (active_servers (running' exe w)) = Some (LogFile (new_fd w)).
Proof.
  rewrite running_active.
  rewrite dict_get_set_ne by (apply not_eq_sym, log_key_ne).
  apply dict_get_set_eq.
Qed.

Lemma running_config exe w :
  server_configs (running' exe w) !! tid = Some new_config.
Proof.
  unfold running_world, slept, recorded, spawned. cbn.
  rewrite (proj1 (proj2 (log_ready_frame _))). apply prepared_config.
Qed.

Lemma running_undeletable exe w : undeletable (running' exe w) = undeletable w.
Proof.
  unfold running_world, slept, recorded, spawned. cbn.
  rewrite (proj1 (proj2 (proj2 (proj2 (proj2 (log_ready_frame _)))))).
  apply prepared_undeletable.
Qed.

Lemma running_fds exe w : fds (running' exe w) = fds (log_ready' (prepared' w)).
Proof. reflexivity. Qed.

Lemma running_config_file exe w :
  is_Some (files (running' exe w) !! config_path tid).
Proof.
  unfold running_world, slept, recorded, spawned. cbn.
  apply is_Some_alter. apply log_ready_keeps_files.
  rewrite prepared_file. eauto.
Qed.

End StartFacts.

(* ===================================================================== *)
(** * Properties of [start_server] *)
(* ===================================================================== *)

Section StartProperties.
Import Rathole.

(** A machine with the packaged binary, a child that keeps running and
    answers SIGTERM, and a port that accepts connections. *)
Definition bins_ok : gset string := {[ "/usr/local/bin/rathole" ]}.
Definition child_ok : Child := mkChild None "listening" (Some (-15)).
Definition env_ok : StartEnv := mkStartEnv child_ok None ProbeListening.

(** A child that prints an error and exits with code 1 at once. *)
Definition child_bad : Child := mkChild (Some 1) "boom" (Some (-15)).
Definition env_bad : StartEnv := mkStartEnv child_bad None ProbeListening.

Lemma start_server_ok_inv tid ra tok pp env w w1 :
  start_server tid ra tok pp env w = (Ret true, w1) ->
  exists exe,
    launcher (prepared tid ra tok pp w) = Some exe /\
    child_exit (env_child env) = None /\
    w1 = with_log (fun l => l ++ [started_message tid ra pp])
           (probed ra env (length (procs (prepared tid ra tok pp w)))
              (running_world tid ra tok pp env exe w)).
Proof.
  rewrite start_server_run. unfold start_result.
  destruct (Str.has_char ":" ra); [|discriminate].
  destruct (launcher (prepared tid ra tok pp w)) as [exe|]; [|discriminate].
  destruct (child_exit (env_child env)); [discriminate|].
  intros H. injection H as <-. eauto.
Qed.

(** What a successful [start_server] leaves behind. *)
Lemma start_server_ok_state tid ra tok pp env w w1 :
  start_server tid ra tok pp env w = (Ret true, w1) ->
  exists pid fd,
    Dict.get tid (active_servers w1) = Some (Popen pid) /\
    Dict.get (log_key tid) (active_servers w1) = Some (LogFile fd) /\
    fds w1 !! fd = Some (mkFileObj (log_file tid) false) /\
    server_configs w1 !! tid
    = Some (mkServerConfig ra tok pp (bind_addr_of ra) (config_path tid)) /\
    is_Some (files w1 !! config_path tid) /\
    undeletable w1 = undeletable w.
Proof.
  intros H. apply start_server_ok_inv in H as (exe & _ & _ & ->).
  set (w5 := running_world tid ra tok pp env exe w).
  destruct (probed_frame ra env (length (procs (prepared tid ra tok pp w))) w5)
    as (Ha & Hc & Hf & _ & Hd & Hu).
  exists (length (procs (prepared tid ra tok pp w))),
         (pred (length (fds (log_ready tid ra tok pp (prepared tid ra tok pp w))))).
  cbn [active_servers server_configs files fds undeletable with_log].
  rewrite Ha, Hc, Hf, Hd, Hu. subst w5.
  split; [apply running_record|]. split; [apply running_log_handle|].
  split; [rewrite running_fds; apply log_ready_new_fd|].
  split; [apply running_config|]. split; [apply running_config_file|].
  apply running_undeletable.
Qed.

(** ** Start followed by stop *)



(** The claim C2 as the specification states it: the file is always gone. *)
Definition start_stop_removes_file : Prop :=
  forall (tid ra tok : string) (pp : Z) (env : StartEnv) (w w1 : World),
    start_server tid ra tok pp env w = (Ret true, w1) ->
    files (snd (stop_server tid w1)) !! config_path tid = None.


(** ** The child exits at once *)

Lemma log_ready_log_file tid ra tok pp w :
  is_Some (files (log_ready tid ra tok pp w) !! log_file tid).
Proof.
  unfold log_ready, log_started, preamble, fallback_preamble.
  case_decide; cbn; repeat (apply is_Some_alter);
    rewrite lookup_insert_eq; eauto.
Qed.

Lemma running_log_file tid ra tok pp env exe w :
  exists pre,
    files (running_world tid ra tok pp env exe w) !! log_file tid
    = Some (pre +:+ child_output (env_child env)).
Proof.
  unfold running_world, slept, recorded, spawned. cbn.
  destruct (log_ready_log_file tid ra tok pp (prepared tid ra tok pp w)) as [pre Hpre].
  exists pre. rewrite lookup_alter, decide_True by reflexivity. now rewrite Hpre.
Qed.

Lemma launcher_available w :
  primary_bin ∈ installed w \/ fallback_bin ∈ installed w ->
  exists exe, launcher w = Some exe.
Proof.
  intros H. unfold launcher.
  destruct (decide (primary_bin ∈ installed w)); [eauto|].
  destruct (decide (fallback_bin ∈ installed w)); [eauto|]. tauto.
Qed.

Lemma occurs_in_message (code rest : string) :
  Str.occurs_in ("exit code: " +:+ code)
    ("rathole server failed to start (exit code: " +:+ code +:+ rest).
Proof. exists "rathole server failed to start (", rest. reflexivity. Qed.

Lemma with_log_active f w : active_servers (with_log f w) = active_servers w.
Proof. reflexivity. Qed.

Lemma with_log_configs f w : server_configs (with_log f w) = server_configs w.
Proof. reflexivity. Qed.

Lemma with_log_files f w : files (with_log f w) = files w.
Proof. reflexivity. Qed.

Lemma rolled_back_active tid env code w :
  active_servers (rolled_back tid env code w)
  = Dict.del (log_key tid) (Dict.del tid (active_servers w)).
Proof. reflexivity. Qed.

Lemma rolled_back_configs tid env code w :
  server_configs (rolled_back tid env code w) = delete tid (server_configs w).
Proof. reflexivity. Qed.

Lemma rolled_back_files tid env code w : files (rolled_back tid env code w) = files w.
Proof. reflexivity. Qed.

(** C4, as the code has it.  When the address is well formed, a binary can
    be launched and the child has exited with [code] by the time of the
    liveness check, [start_server] raises [RuntimeError]; the message contains
    [exit code: <code>] and, when the log can be read back, ends with the last
    500 characters of the log, which itself ends with what the child printed.
    Afterwards neither the tunnel id nor its log key is in [active_servers]
    and the tunnel has no entry in [server_configs].  The rendered
    configuration file and the log file are still on disk: this path deletes
    nothing. *)
Theorem start_server_child_died
    (tid ra tok : string) (pp : Z) (env : StartEnv) (w : World) (code : Z) :
  Str.has_char ":" ra = true ->
  primary_bin ∈ installed w \/ fallback_bin ∈ installed w ->
  child_exit (env_child env) = Some code ->
  exists msg w',
    start_server tid ra tok pp env w = (Raise (RuntimeError msg), w') /\
    Str.occurs_in ("exit code: " +:+ Str.of_int code) msg /\
    match env_log_read_error env with
    | None =>
        exists content,
          Str.ends_with (child_output (env_child env)) content /\
          msg = "rathole server failed to start (exit code: " +:+ Str.of_int code
                +:+ "): " +:+ Str.tail500 content
    | Some e =>
        msg = "rathole server failed to start (exit code: " +:+ Str.of_int code
              +:+ "), could not read log: " +:+ exn_str e
    end /\
    Dict.get tid (active_servers w') = None /\
    Dict.get (log_key tid) (active_servers w') = None /\
    server_configs w' !! tid = None /\
    is_Some (files w' !! config_path tid) /\
    is_Some (files w' !! log_file tid).
Proof.
  intros Hcolon Hbin Hexit.
  rewrite <- (prepared_installed tid ra tok pp w) in Hbin.
  apply launcher_available in Hbin as [exe Hexe].
  rewrite start_server_run. unfold start_result.
  rewrite Hcolon, Hexe, Hexit. cbv zeta.
  destruct (running_log_file tid ra tok pp env exe w) as [pre Hpre].
  pose proof (running_config_file tid ra tok pp env exe w) as Hcfg.
  generalize dependent (running_world tid ra tok pp env exe w). intros w5 Hpre Hcfg.
  eexists _, _. split; [reflexivity|].
  split; [|split; [|split; [|split; [|split; [|split]]]]].
  - unfold died_message. rewrite Hpre.
    destruct (env_log_read_error env) as [e|]; apply occurs_in_message.
  - unfold died_message. rewrite Hpre.
    destruct (env_log_read_error env) as [e|]; [reflexivity|].
    exists (pre +:+ child_output (env_child env)). split; [|reflexivity].
    now exists pre.
  - rewrite with_log_active, rolled_back_active.
    rewrite dict_get_del_ne by apply log_key_ne. apply dict_get_del_eq.
  - rewrite with_log_active, rolled_back_active. apply dict_get_del_eq.
  - rewrite with_log_configs, rolled_back_configs. apply lookup_delete_eq.
  - rewrite with_log_files, rolled_back_files. exact Hcfg.
  - rewrite with_log_files, rolled_back_files, Hpre. eauto.
Qed.

Lemma start_server_child_died_witness :
  exists msg w',
    start_server "t1" "0.0.0.0:23333" "abc" 8989 env_bad (init_world bins_ok)
    = (Raise (RuntimeError msg), w') /\
    Str.occurs_in "exit code: 1" msg /\
    Dict.get "t1" (active_servers w') = None /\
    server_configs w' !! "t1" = None /\
    is_Some (files w' !! config_path "t1").
Proof.
  destruct (start_server_child_died "t1" "0.0.0.0:23333" "abc" 8989 env_bad
              (init_world bins_ok) 1)
    as (msg & w' & H1 & H2 & _ & H4 & _ & H6 & H7 & _).
  - reflexivity.
  - left. unfold init_world, machine, bins_ok, primary_bin. cbn [installed]. set_solver.
  - reflexivity.
  - exists msg, w'. repeat split; assumption.
Defined.

(** The claim C4 as the specification states it: after the failure the
    configuration file is on disk only if removing it failed. *)
Definition failed_start_removes_config : Prop :=
  forall (tid ra tok : string) (pp : Z) (env : StartEnv) (w w' : World) (msg : string),
    start_server tid ra tok pp env w = (Raise (RuntimeError msg), w') ->
    is_Some (files w' !! config_path tid) ->
    config_path tid ∈ undeletable w.

(** C4, counterexample.  The packaged binary exits with code 1 on a machine
    where every file can be deleted: [start_server] raises, and the rendered
    configuration file is still on disk, because the failure path drops the
    [server_configs] entry without unlinking the file it names. *)
Lemma failed_start_leaves_config_file : ~ failed_start_removes_config.
Proof.
  intros H.
  assert (exists msg,
            start_server "t1" "0.0.0.0:23333" "abc" 8989 env_bad (init_world bins_ok)
            = (Raise (RuntimeError msg),
               snd (start_server "t1" "0.0.0.0:23333" "abc" 8989 env_bad
                      (init_world bins_ok)))) as [msg Hrun]
    by (eexists; vm_compute; reflexivity).
  specialize (H _ _ _ _ _ _ _ _ Hrun).
  assert (config_path "t1" ∈ undeletable (init_world bins_ok)) as Hin.
  { apply H. vm_compute. eauto. }
  unfold init_world, machine in Hin. cbn [undeletable] in Hin.
  exact (not_elem_of_empty _ Hin).
Qed.
End StartProperties.

(* ===================================================================== *)
(** * The log handle stored in [active_servers] *)
(* ===================================================================== *)

Section LogHandle.
Import Rathole.

(** ** [get_active_servers] meets a log handle *)

Lemma poll_entry_returns_or_raises item acc w :
  (exists acc' w', poll_entry item acc w = (Ret acc', w')) \/
  (exists e w', poll_entry item acc w = (Raise e, w')).
Proof.
  destruct item as [k [pid|fd]].
  - unfold poll_entry, bind, poll, gets.
    destruct (proc_status w pid); [left; eauto|].
    unfold active_delitem.
    destruct (Dict.mem k (active_servers w)); [|right; eauto].
    unfold configs_contains, gets, when, configs_delitem, ret.
    case_bool_decide; [|left; eauto].
    world_simpl. destruct (server_configs w !! k); [left|right]; eauto.
  - right. unfold poll_entry, bind, poll, raise. eauto.
Qed.

Lemma for_each_poll_log_handle items :
  (exists k fd, In (k, LogFile fd) items) ->
  forall acc w, exists e w', for_each items acc poll_entry w = (Raise e, w').
Proof.
  induction items as [|item items IH]; intros (k & fd & Hin) acc w.
  - destruct Hin.
  - cbn [for_each]. unfold bind.
    destruct Hin as [->|Hin].
    + unfold poll_entry, bind, poll, raise. eauto.
    + destruct (poll_entry_returns_or_raises item acc w)
        as [(acc' & w' & ->)|(e & w' & ->)]; [|eauto].
      apply IH. eauto.
Qed.

Lemma get_active_servers_log_handle w :
  (exists k fd, In (k, LogFile fd) (active_servers w)) ->
  exists e w', get_active_servers w = (Raise e, w').
Proof.
  intros H. unfold get_active_servers, bind, gets.
  now apply for_each_poll_log_handle.
Qed.

(** When the log handle is the first entry, the exception is the
    [AttributeError] of [poll] and nothing has been pruned. *)
Lemma get_active_servers_log_handle_first k fd rest w :
  active_servers w = (k, LogFile fd) :: rest ->
  get_active_servers w = (Raise (no_attribute file_cls "poll"), w).
Proof.
  intros H. unfold get_active_servers, bind, gets. rewrite H. reflexivity.
Qed.

(** ** [cleanup_all] meets a log handle *)

Lemma cleanup_all_run w :
  cleanup_all w
  = (Ret tt, fold_left (fun w k => stopped k w) (Dict.keys (active_servers w)) w).
Proof.
  unfold cleanup_all, bind, gets.
  generalize (Dict.keys (active_servers w)) as ks. intros ks. revert w.
  induction ks as [|k ks IH]; intros w; [reflexivity|].
  cbn [for_each fold_left]. unfold bind. rewrite stop_server_run. apply IH.
Qed.

Lemma stopped_log_grows k w r : In r (log w) -> In r (log (stopped k w)).
Proof. intros H. rewrite stopped_log. apply in_or_app. now left. Qed.

Lemma fold_stopped_log_grows ks w r :
  In r (log w) -> In r (log (fold_left (fun w k => stopped k w) ks w)).
Proof.
  revert w. induction ks as [|k ks IH]; intros w H; [exact H|].
  cbn [fold_left]. apply IH. now apply stopped_log_grows.
Qed.

Lemma string_append_inj_r (a b s : string) : a +:+ s = b +:+ s -> a = b.
Proof.
  revert b. induction a as [|x a IH]; intros [|y b] H.
  - reflexivity.
  - apply (f_equal String.length) in H.
    rewrite !string_length_append in H. cbn [String.length] in H. lia.
  - apply (f_equal String.length) in H.
    rewrite !string_length_append in H. cbn [String.length] in H. lia.
  - rewrite !string_append_cons in H. injection H as -> H. f_equal. now apply IH.
Qed.

Lemma log_key_inj a b : log_key a = log_key b -> a = b.
Proof. apply string_append_inj_r. Qed.

(** Stopping [k] leaves the entry under any key other than [k] and its log
    key. *)
Lemma stopped_get_other k k' w :
  k <> k' -> log_key k <> k' ->
  Dict.get k' (active_servers (stopped k w)) = Dict.get k' (active_servers w).
Proof.
  intros H1 H2. rewrite stopped_active.
  destruct (Dict.get k (active_servers w)); [|reflexivity].
  rewrite dict_get_del_ne by exact H2. now apply dict_get_del_ne.
Qed.

Lemma fold_stopped_get_other ks k' w :
  Forall (fun k => k <> k' /\ log_key k <> k') ks ->
  Dict.get k' (active_servers (fold_left (fun w k => stopped k w) ks w))
  = Dict.get k' (active_servers w).
Proof.
  revert w. induction ks as [|k ks IH]; intros w H; [reflexivity|].
  inversion H as [|? ? [H1 H2] Hrest]; subst.
  cbn [fold_left]. rewrite IH by exact Hrest. now apply stopped_get_other.
Qed.

Section DictOrder.
Context {V : Type}.
Implicit Types (d : list (string * V)).

Lemma dict_get_None_keys k d : Dict.get k d = None -> ~ In k (Dict.keys d).
Proof.
  induction d as [|[k' v'] d IH]; cbn; [tauto|].
  destruct (String.eqb_spec k k') as [->|Hne]; [discriminate|].
  intros H [Heq|Hin]; [congruence|]. now apply IH.
Qed.

Lemma dict_set_absent k v d : Dict.get k d = None -> Dict.set k v d = d ++ [(k, v)].
Proof.
  induction d as [|[k' v'] d IH]; cbn; [reflexivity|].
  destruct (String.eqb k k'); [discriminate|]. intros H. now rewrite IH.
Qed.

Lemma dict_get_Some_keys k v d : Dict.get k d = Some v -> In k (Dict.keys d).
Proof. intros H. eapply dict_In_keys, dict_get_In, H. Qed.

End DictOrder.

(** When a log handle sits under the log key of [tid] and [tid] itself comes
    after it in the dictionary, [cleanup_all] calls [terminate] on the handle
    and logs the [AttributeError]. *)
Lemma cleanup_all_log_handle d1 tid h fd w :
  active_servers w = d1 ++ [(tid, h)] ->
  Dict.get tid d1 = None ->
  Dict.get (log_key tid) d1 = Some (LogFile fd) ->
  In (error_stopping (log_key tid)) (log (snd (cleanup_all w))).
Proof.
  intros Hact Htid Hlog.
  rewrite cleanup_all_run. cbn [snd]. rewrite Hact.
  unfold Dict.keys. rewrite map_app. fold (Dict.keys d1).
  assert (In (log_key tid) (Dict.keys d1)) as Hin
    by (eapply dict_get_Some_keys, Hlog).
  apply list_elem_of_In in Hin.
  apply list_elem_of_split_l in Hin as (pre & post & Hsplit & Hpre).
  rewrite Hsplit, <- app_assoc, fold_left_app. cbn [app fold_left].
  apply fold_stopped_log_grows.
  set (wa := fold_left (fun w k => stopped k w) pre w).
  assert (Dict.get (log_key tid) (active_servers wa) = Some (LogFile fd)) as Hwa.
  { subst wa. rewrite fold_stopped_get_other.
    - rewrite Hact.
      assert (Dict.get (log_key tid) (d1 ++ [(tid, h)])
              = Dict.get (log_key tid) d1) as ->; [|exact Hlog].
      clear -Hlog. induction d1 as [|[k' v'] d1 IH]; cbn in *; [discriminate|].
      destruct (String.eqb (log_key tid) k'); [reflexivity|]. now apply IH.
    - apply Forall_forall. intros k Hk. split.
      + intros ->. apply Hpre. exact Hk.
      + intros Heq. apply log_key_inj in Heq. subst k.
        apply (dict_get_None_keys _ _ Htid).
        rewrite Hsplit. apply in_or_app. left. apply list_elem_of_In. exact Hk. }
  rewrite stopped_log, Hwa.
  apply in_or_app. right. apply in_or_app. left. now left.
Qed.

(** C10.  After every successful [start_server], [active_servers] holds the
    process under the tunnel id and, under the tunnel id followed by [_log],
    the open log file rather than a process.  The two loops over the
    dictionary do not tell such an entry from a process: [get_active_servers]
    calls [poll] on it, which the file object does not have, so the call
    raises instead of returning a list; [cleanup_all] calls [stop_server] on
    its key, whose [terminate] fails on the file object and is logged. *)
Theorem start_server_stores_log_handle
    (tid ra tok : string) (pp : Z) (env : StartEnv) (w w1 : World) :
  start_server tid ra tok pp env w = (Ret true, w1) ->
  exists pid fd,
    Dict.get tid (active_servers w1) = Some (Popen pid) /\
    Dict.get (log_key tid) (active_servers w1) = Some (LogFile fd) /\
    fds w1 !! fd = Some (mkFileObj (log_file tid) false) /\
    In (log_key tid, LogFile fd) (active_servers w1) /\
    In (log_key tid) (Dict.keys (active_servers w1)) /\
    (exists e w2, get_active_servers w1 = (Raise e, w2)) /\
    In (error_stopping (log_key tid)) (log (snd (cleanup_all w1))).
Proof.
  intros H.
  destruct (start_server_ok_state _ _ _ _ _ _ _ H)
    as (pid & fd & Hrec & Hlog & Hfd & _).
  exists pid, fd.
  assert (In (log_key tid, LogFile fd) (active_servers w1)) as Hin
    by now apply dict_get_In.
  split; [exact Hrec|]. split; [exact Hlog|]. split; [exact Hfd|].
  split; [exact Hin|]. split; [eapply dict_In_keys, Hin|].
  split; [apply get_active_servers_log_handle; eauto|].
  apply start_server_ok_inv in H as (exe & _ & _ & Hw1).
  assert (active_servers w1
          = Dict.set tid (Popen (length (procs (prepared tid ra tok pp w))))
              (Dict.set (log_key tid)
                 (LogFile (pred (length (fds (log_ready tid ra tok pp
                                               (prepared tid ra tok pp w))))))
                 (active_servers (prepared tid ra tok pp w)))) as Hact.
  { rewrite Hw1. rewrite with_log_active.
    rewrite (proj1 (probed_frame ra env _ _)). apply running_active. }
  pose proof (prepared_active tid ra tok pp w) as Hnone.
  generalize dependent (active_servers (prepared tid ra tok pp w)). intros d0 Hact Hnone.
  rewrite Hact in Hlog.
  rewrite dict_get_set_ne in Hlog by (apply not_eq_sym, log_key_ne).
  rewrite dict_set_absent in Hact.
  2:{ rewrite dict_get_set_ne by apply log_key_ne. exact Hnone. }
  eapply cleanup_all_log_handle; [exact Hact| |exact Hlog].
  rewrite dict_get_set_ne by apply log_key_ne. exact Hnone.
Qed.

Lemma start_server_stores_log_handle_witness :
  exists pid fd,
    Dict.get (log_key "t1")
      (active_servers
         (snd (start_server "t1" "0.0.0.0:23333" "abc" 8989 env_ok (init_world bins_ok))))
    = Some (LogFile fd) /\
    Dict.get "t1"
      (active_servers
         (snd (start_server "t1" "0.0.0.0:23333" "abc" 8989 env_ok (init_world bins_ok))))
    = Some (Popen pid).
Proof.
  assert (start_server "t1" "0.0.0.0:23333" "abc" 8989 env_ok (init_world bins_ok)
          = (Ret true,
             snd (start_server "t1" "0.0.0.0:23333" "abc" 8989 env_ok
                    (init_world bins_ok)))) as Hstart
    by (vm_compute; reflexivity).
  destruct (start_server_stores_log_handle _ _ _ _ _ _ _ Hstart)
    as (pid & fd & H1 & H2 & _).
  exists pid, fd. split; assumption.
Defined.

End LogHandle.

(* ===================================================================== *)
(** * [get_active_servers] *)
(* ===================================================================== *)

Section GetActiveServers.
Import Rathole.

(** The manager after one successful [start_server] on a fresh machine, and
    the same manager after the child has been killed from outside. *)
Definition world_started : World :=
  snd (start_server "t1" "0.0.0.0:23333" "abc" 8989 env_ok (init_world bins_ok)).

Definition world_killed : World := external_kill 0 world_started.

(** C3, the code at the failing input.  [start_server] has succeeded and
    the child has then been killed.  [get_active_servers] does not return the
    list of live ids: its first entry is the log handle stored by
    [start_server], [poll] on it raises [AttributeError], and the dead record
    of [t1] is still in [active_servers] and [server_configs] afterwards. *)
Theorem get_active_servers_raises_after_start :
  fst (start_server "t1" "0.0.0.0:23333" "abc" 8989 env_ok (init_world bins_ok))
  = Ret true /\
  alive world_killed 0 = false /\
  get_active_servers world_killed
  = (Raise (no_attribute file_cls "poll"), world_killed) /\
  get_active_servers world_started
  = (Raise (no_attribute file_cls "poll"), world_started) /\
  Dict.get "t1" (active_servers world_killed) = Some (Popen 0) /\
  is_Some (server_configs world_killed !! "t1").
Proof.
  split; [vm_compute; reflexivity|].
  split; [apply alive_external_kill|].
  split; [apply (get_active_servers_log_handle_first "t1_log" 0%nat [("t1", Popen 0%nat)]);
          vm_compute; reflexivity|].
  split; [apply (get_active_servers_log_handle_first "t1_log" 0%nat [("t1", Popen 0%nat)]);
          vm_compute; reflexivity|].
  split; [vm_compute; reflexivity|].
  vm_compute. eauto.
Qed.

(** On a dictionary that holds processes only, under distinct keys, the
    loop does what its comment says: it returns the keys of the live
    processes in order and removes the dead ones from both dictionaries. *)
Fixpoint live_keys (ps : list Process) (d : list (string * handle)) : list string :=
  match d with
  | [] => []
  | (k, Popen pid) :: d' =>
      match status_of ps pid with
      | Running => k :: live_keys ps d'
      | Exited _ => live_keys ps d'
      end
  | (k, LogFile _) :: d' => live_keys ps d'
  end.

Fixpoint dead_keys (ps : list Process) (d : list (string * handle)) : list string :=
  match d with
  | [] => []
  | (k, Popen pid) :: d' =>
      match status_of ps pid with
      | Running => dead_keys ps d'
      | Exited _ => k :: dead_keys ps d'
      end
  | (k, LogFile _) :: d' => dead_keys ps d'
  end.

Definition pruned (ks : list string) (w : World) : World :=
  fold_left (fun w k => with_configs (delete k) (with_active (Dict.del k) w)) ks w.

Definition only_processes (d : list (string * handle)) : Prop :=
  Forall (fun item => exists pid, snd item = Popen pid) d.

Lemma pruned_procs ks w : procs (pruned ks w) = procs w.
Proof. revert w. induction ks as [|k ks IH]; intros w; [reflexivity|]. cbn. now rewrite IH. Qed.

Lemma pruned_get ks k w :
  ~ In k ks ->
  Dict.get k (active_servers (pruned ks w)) = Dict.get k (active_servers w).
Proof.
  revert w. induction ks as [|k' ks IH]; intros w Hk; [reflexivity|].
  cbn [pruned fold_left]. fold (pruned ks). rewrite IH by (intros H; apply Hk; now right).
  cbn. apply dict_get_del_ne. intros ->. apply Hk. now left.
Qed.

Lemma dead_keys_subset ps d k : In k (dead_keys ps d) -> In k (Dict.keys d).
Proof.
  induction d as [|[k' [pid|fd]] d IH]; cbn; [tauto| |].
  - destruct (status_of ps pid); cbn; intuition.
  - intuition.
Qed.

Lemma poll_entry_process k pid acc w :
  Dict.mem k (active_servers w) = true ->
  poll_entry (k, Popen pid) acc w =
  match status_of (procs w) pid with
  | Running => (Ret (acc ++ [k]), w)
  | Exited _ => (Ret acc, with_configs (delete k) (with_active (Dict.del k) w))
  end.
Proof.
  intros Hmem.
  cbv beta iota delta [poll_entry bind poll gets proc_status active_delitem
    configs_contains when configs_delitem ret].
  destruct (status_of (procs w) pid); [reflexivity|].
  rewrite Hmem. world_simpl.
  destruct (server_configs w !! k) eqn:Ec.
  - rewrite bool_decide_true by eauto. cbv beta iota. world_simpl. now rewrite Ec.
  - rewrite bool_decide_false by (intros [? ?]; discriminate).
    destruct w. unfold with_configs, with_active in *. cbn in *.
    now rewrite delete_id.
Qed.

Lemma for_each_poll_processes (items : list (string * handle)) :
  only_processes items ->
  NoDup (Dict.keys items) ->
  forall acc w,
    (forall k, In k (Dict.keys items) -> Dict.mem k (active_servers w) = true) ->
    for_each items acc poll_entry w
    = (Ret (acc ++ live_keys (procs w) items), pruned (dead_keys (procs w) items) w).
Proof.
  induction items as [|[k h] items IH]; intros Hproc Hnd acc w Hmem.
  - cbn. now rewrite app_nil_r.
  - inversion Hproc as [|? ? [pid Hpid] Hproc']; subst. cbn in Hpid. subst h.
    inversion Hnd as [|? ? Hk Hnd']; subst.
    cbn [for_each live_keys dead_keys]. unfold bind at 1.
    rewrite poll_entry_process by (apply Hmem; now left).
    destruct (status_of (procs w) pid) eqn:E.
    + rewrite IH; auto.
      * now rewrite <- app_assoc.
      * intros k' Hk'. apply Hmem. now right.
    + rewrite IH; auto.
      intros k' Hk'. world_simpl. apply dict_mem_get.
      rewrite dict_get_del_ne
        by (intros ->; apply Hk; apply list_elem_of_In; exact Hk').
      apply dict_mem_get. apply Hmem. now right.
Qed.

(** X1.  When the dictionary holds processes only, under distinct keys,
    [get_active_servers] returns the keys of the live processes in insertion
    order and deletes the dead ones from both dictionaries. *)
Lemma get_active_servers_processes w :
  only_processes (active_servers w) ->
  NoDup (Dict.keys (active_servers w)) ->
  get_active_servers w
  = (Ret (live_keys (procs w) (active_servers w)),
     pruned (dead_keys (procs w) (active_servers w)) w).
Proof.
  intros Hp Hnd. unfold get_active_servers, bind, gets.
  rewrite for_each_poll_processes; auto.
  intros k Hk. unfold Dict.keys in Hk. apply in_map_iff in Hk as ([k' v] & <- & Hin).
  cbn. apply dict_mem_get.
  clear -Hin Hnd. induction (active_servers w) as [|[k0 v0] d IH]; [destruct Hin|].
  cbn. destruct (String.eqb_spec k' k0) as [->|Hne]; [eauto|].
  destruct Hin as [Heq|Hin]; [congruence|].
  inversion Hnd; subst. now apply IH.
Qed.

(** A manager with a live and a dead process and no log handle. *)
Definition world_two_processes : World :=
  with_active (fun _ => [("a", Popen 0%nat); ("b", Popen 1%nat)])
    (with_procs (fun _ => [mkProcess ["rathole"; "-s"; config_path "a"] Running None;
                           mkProcess ["rathole"; "-s"; config_path "b"] (Exited 1) None])
       (init_world bins_ok)).

Lemma get_active_servers_processes_witness :
  fst (get_active_servers world_two_processes) = Ret ["a"] /\
  Dict.keys (active_servers (snd (get_active_servers world_two_processes))) = ["a"].
Proof.
  rewrite (get_active_servers_processes world_two_processes).
  - split; vm_compute; reflexivity.
  - repeat constructor; eexists; reflexivity.
  - apply (bool_decide_unpack _). vm_compute. reflexivity.
Defined.

End GetActiveServers.

(* ===================================================================== *)
(** * At most one live process per tunnel id *)
(* ===================================================================== *)

Section OneProcess.
Import Rathole.

(** A process serves tunnel [tid] when it was launched on the configuration
    file of [tid], which names the ports it binds. *)
Definition serves (tid : string) (p : Process) : Prop :=
  exists exe, p_argv p = [exe; "-s"; config_path tid].

Definition live_in (ps : list Process) (tid : string) (pid : nat) : Prop :=
  exists p, ps !! pid = Some p /\ p_status p = Running /\ serves tid p.

Definition live_for (w : World) (tid : string) (pid : nat) : Prop :=
  live_in (procs w) tid pid.

(** The invariant of the manager for one tunnel id: a live process that
    serves the tunnel is the one recorded under its id. *)
Definition tracked (w : World) (tid : string) : Prop :=
  forall pid, live_for w tid pid -> Dict.get tid (active_servers w) = Some (Popen pid).

Definition at_most_one_live (w : World) (tid : string) : Prop :=
  forall pid pid', live_for w tid pid -> live_for w tid pid' -> pid = pid'.

Lemma tracked_at_most_one w tid : tracked w tid -> at_most_one_live w tid.
Proof.
  intros H pid pid' H1 H2. apply H in H1. apply H in H2. congruence.
Qed.

Lemma live_in_status ps tid pid : live_in ps tid pid -> status_of ps pid = Running.
Proof. intros (p & Hp & Hr & _). unfold status_of. now rewrite Hp. Qed.

(** ** The process table across [stop_server] *)

Lemma lookup_set_status pid pid' s ps p :
  set_status pid s ps !! pid' = Some p ->
  exists p0, ps !! pid' = Some p0 /\ p_argv p = p_argv p0 /\
             (p_status p = Running -> p_status p0 = Running \/ (pid = pid' /\ s = Running)).
Proof.
  unfold set_status. destruct (ps !! pid) as [q|] eqn:E.
  - destruct (decide (pid = pid')) as [<-|Hne].
    + rewrite list_lookup_insert_eq by (apply lookup_lt_Some in E; exact E).
      intros [= <-]. exists q. cbn. split; [exact E|]. split; [reflexivity|]. auto.
    + rewrite list_lookup_insert_ne by exact Hne. intros H. exists p. auto.
  - intros H. exists p. auto.
Qed.

Lemma live_in_stopped pid0 ps tid pid :
  live_in (sigkill_procs pid0 (sigterm_procs pid0 ps)) tid pid ->
  live_in ps tid pid /\ pid <> pid0.
Proof.
  intros Hlive.
  assert (pid <> pid0) as Hne.
  { intros ->. apply live_in_status in Hlive.
    now apply stopped_not_running in Hlive. }
  split; [|exact Hne].
  destruct Hlive as (p & Hp & Hr & Hs).
  rewrite stopped_other in Hp by (apply not_eq_sym, Hne).
  exists p. auto.
Qed.

(** ** The process table across [start_server] *)

Section Start.
Variables (tid ra tok : string) (pp : Z) (env : StartEnv).

Local Notation "'prepared''" := (prepared tid ra tok pp).

Definition new_process (exe : string) : Process :=
  mkProcess [exe; "-s"; config_path tid] Running (child_term (env_child env)).

Definition first_second (pid : nat) (ps : list Process) : list Process :=
  match child_exit (env_child env) with
  | Some code => set_status pid (Exited code) ps
  | None => ps
  end.

Lemma prepared_procs w :
  procs (prepared' w) =
  match Dict.get tid (active_servers w) with
  | Some (Popen pid0) => sigkill_procs pid0 (sigterm_procs pid0 (procs w))
  | _ => procs w
  end.
Proof.
  unfold prepared. cbn [procs with_configs with_files].
  destruct (Dict.get tid (active_servers w)) as [h|] eqn:E; [|reflexivity].
  rewrite stopped_procs. cbn [active_servers procs with_log]. now rewrite E.
Qed.

Lemma running_procs exe w :
  procs (running_world tid ra tok pp env exe w)
  = first_second (length (procs (prepared' w))) (procs (prepared' w) ++ [new_process exe]).
Proof.
  unfold running_world. cbv zeta. generalize (prepared' w) as w2. intros w2.
  unfold slept, recorded, spawned, first_second, new_process. cbn.
  rewrite (proj1 (proj2 (proj2 (log_ready_frame tid ra tok pp w2)))).
  reflexivity.
Qed.

Lemma prepared_none_live w :
  tracked w tid -> forall pid, ~ live_in (procs (prepared' w)) tid pid.
Proof.
  intros Htr pid Hlive. rewrite prepared_procs in Hlive.
  destruct (Dict.get tid (active_servers w)) as [[pid0|fd]|] eqn:E.
  - apply live_in_stopped in Hlive as [Hlive Hne].
    apply Htr in Hlive. congruence.
  - apply Htr in Hlive. congruence.
  - apply Htr in Hlive. congruence.
Qed.

Lemma live_in_first_second ps exe pid :
  live_in (first_second (length ps) (ps ++ [new_process exe])) tid pid ->
  live_in ps tid pid \/ (pid = length ps /\ child_exit (env_child env) = None).
Proof.
  intros (p & Hp & Hr & Hs). unfold first_second in Hp.
  destruct (Nat.lt_trichotomy pid (length ps)) as [Hlt|[Heq|Hgt]].
  - left. exists p. split; [|auto].
    destruct (child_exit (env_child env)).
    + rewrite lookup_set_status_ne in Hp by lia. now rewrite lookup_app_l in Hp.
    + now rewrite lookup_app_l in Hp.
  - right. split; [exact Heq|]. subst pid.
    destruct (child_exit (env_child env)) as [code|] eqn:E; [|reflexivity].
    exfalso.
    assert (status_of (set_status (length ps) (Exited code) (ps ++ [new_process exe]))
                      (length ps) = Running) as Hst
      by (unfold status_of; now rewrite Hp).
    rewrite status_of_set_snoc in Hst. discriminate.
  - exfalso.
    assert (pid < length (ps ++ [new_process exe]))%nat; [|rewrite length_app in *; cbn in *; lia].
    destruct (child_exit (env_child env)).
    + apply lookup_lt_Some in Hp. now rewrite set_status_length in Hp.
    + now apply lookup_lt_Some in Hp.
Qed.

Lemma start_result_procs w :
  procs (snd (start_result tid ra tok pp env w)) =
  if Str.has_char ":" ra then
    match launcher (prepared' w) with
    | Some exe =>
        first_second (length (procs (prepared' w)))
                     (procs (prepared' w) ++ [new_process exe])
    | None => procs (prepared' w)
    end
  else procs w.
Proof.
  unfold start_result.
  destruct (Str.has_char ":" ra); [|reflexivity].
  destruct (launcher (prepared' w)) as [exe|].
  - cbv zeta. rewrite <- running_procs.
    generalize (running_world tid ra tok pp env exe w) as w5. intros w5.
    destruct (child_exit (env_child env)); cbn [snd procs with_log].
    + reflexivity.
    + apply probed_frame.
  - cbn [snd procs with_log]. apply log_ready_frame.
Qed.

Lemma start_result_record w exe :
  Str.has_char ":" ra = true ->
  launcher (prepared' w) = Some exe ->
  child_exit (env_child env) = None ->
  Dict.get tid (active_servers (snd (start_result tid ra tok pp env w)))
  = Some (Popen (length (procs (prepared' w)))).
Proof.
  intros H1 H2 H3. unfold start_result. rewrite H1, H2, H3. cbv zeta.
  cbn [snd]. rewrite with_log_active.
  rewrite (proj1 (probed_frame ra env _ _)). apply running_record.
Qed.

Lemma start_result_invalid w :
  Str.has_char ":" ra = false ->
  active_servers (snd (start_result tid ra tok pp env w)) = active_servers w.
Proof. intros H. unfold start_result. now rewrite H. Qed.

Lemma start_server_tracked w :
  tracked w tid -> tracked (snd (start_server tid ra tok pp env w)) tid.
Proof.
  intros Htr pid Hlive. rewrite start_server_run in *.
  unfold live_for in Hlive. rewrite start_result_procs in Hlive.
  destruct (Str.has_char ":" ra) eqn:Hc.
  - destruct (launcher (prepared' w)) as [exe|] eqn:Hl.
    + apply live_in_first_second in Hlive as [Hlive|[-> Hex]].
      * now apply prepared_none_live in Hlive.
      * now apply start_result_record with (exe := exe).
    + now apply prepared_none_live in Hlive.
  - rewrite start_result_invalid by exact Hc. now apply Htr.
Qed.

(** ** The system calls of [start_server] *)

Definition is_signal (c : syscall) : bool :=
  match c with
  | SysTerminate _ | SysKill _ => true
  | _ => false
  end.

Definition no_signal (cs : list syscall) : Prop :=
  forallb (fun c => negb (is_signal c)) cs = true.

Lemma config_removed_trace k w :
  exists cs, trace (config_removed k w) = trace w ++ cs /\ no_signal cs.
Proof.
  unfold config_removed.
  destruct (server_configs w !! k) as [cfg|]; [|exists []; now rewrite app_nil_r].
  destruct (files w !! sc_config_path cfg); [|exists []; now rewrite app_nil_r].
  destruct (decide (sc_config_path cfg ∈ undeletable w));
    exists [SysUnlink (sc_config_path cfg)]; split; reflexivity.
Qed.

Lemma stopped_trace k w :
  exists cs,
    trace (stopped k w)
    = trace w ++
      match Dict.get k (active_servers w) with
      | Some (Popen pid0) => stop_calls (procs w) pid0
      | _ => []
      end ++ cs /\
    no_signal cs.
Proof.
  unfold stopped.
  destruct (config_removed_trace k
    (match Dict.get k (active_servers w) with
     | Some proc =>
         with_log (fun l => l ++ [(INFO, "Stopped Rathole server for tunnel " +:+ k)])
           (forgotten k (process_stopped k proc w))
     | None => w
     end)) as (cs & -> & Hcs).
  exists cs. split; [|exact Hcs].
  destruct (Dict.get k (active_servers w)) as [[pid0|fd]|]; cbn; try reflexivity.
  now rewrite <- app_assoc.
Qed.

Lemma prepared_trace w :
  exists cs,
    trace (prepared' w)
    = trace w ++
      match Dict.get tid (active_servers w) with
      | Some (Popen pid0) => stop_calls (procs w) pid0
      | _ => []
      end ++ cs /\
    no_signal cs.
Proof.
  unfold prepared. cbn [trace with_configs with_files].
  destruct (Dict.get tid (active_servers w)) as [h|] eqn:E.
  - destruct (stopped_trace tid
      (with_log (fun l => l ++ [(WARNING, "Rathole server for tunnel " +:+ tid
                                 +:+ " already exists, stopping it first")]) w))
      as (cs & Hcs & Hno).
    cbn [active_servers procs trace with_log] in Hcs. rewrite E in Hcs.
    exists cs. split; [exact Hcs|exact Hno].
  - exists []. split; [now rewrite app_nil_r|reflexivity].
Qed.

Lemma start_result_trace w :
  Str.has_char ":" ra = true ->
  exists cs,
    trace (snd (start_result tid ra tok pp env w)) = trace (prepared' w) ++ cs /\
    no_signal cs.
Proof.
  intros Hc. unfold start_result. rewrite Hc.
  destruct (launcher (prepared' w)) as [exe|].
  - cbv zeta. unfold running_world. cbv zeta.
    generalize (prepared' w) as w2. intros w2.
    destruct (child_exit (env_child env)) as [code|].
    + exists [SysSpawn (length (procs (log_ready tid ra tok pp w2)))
                [exe; "-s"; config_path tid]; SysSleep].
      split; [|reflexivity].
      unfold rolled_back, forgotten, slept, recorded, spawned. cbn.
      rewrite (proj2 (proj2 (proj2 (proj2 (proj2 (proj2 (proj2
                 (log_ready_frame tid ra tok pp w2)))))))).
      now rewrite <- app_assoc.
    + unfold probed, slept, recorded, spawned.
      destruct (env_probe env); cbn;
        rewrite (proj2 (proj2 (proj2 (proj2 (proj2 (proj2 (proj2
                   (log_ready_frame tid ra tok pp w2))))))));
        rewrite <- ?app_assoc; cbn; eexists; (split; [reflexivity|reflexivity]).
  - exists []. split; [|reflexivity].
    cbn [snd trace with_log]. rewrite app_nil_r. apply log_ready_frame.
Qed.

Lemma no_signal_app cs cs' : no_signal cs -> no_signal cs' -> no_signal (cs ++ cs').
Proof. unfold no_signal. intros H H'. rewrite forallb_app, H, H'. reflexivity. Qed.

Lemma start_server_stops_once w pid0 :
  Str.has_char ":" ra = true ->
  Dict.get tid (active_servers w) = Some (Popen pid0) ->
  exists rest,
    trace (snd (start_server tid ra tok pp env w))
    = trace w ++ stop_calls (procs w) pid0 ++ rest /\
    no_signal rest.
Proof.
  intros Hc Hrec. rewrite start_server_run.
  destruct (start_result_trace w Hc) as (cs2 & -> & H2).
  destruct (prepared_trace w) as (cs1 & -> & H1). rewrite Hrec.
  exists (cs1 ++ cs2). split; [now rewrite <- !app_assoc|].
  now apply no_signal_app.
Qed.

Lemma start_server_old_process_dead w pid0 :
  Str.has_char ":" ra = true ->
  Dict.get tid (active_servers w) = Some (Popen pid0) ->
  is_Some (procs w !! pid0) ->
  alive (snd (start_server tid ra tok pp env w)) pid0 = false.
Proof.
  intros Hc Hrec Hreal. rewrite start_server_run.
  unfold alive, proc_status. rewrite start_result_procs, Hc.
  assert (pid0 < length (procs (prepared' w)))%nat as Hlt.
  { rewrite prepared_procs, Hrec, stopped_length.
    destruct Hreal as [p Hp]. now apply lookup_lt_Some in Hp. }
  assert (status_of (procs (prepared' w)) pid0 <> Running) as Hdead.
  { rewrite prepared_procs, Hrec. apply stopped_not_running. }
  assert (forall ps' : list Process,
            ps' !! pid0 = procs (prepared' w) !! pid0 ->
            match status_of ps' pid0 with Running => true | Exited _ => false end = false)
    as Hsame.
  { intros ps' Heq. unfold status_of in *. rewrite Heq.
    destruct (procs (prepared' w) !! pid0) as [p|]; [|reflexivity].
    destruct (p_status p); [congruence|reflexivity]. }
  destruct (launcher (prepared' w)) as [exe|]; [|now apply Hsame].
  apply Hsame. unfold first_second.
  destruct (child_exit (env_child env)).
  - rewrite lookup_set_status_ne by lia. now apply lookup_app_l.
  - now apply lookup_app_l.
Qed.

End Start.


Lemma tracked_no_process w tid : procs w = [] -> tracked w tid.
Proof. intros H pid (p & Hp & _). rewrite H in Hp. discriminate. Qed.


(** X2.  Calling [start_server] twice in a row for the same tunnel id, from
    a manager without child processes: at most one process serving the
    tunnel is alive afterwards. *)
Lemma start_server_twice
    (tid ra tok ra' tok' : string) (pp pp' : Z) (env env' : StartEnv) (w : World) :
  procs w = [] ->
  at_most_one_live
    (snd (start_server tid ra' tok' pp' env'
            (snd (start_server tid ra tok pp env w)))) tid.
Proof.
  intros H. apply tracked_at_most_one.
  apply start_server_tracked, start_server_tracked. now apply tracked_no_process.
Qed.

Lemma start_server_twice_witness :
  at_most_one_live
    (snd (start_server "t1" "0.0.0.0:23334" "xyz" 8990 env_ok
            (snd (start_server "t1" "0.0.0.0:23333" "abc" 8989 env_ok
                    (init_world bins_ok))))) "t1".
Proof. apply start_server_twice. reflexivity. Defined.

End OneProcess.

(* ===================================================================== *)
(** * The life cycle of a server: further properties *)
(* ===================================================================== *)

Section Lifecycle.
Import Rathole.

Lemma stopped_forgets tid w : Dict.get tid (active_servers (stopped tid w)) = None.
Proof.
  rewrite stopped_active.
  destruct (Dict.get tid (active_servers w)) eqn:E; [|exact E].
  rewrite dict_get_del_ne by apply log_key_ne. apply dict_get_del_eq.
Qed.


(** X6.  [stop_server] touches one tunnel only: the record and the
    configuration entry of every other key (the log key of the stopped
    tunnel apart) stay as they were, a process other than the one recorded
    for the tunnel keeps its state, and a file other than the tunnel's
    configuration file keeps its content. *)
Theorem stop_server_leaves_others (tid k : string) (w : World) :
  k <> tid -> k <> log_key tid ->
  Dict.get k (active_servers (snd (stop_server tid w))) = Dict.get k (active_servers w) /\
  server_configs (snd (stop_server tid w)) !! k = server_configs w !! k /\
  (forall pid, Dict.get tid (active_servers w) <> Some (Popen pid) ->
               procs (snd (stop_server tid w)) !! pid = procs w !! pid) /\
  (forall path,
      (forall cfg, server_configs w !! tid = Some cfg -> sc_config_path cfg <> path) ->
      files (snd (stop_server tid w)) !! path = files w !! path).
Proof.
  intros Hk Hlog. rewrite stop_server_run. cbn [snd].
  split; [apply stopped_get_other; congruence|].
  split; [rewrite stopped_configs; apply lookup_delete_ne; congruence|].
  split.
  - intros pid Hpid. rewrite stopped_procs.
    destruct (Dict.get tid (active_servers w)) as [[pid0|fd]|]; try reflexivity.
    apply stopped_other. congruence.
  - intros path Hpath. rewrite stopped_files.
    destruct (server_configs w !! tid) as [cfg|]; [|reflexivity].
    destruct (decide (sc_config_path cfg ∈ undeletable w)); [reflexivity|].
    apply lookup_delete_ne. now apply Hpath.
Qed.

Definition two_servers : World :=
  snd (start_server "t2" "0.0.0.0:23334" "xyz" 8990 env_ok
         (snd (start_server "t1" "0.0.0.0:23333" "abc" 8989 env_ok (init_world bins_ok)))).

Lemma stop_server_leaves_others_witness :
  Dict.get "t2" (active_servers (snd (stop_server "t1" two_servers))) = Some (Popen 1%nat) /\
  is_Some (server_configs (snd (stop_server "t1" two_servers)) !! "t2") /\
  alive (snd (stop_server "t1" two_servers)) 1 = true /\
  is_Some (files (snd (stop_server "t1" two_servers)) !! config_path "t2").
Proof.
  destruct (stop_server_leaves_others "t1" "t2" two_servers) as (H1 & H2 & H3 & H4);
    [discriminate|discriminate|].
  split; [rewrite H1; vm_compute; reflexivity|].
  split; [rewrite H2; vm_compute; eauto|].
  split.
  - unfold alive, proc_status, status_of. rewrite (H3 1%nat) by (vm_compute; discriminate).
    vm_compute. reflexivity.
  - rewrite (H4 (config_path "t2")); [vm_compute; eauto|].
    intros cfg Hcfg. vm_compute in Hcfg. injection Hcfg as <-. vm_compute. discriminate.
Defined.

(** X7.  A [remote_addr] without a colon is rejected before anything is
    done: [start_server] raises [ValueError], logs the failure, and leaves
    the dictionaries, the files, the processes and the open files as they
    were; a server already running for the tunnel is not stopped. *)
Theorem start_server_rejects_address
    (tid ra tok : string) (pp : Z) (env : StartEnv) (w : World) :
  Str.has_char ":" ra = false ->
  exists w',
    start_server tid ra tok pp env w
    = (Raise (ValueError ("Invalid remote_addr format: " +:+ ra)), w') /\
    active_servers w' = active_servers w /\
    server_configs w' = server_configs w /\
    files w' = files w /\
    procs w' = procs w /\
    fds w' = fds w /\
    trace w' = trace w /\
    log w' = log w ++ [(ERROR, "Failed to start Rathole server for tunnel " +:+ tid
                               +:+ ": Invalid remote_addr format: " +:+ ra)].
Proof.
  intros Hra. rewrite start_server_run. unfold start_result. rewrite Hra.
  eexists. split; [reflexivity|]. repeat split; reflexivity.
Qed.

Lemma start_server_rejects_address_witness :
  exists w',
    start_server "t1" "23333" "abc" 8989 env_ok world_started
    = (Raise (ValueError "Invalid remote_addr format: 23333"), w') /\
    active_servers w' = active_servers world_started /\
    procs w' = procs world_started.
Proof.
  destruct (start_server_rejects_address "t1" "23333" "abc" 8989 env_ok world_started
              eq_refl) as (w' & H1 & H2 & _ & _ & H3 & _).
  exists w'. auto.
Defined.

(** X8.  When neither [/usr/local/bin/rathole] nor [rathole] can be
    launched, [start_server] raises the [FileNotFoundError] of the second
    attempt.  No process is spawned and the tunnel is not in
    [active_servers], but the configuration written before the launch stays:
    the [server_configs] entry, the configuration file, and the two log
    file objects opened by the two attempts, neither of them closed. *)
Theorem start_server_no_binary
    (tid ra tok : string) (pp : Z) (env : StartEnv) (w : World) :
  Str.has_char ":" ra = true ->
  "/usr/local/bin/rathole" ∉ installed w ->
  "rathole" ∉ installed w ->
  exists w',
    start_server tid ra tok pp env w
    = (Raise (FileNotFoundError "[Errno 2] No such file or directory: 'rathole'"), w') /\
    Dict.get tid (active_servers w') = None /\
    server_configs w' !! tid
    = Some (mkServerConfig ra tok pp (bind_addr_of ra) (config_path tid)) /\
    is_Some (files w' !! config_path tid) /\
    length (procs w') = length (procs w) /\
    (exists fs, length fs = length (fds w) /\
                fds w' = fs ++ [mkFileObj (log_file tid) false;
                                mkFileObj (log_file tid) false]).
Proof.
  intros Hra Hp Hf. rewrite start_server_run. unfold start_result. rewrite Hra.
  assert (launcher (prepared tid ra tok pp w) = None) as ->.
  { unfold launcher, primary_bin, fallback_bin. rewrite prepared_installed.
    rewrite !decide_False by assumption. reflexivity. }
  eexists. split; [reflexivity|].
  rewrite with_log_active, with_log_configs, with_log_files.
  destruct (log_ready_frame tid ra tok pp (prepared tid ra tok pp w))
    as (Ha & Hc & Hpr & _).
  split; [rewrite Ha; apply prepared_active|].
  split; [rewrite Hc; apply prepared_config|].
  split.
  { apply log_ready_keeps_files. rewrite prepared_file. eauto. }
  split.
  { change (procs (with_log ?f ?x)) with (procs x). rewrite Hpr, prepared_procs.
    destruct (Dict.get tid (active_servers w)) as [[pid|fd]|]; try reflexivity.
    apply stopped_length. }
  change (fds (with_log ?f ?x)) with (fds x).
  exists (fds (prepared tid ra tok pp w)). split.
  - unfold prepared. cbn [fds with_configs with_files].
    destruct (Dict.get tid (active_servers w)); [|reflexivity].
    now rewrite stopped_fds_length.
  - unfold log_ready, primary_bin. rewrite prepared_installed.
    rewrite decide_False by assumption.
    unfold log_started. cbn [fds with_fds with_files]. now rewrite <- app_assoc.
Qed.

Lemma start_server_no_binary_witness :
  exists w',
    start_server "t1" "0.0.0.0:23333" "abc" 8989 env_ok (init_world ∅)
    = (Raise (FileNotFoundError "[Errno 2] No such file or directory: 'rathole'"), w') /\
    Dict.get "t1" (active_servers w') = None /\
    is_Some (server_configs w' !! "t1") /\
    procs w' = [].
Proof.
  destruct (start_server_no_binary "t1" "0.0.0.0:23333" "abc" 8989 env_ok (init_world ∅)
              eq_refl (not_elem_of_empty _) (not_elem_of_empty _))
    as (w' & H1 & H2 & H3 & _ & H4 & _).
  exists w'. split; [exact H1|]. split; [exact H2|]. split; [rewrite H3; eauto|].
  destruct (procs w'); [reflexivity|discriminate].
Defined.

(** X9.  [stop_server] sends SIGTERM to the recorded process and, only when
    the process has not exited within the grace period, SIGKILL; no other
    signal is sent.  The process ends with the exit code of its own
    reaction to SIGTERM, or with -9. *)
Theorem stop_server_escalates (tid : string) (pid : nat) (p : Process) (w : World) :
  Dict.get tid (active_servers w) = Some (Popen pid) ->
  procs w !! pid = Some p ->
  p_status p = Running ->
  exists cs,
    trace (snd (stop_server tid w))
    = trace w ++ (SysTerminate pid ::
                  match p_term p with Some _ => [] | None => [SysKill pid] end) ++ cs /\
    no_signal cs /\
    proc_status (snd (stop_server tid w)) pid
    = Exited (match p_term p with Some c => c | None => -9 end).
Proof.
  intros Hget Hp Hrun. rewrite stop_server_run. cbn [snd].
  destruct (stopped_trace tid w) as (cs & Htr & Hcs). rewrite Hget in Htr.
  assert (Hlt : (pid < length (procs w))%nat) by (now apply lookup_lt_Some in Hp).
  assert (status_of (sigterm_procs pid (procs w)) pid
          = match p_term p with Some c => Exited c | None => Running end) as Hterm.
  { unfold sigterm_procs. rewrite Hp, Hrun.
    destruct (p_term p) as [c|].
    - now apply status_of_set_eq.
    - unfold status_of. now rewrite Hp. }
  exists cs. split; [|split; [exact Hcs|]].
  - rewrite Htr. unfold stop_calls. rewrite Hterm. now destruct (p_term p).
  - unfold proc_status. rewrite stopped_procs, Hget. unfold sigkill_procs.
    rewrite Hterm. destruct (p_term p) as [c|] eqn:Et; [exact Hterm|].
    apply status_of_set_eq.
    unfold sigterm_procs. rewrite Hp, Hrun, Et. exact Hlt.
Qed.

(** A server whose child ignores SIGTERM. *)
Definition env_stubborn : StartEnv :=
  mkStartEnv (mkChild None "listening" None) None ProbeListening.

Definition world_stubborn : World :=
  snd (start_server "t1" "0.0.0.0:23333" "abc" 8989 env_stubborn (init_world bins_ok)).

Lemma stop_server_escalates_witness :
  exists cs,
    trace (snd (stop_server "t1" world_stubborn))
    = trace world_stubborn ++ [SysTerminate 0; SysKill 0] ++ cs /\
    proc_status (snd (stop_server "t1" world_stubborn)) 0 = Exited (-9).
Proof.
  destruct (stop_server_escalates "t1" 0
              (mkProcess ["/usr/local/bin/rathole"; "-s"; config_path "t1"] Running None)
              world_stubborn) as (cs & H1 & _ & H2);
    [vm_compute; reflexivity|vm_compute; reflexivity|reflexivity|].
  exists cs. split; [exact H1|exact H2].
Defined.

(** ** The bind address and the launched binary *)

Lemma split_sep (c : ascii) (a b : string) :
  Str.has_char c a = false ->
  Str.split c (a +:+ String c b) = a :: Str.split c b.
Proof.
  induction a as [|x a IH]; intros Ha.
  - change (EmptyString +:+ String c b) with (String c b).
    cbn [Str.split]. now rewrite Ascii.eqb_refl.
  - rewrite string_append_cons. cbn [Str.split Str.has_char] in *.
    destruct (Ascii.eqb x c); [discriminate|]. now rewrite IH.
Qed.

Lemma split_hd (c : ascii) (s : string) :
  Str.has_char c s = false -> Str.split c s = [s].
Proof.
  induction s as [|x s IH]; intros Hs; [reflexivity|].
  cbn [Str.split Str.has_char] in *.
  destruct (Ascii.eqb x c); [discriminate|]. now rewrite IH.
Qed.

Lemma has_char_app (c : ascii) (a b : string) :
  Str.has_char c (a +:+ b) = (Str.has_char c a || Str.has_char c b)%bool.
Proof.
  induction a as [|x a IH]; [reflexivity|].
  rewrite string_append_cons. cbn [Str.has_char].
  destruct (Ascii.eqb x c); [reflexivity|exact IH].
Qed.

(** The bind address is made of the second colon-separated field of
    [remote_addr], whatever the host and whatever follows a further colon. *)
Lemma bind_addr_of_host_port (host port : string) :
  Str.has_char ":" host = false ->
  Str.has_char ":" port = false ->
  bind_addr_of (host +:+ ":" +:+ port) = "0.0.0.0:" +:+ port /\
  forall rest, bind_addr_of (host +:+ ":" +:+ port +:+ ":" +:+ rest) = "0.0.0.0:" +:+ port.
Proof.
  intros Hh Hp. unfold bind_addr_of. split.
  - change (":" +:+ port) with (String ":" port).
    rewrite split_sep by exact Hh. now rewrite split_hd.
  - intros rest.
    change (":" +:+ port +:+ ":" +:+ rest) with (String ":" (port +:+ String ":" rest)).
    rewrite split_sep by exact Hh. now rewrite split_sep.
Qed.

Lemma config_path_not_log (tid : string) : config_path tid <> log_file tid.
Proof.
  unfold config_path, log_file. intros H.
  apply (f_equal String.length) in H.
  rewrite !string_length_append in H. cbn in H. lia.
Qed.

Lemma log_started_other tid lines k w :
  k <> log_file tid ->
  files (log_started tid lines w) !! k = files w !! k.
Proof.
  intros Hk. unfold log_started. cbn [files with_fds with_files].
  assert (forall f : gmap string string, fold_left (fun f s => alter (fun c => c +:+ s) (log_file tid) f) lines f
                    !! k = f !! k) as Hfold.
  { induction lines as [|l lines IH]; intros f; [reflexivity|].
    cbn [fold_left]. rewrite IH. apply lookup_alter_ne. congruence. }
  rewrite Hfold. apply lookup_insert_ne. congruence.
Qed.

Lemma running_files_other tid ra tok pp env exe k w :
  k <> log_file tid ->
  files (running_world tid ra tok pp env exe w) !! k
  = files (prepared tid ra tok pp w) !! k.
Proof.
  intros Hk. unfold running_world, slept, child_runs, recorded, spawned.
  cbn [files with_procs with_files with_trace with_active].
  rewrite lookup_alter_ne by congruence.
  unfold log_ready. case_decide; rewrite !log_started_other by exact Hk; reflexivity.
Qed.

Section Success.
Variables (tid ra tok : string) (pp : Z) (env : StartEnv) (w : World).
Hypothesis Hcolon : Str.has_char ":" ra = true.
Hypothesis Hbin : primary_bin ∈ installed w \/ fallback_bin ∈ installed w.
Hypothesis Hlives : child_exit (env_child env) = None.

(** The binary [start_server] launches. *)
Definition launched_bin : string :=
  if decide (primary_bin ∈ installed w) then primary_bin else fallback_bin.

Lemma launcher_prepared : launcher (prepared tid ra tok pp w) = Some launched_bin.
Proof.
  unfold launcher, launched_bin. rewrite prepared_installed.
  destruct (decide (primary_bin ∈ installed w)); [reflexivity|].
  destruct Hbin; [contradiction|]. now rewrite decide_True.
Qed.

Lemma start_server_succeeds :
  start_server tid ra tok pp env w
  = (Ret true,
     with_log (fun l => l ++ [started_message tid ra pp])
       (probed ra env (length (procs (prepared tid ra tok pp w)))
          (running_world tid ra tok pp env launched_bin w))).
Proof.
  rewrite start_server_run. unfold start_result.
  now rewrite Hcolon, launcher_prepared, Hlives.
Qed.

End Success.

(** X10.  A start that succeeds records and renders the bind address
    [0.0.0.0:<port>], where [<port>] is the port of [remote_addr]: the host
    part is dropped.  The configuration file holds exactly the rendered TOML
    text, with the token and with the proxy port of the service. *)
Theorem start_server_binds_port
    (tid host port tok : string) (pp : Z) (env : StartEnv) (w : World) :
  Str.has_char ":" host = false ->
  Str.has_char ":" port = false ->
  primary_bin ∈ installed w \/ fallback_bin ∈ installed w ->
  child_exit (env_child env) = None ->
  exists w1,
    start_server tid (host +:+ ":" +:+ port) tok pp env w = (Ret true, w1) /\
    server_configs w1 !! tid
    = Some (mkServerConfig (host +:+ ":" +:+ port) tok pp ("0.0.0.0:" +:+ port)
                           (config_path tid)) /\
    files w1 !! config_path tid
    = Some (render_config ("0.0.0.0:" +:+ port) tok tid pp).
Proof.
  intros Hh Hp Hbin Hlives.
  assert (Str.has_char ":" (host +:+ ":" +:+ port) = true) as Hcolon.
  { rewrite has_char_app. change (":" +:+ port) with (String ":" port).
    cbn [Str.has_char]. rewrite Ascii.eqb_refl. apply orb_true_r. }
  rewrite (start_server_succeeds tid _ tok pp env w Hcolon Hbin Hlives).
  eexists. split; [reflexivity|].
  rewrite with_log_configs, with_log_files.
  destruct (probed_frame (host +:+ ":" +:+ port) env
              (length (procs (prepared tid (host +:+ ":" +:+ port) tok pp w)))
              (running_world tid (host +:+ ":" +:+ port) tok pp env (launched_bin w) w))
    as (_ & -> & -> & _).
  rewrite running_config, running_files_other by apply config_path_not_log.
  rewrite prepared_file. unfold config_of.
  now rewrite (proj1 (bind_addr_of_host_port host port Hh Hp)).
Qed.

Lemma start_server_binds_port_witness :
  exists w1,
    start_server "t1" "panel.example.com:23333" "abc" 8989 env_ok (init_world bins_ok)
    = (Ret true, w1) /\
    sc_bind_addr <$> (server_configs w1 !! "t1") = Some "0.0.0.0:23333" /\
    files w1 !! config_path "t1"
    = Some (render_config "0.0.0.0:23333" "abc" "t1" 8989).
Proof.
  destruct (start_server_binds_port "t1" "panel.example.com" "23333" "abc" 8989 env_ok
              (init_world bins_ok) eq_refl eq_refl) as (w1 & H1 & H2 & H3).
  - left. unfold init_world, machine, bins_ok, primary_bin. cbn [installed]. set_solver.
  - reflexivity.
  - exists w1. split; [exact H1|]. split; [now rewrite H2|exact H3].
Defined.

(** X11.  A start that succeeds launches [/usr/local/bin/rathole] when it
    is installed and [rathole] from the search path otherwise, with the
    arguments [-s <config file>].  The new process is the one recorded for
    the tunnel: [is_running] answers [True] right after the start, and
    [False] after a [stop_server]. *)
Theorem start_server_launches
    (tid ra tok : string) (pp : Z) (env : StartEnv) (w : World) :
  Str.has_char ":" ra = true ->
  primary_bin ∈ installed w \/ fallback_bin ∈ installed w ->
  child_exit (env_child env) = None ->
  exists w1 pid,
    start_server tid ra tok pp env w = (Ret true, w1) /\
    Dict.get tid (active_servers w1) = Some (Popen pid) /\
    procs w1 !! pid
    = Some (mkProcess [launched_bin w; "-s"; config_path tid] Running
                      (child_term (env_child env))) /\
    procs w !! pid = None /\
    is_running tid w1 = (Ret true, w1) /\
    fst (is_running tid (snd (stop_server tid w1))) = Ret false.
Proof.
  intros Hcolon Hbin Hlives.
  pose proof (start_server_succeeds tid ra tok pp env w Hcolon Hbin Hlives) as Hrun.
  pose proof (start_result_record tid ra tok pp env w (launched_bin w) Hcolon
                (launcher_prepared tid ra tok pp w Hbin) Hlives) as Hrec.
  pose proof (start_result_procs tid ra tok pp env w) as Hprocs.
  rewrite <- start_server_run in Hrec, Hprocs.
  rewrite Hcolon, (launcher_prepared tid ra tok pp w Hbin) in Hprocs.
  unfold first_second in Hprocs. rewrite Hlives in Hprocs.
  rewrite Hrun in Hrec, Hprocs. cbn [snd] in Hrec, Hprocs.
  rewrite Hrun.
  eexists _, (length (procs (prepared tid ra tok pp w))).
  split; [reflexivity|]. split; [exact Hrec|].
  assert (length (procs (prepared tid ra tok pp w)) = length (procs w)) as Hlen.
  { rewrite prepared_procs.
    destruct (Dict.get tid (active_servers w)) as [[pid0|fd]|]; try reflexivity.
    apply stopped_length. }
  split; [rewrite Hprocs; apply lookup_snoc|].
  split; [apply lookup_ge_None; lia|].
  split.
  - rewrite is_running_run, Hrec. unfold alive, proc_status.
    rewrite Hprocs. unfold new_process. now rewrite status_of_snoc.
  - rewrite stop_server_run. cbn [snd]. rewrite is_running_run.
    now rewrite stopped_forgets.
Qed.

Lemma start_server_launches_witness :
  exists w1,
    start_server "t1" "0.0.0.0:23333" "abc" 8989 env_ok (init_world {[ "rathole" ]})
    = (Ret true, w1) /\
    procs w1 !! 0%nat
    = Some (mkProcess ["rathole"; "-s"; config_path "t1"] Running (Some (-15))) /\
    is_running "t1" w1 = (Ret true, w1).
Proof.
  destruct (start_server_launches "t1" "0.0.0.0:23333" "abc" 8989 env_ok
              (init_world {[ "rathole" ]}) eq_refl)
    as (w1 & pid & H1 & H2 & H3 & _ & H4 & _).
  - right. unfold init_world, machine, fallback_bin. cbn [installed]. set_solver.
  - reflexivity.
  - exists w1. split; [exact H1|]. split; [|exact H4].
    assert (pid = 0%nat) as ->; [|exact H3].
    apply lookup_lt_Some in H3.
    assert (length (procs w1) = 1%nat) as Hlen; [|lia].
    injection H1 as <-. vm_compute. reflexivity.
Defined.

(** ** [cleanup_all] *)

Lemma stopped_get_sub t k h w :
  Dict.get k (active_servers (stopped t w)) = Some h ->
  Dict.get k (active_servers w) = Some h.
Proof.
  rewrite stopped_active.
  destruct (Dict.get t (active_servers w)); [|auto].
  destruct (String.eqb_spec (log_key t) k) as [<-|Hl];
    [now rewrite dict_get_del_eq|rewrite dict_get_del_ne by exact Hl].
  destruct (String.eqb_spec t k) as [<-|Ht];
    [now rewrite dict_get_del_eq|now rewrite dict_get_del_ne by exact Ht].
Qed.

Lemma stopped_stays_dead t pid w :
  alive w pid = false -> alive (stopped t w) pid = false.
Proof.
  unfold alive, proc_status. intros H. rewrite stopped_procs.
  destruct (Dict.get t (active_servers w)) as [[pid0|fd]|]; try exact H.
  destruct (status_of (sigkill_procs pid0 (sigterm_procs pid0 (procs w))) pid) eqn:E;
    [|reflexivity].
  apply stopped_monotone in E. now rewrite E in H.
Qed.

Section CleanupAll.
Variable w0 : World.

Local Notation "'stop_each'" := (fold_left (fun w k => stopped k w)).

Lemma stop_each_get_sub ks k h w :
  Dict.get k (active_servers (stop_each ks w)) = Some h ->
  Dict.get k (active_servers w) = Some h.
Proof.
  revert w. induction ks as [|t ks IH]; intros w H; [exact H|].
  cbn [fold_left] in H. now apply IH, stopped_get_sub in H.
Qed.

Lemma stop_each_forgets ks k w :
  In k ks -> Dict.get k (active_servers (stop_each ks w)) = None.
Proof.
  revert w. induction ks as [|t ks IH]; intros w Hin; [destruct Hin|].
  cbn [fold_left]. destruct Hin as [->|Hin]; [|now apply IH].
  destruct (Dict.get k (active_servers (stop_each ks (stopped k w)))) as [h|] eqn:E;
    [|reflexivity].
  apply stop_each_get_sub in E. now rewrite stopped_forgets in E.
Qed.

Lemma stop_each_configs ks k w :
  In k ks \/ server_configs w !! k = None ->
  server_configs (stop_each ks w) !! k = None.
Proof.
  revert w. induction ks as [|t ks IH]; intros w H.
  - destruct H as [[]|H]. exact H.
  - cbn [fold_left]. apply IH. rewrite stopped_configs.
    destruct H as [[->|Hin]|H]; [right; apply lookup_delete_eq|now left|right].
    destruct (decide (t = k)) as [->|Hne];
      [apply lookup_delete_eq|now rewrite lookup_delete_ne].
Qed.

(** No tunnel id of the manager has, under its log key, the process of
    another tunnel. *)
Definition log_keys_apart : Prop :=
  forall k, In k (Dict.keys (active_servers w0)) ->
            forall pid, Dict.get (log_key k) (active_servers w0) <> Some (Popen pid).

Lemma stop_each_kills ks :
  log_keys_apart ->
  forall w k pid,
    (forall k' h, Dict.get k' (active_servers w) = Some h ->
                  Dict.get k' (active_servers w0) = Some h) ->
    Dict.get k (active_servers w0) = Some (Popen pid) ->
    alive w pid = false \/ (Dict.get k (active_servers w) = Some (Popen pid) /\ In k ks) ->
    alive (stop_each ks w) pid = false.
Proof.
  intros Hapart. induction ks as [|t ks IH]; intros w k pid Hsub H0 H.
  - destruct H as [H|[_ []]]. exact H.
  - cbn [fold_left]. apply (IH _ k); [|exact H0|].
    { intros k' h Hk'. apply Hsub. eapply stopped_get_sub. exact Hk'. }
    destruct H as [H|[Hrec Hin]]; [left; now apply stopped_stays_dead|].
    destruct (decide (t = k)) as [->|Hne]; [left; eapply stopped_not_alive; exact Hrec|].
    destruct Hin as [Heq|Hin]; [contradiction|].
    right. split; [|exact Hin].
    destruct (Dict.get t (active_servers w)) as [h|] eqn:Et.
    + rewrite stopped_get_other; [exact Hrec|exact Hne|].
      intros <-. apply Hsub in Et. apply dict_get_Some_keys in Et.
      now apply (Hapart t Et pid).
    + rewrite stopped_active, Et. exact Hrec.
Qed.

End CleanupAll.



(** ** What a start leaves alone *)

Section StartFrame.
Variables (tid ra tok : string) (pp : Z) (env : StartEnv).

Lemma prepared_get_other k w :
  k <> tid -> k <> log_key tid ->
  Dict.get k (active_servers (prepared tid ra tok pp w)) = Dict.get k (active_servers w).
Proof.
  intros Hk Hlog. unfold prepared. cbn [active_servers with_configs with_files].
  destruct (Dict.get tid (active_servers w)); [|reflexivity].
  rewrite stopped_get_other by congruence. reflexivity.
Qed.

Lemma prepared_configs_other k w :
  k <> tid ->
  server_configs (prepared tid ra tok pp w) !! k = server_configs w !! k.
Proof.
  intros Hk. unfold prepared. cbn [server_configs with_configs with_files].
  rewrite lookup_insert_ne by congruence.
  destruct (Dict.get tid (active_servers w)); [|reflexivity].
  rewrite stopped_configs, lookup_delete_ne by congruence. reflexivity.
Qed.

Lemma running_configs exe w :
  server_configs (running_world tid ra tok pp env exe w)
  = server_configs (prepared tid ra tok pp w).
Proof.
  unfold running_world, slept, child_runs, recorded, spawned.
  cbn [server_configs with_procs with_files with_trace with_active].
  now destruct (log_ready_frame tid ra tok pp (prepared tid ra tok pp w)) as (_ & -> & _).
Qed.

Lemma start_result_get_other k w :
  k <> tid -> k <> log_key tid ->
  Dict.get k (active_servers (snd (start_result tid ra tok pp env w)))
  = Dict.get k (active_servers w).
Proof.
  intros Hk Hlog. unfold start_result.
  destruct (Str.has_char ":" ra); [|reflexivity].
  destruct (launcher (prepared tid ra tok pp w)) as [exe|].
  - destruct (child_exit (env_child env)) as [code|]; cbn [snd];
      rewrite with_log_active.
    + rewrite rolled_back_active, !dict_get_del_ne, running_active,
        !dict_get_set_ne by congruence.
      now apply prepared_get_other.
    + rewrite (proj1 (probed_frame ra env _ _)), running_active,
        !dict_get_set_ne by congruence.
      now apply prepared_get_other.
  - cbn [snd]. rewrite with_log_active, log_ready_active. now apply prepared_get_other.
Qed.

Lemma start_result_configs_other k w :
  k <> tid ->
  server_configs (snd (start_result tid ra tok pp env w)) !! k = server_configs w !! k.
Proof.
  intros Hk. unfold start_result.
  destruct (Str.has_char ":" ra); [|reflexivity].
  destruct (launcher (prepared tid ra tok pp w)) as [exe|].
  - destruct (child_exit (env_child env)) as [code|]; cbn [snd];
      rewrite with_log_configs.
    + rewrite rolled_back_configs, lookup_delete_ne, running_configs by congruence.
      now apply prepared_configs_other.
    + rewrite (proj1 (proj2 (probed_frame ra env _ _))), running_configs.
      now apply prepared_configs_other.
  - cbn [snd]. rewrite with_log_configs.
    destruct (log_ready_frame tid ra tok pp (prepared tid ra tok pp w)) as (_ & -> & _).
    now apply prepared_configs_other.
Qed.

Lemma start_result_procs_other pid p w :
  procs w !! pid = Some p ->
  Dict.get tid (active_servers w) <> Some (Popen pid) ->
  procs (snd (start_result tid ra tok pp env w)) !! pid = Some p.
Proof.
  intros Hp Hrec. rewrite start_result_procs.
  assert (procs (prepared tid ra tok pp w) !! pid = Some p) as Hprep.
  { rewrite prepared_procs.
    destruct (Dict.get tid (active_servers w)) as [[pid0|fd]|]; try exact Hp.
    rewrite stopped_other by congruence. exact Hp. }
  destruct (Str.has_char ":" ra); [|exact Hp].
  destruct (launcher (prepared tid ra tok pp w)) as [exe|]; [|exact Hprep].
  pose proof (lookup_lt_Some _ _ _ Hprep) as Hlt.
  unfold first_second. destruct (child_exit (env_child env)).
  - rewrite lookup_set_status_ne by lia. now rewrite lookup_app_l.
  - now rewrite lookup_app_l.
Qed.

End StartFrame.

(** X13.  Whatever its outcome, [start_server] for one tunnel leaves the
    other tunnels alone: the record and the configuration entry of every
    other key (the log key of the started tunnel apart) are unchanged, and
    a process other than the one that was recorded for the tunnel keeps its
    state. *)
Theorem start_server_leaves_others
    (tid ra tok : string) (pp : Z) (env : StartEnv) (k : string) (w : World) :
  k <> tid -> k <> log_key tid ->
  Dict.get k (active_servers (snd (start_server tid ra tok pp env w)))
  = Dict.get k (active_servers w) /\
  server_configs (snd (start_server tid ra tok pp env w)) !! k = server_configs w !! k /\
  (forall pid p,
      procs w !! pid = Some p ->
      Dict.get tid (active_servers w) <> Some (Popen pid) ->
      procs (snd (start_server tid ra tok pp env w)) !! pid = Some p).
Proof.
  intros Hk Hlog. rewrite start_server_run.
  split; [now apply start_result_get_other|].
  split; [now apply start_result_configs_other|].
  intros pid p. apply start_result_procs_other.
Qed.

Lemma start_server_leaves_others_witness :
  Dict.get "t1"
    (active_servers (snd (start_server "t2" "0.0.0.0:23334" "xyz" 8990 env_ok world_started)))
  = Some (Popen 0%nat) /\
  is_Some (server_configs
             (snd (start_server "t2" "0.0.0.0:23334" "xyz" 8990 env_ok world_started))
           !! "t1") /\
  alive (snd (start_server "t2" "0.0.0.0:23334" "xyz" 8990 env_ok world_started)) 0 = true.
Proof.
  destruct (start_server_leaves_others "t2" "0.0.0.0:23334" "xyz" 8990 env_ok "t1"
              world_started) as (H1 & H2 & H3); [discriminate|discriminate|].
  split; [rewrite H1; vm_compute; reflexivity|].
  split; [rewrite H2; vm_compute; eauto|].
  unfold alive, proc_status, status_of.
  rewrite (H3 0%nat (mkProcess ["/usr/local/bin/rathole"; "-s"; config_path "t1"]
                               Running (Some (-15))));
    [reflexivity|vm_compute; reflexivity|vm_compute; discriminate].
Defined.

End Lifecycle.

(* ===================================================================== *)
(** * [routers/core_health.py]: the reset schedule *)
(* ===================================================================== *)

Module Schedule.

(** [CORES] *)
Definition CORES : list string := ["backhaul"; "rathole"; "chisel"; "frp"].

Definition known_core (core : string) : bool :=
  existsb (String.eqb core) CORES.

(** A [datetime] is a number of microseconds; [timedelta(minutes=n)]. *)
Definition timedelta_minutes (n : Z) : Z := n * 60000000.

(** A row of [CoreResetConfig]. *)
Record CoreResetConfig : Type := mkResetConfig {
  rc_core : string;
  rc_enabled : bool;
  rc_interval_minutes : option Z;
  rc_last_reset : option Z;
  rc_next_reset : option Z;
  rc_updated_at : option Z
}.

(** [ResetConfigUpdate] *)
Record ResetConfigUpdate : Type := mkUpdate {
  up_enabled : option bool;
  up_interval_minutes : option Z
}.

(** [ResetConfigResponse] *)
Record ResetConfigResponse : Type := mkResponse {
  rsp_core : string;
  rsp_enabled : bool;
  rsp_interval_minutes : Z;
  rsp_last_reset : option Z;
  rsp_next_reset : option Z
}.

(** The database session of one request: the rows as committed, and the
    objects of the unit of work (rows loaded or added in this request, with
    the attribute changes made so far).  [commit] writes the objects back; a
    request that ends with an exception never reaches it. *)
Record Session : Type := mkSession {
  committed : gmap string CoreResetConfig;
  pending : gmap string CoreResetConfig
}.

(** [db.execute(select(CoreResetConfig).where(core == c)).scalar_one_or_none()] *)
Definition select_config (core : string) : St Session (option CoreResetConfig) :=
  fun s =>
    match pending s !! core with
    | Some c => (Ret (Some c), s)
    | None =>
        match committed s !! core with
        | Some c => (Ret (Some c), mkSession (committed s) (<[core := c]> (pending s)))
        | None => (Ret None, s)
        end
    end.

(** [db.add(config)], and an attribute assignment on an object of the
    session: both leave the new state of the object in the unit of work. *)
Definition attach (core : string) (c : CoreResetConfig) : St Session CoreResetConfig :=
  fun s => (Ret c, mkSession (committed s) (<[core := c]> (pending s))).

(** [db.commit()] *)
Definition commit : St Session unit :=
  modify (fun s => mkSession (pending s ∪ committed s) (pending s)).

Definition set_enabled (b : bool) (c : CoreResetConfig) : CoreResetConfig :=
  mkResetConfig (rc_core c) b (rc_interval_minutes c) (rc_last_reset c)
                (rc_next_reset c) (rc_updated_at c).

Definition set_interval (n : Z) (c : CoreResetConfig) : CoreResetConfig :=
  mkResetConfig (rc_core c) (rc_enabled c) (Some n) (rc_last_reset c)
                (rc_next_reset c) (rc_updated_at c).

Definition set_last_reset (t : Z) (c : CoreResetConfig) : CoreResetConfig :=
  mkResetConfig (rc_core c) (rc_enabled c) (rc_interval_minutes c) (Some t)
                (rc_next_reset c) (rc_updated_at c).

Definition set_next_reset (t : option Z) (c : CoreResetConfig) : CoreResetConfig :=
  mkResetConfig (rc_core c) (rc_enabled c) (rc_interval_minutes c) (rc_last_reset c)
                t (rc_updated_at c).

Definition set_updated_at (t : Z) (c : CoreResetConfig) : CoreResetConfig :=
  mkResetConfig (rc_core c) (rc_enabled c) (rc_interval_minutes c) (rc_last_reset c)
                (rc_next_reset c) (Some t).

(** The truth value of [config.interval_minutes]: set, and not zero. *)
Definition interval_set (c : CoreResetConfig) : option Z :=
  match rc_interval_minutes c with
  | Some n => if n =? 0 then None else Some n
  | None => None
  end.

(** Lines 180-186 of [update_reset_config]. *)
Definition schedule (now : Z) (c : CoreResetConfig) : option Z :=
  match rc_enabled c, interval_set c with
  | true, Some n =>
      match rc_last_reset c with
      | Some last => Some (last + timedelta_minutes n)
      | None => Some (now + timedelta_minutes n)
      end
  | _, _ => None
  end.

(** [ResetConfigResponse(...)]: the model requires an integer interval. *)
Definition response (c : CoreResetConfig) : St Session ResetConfigResponse :=
  match rc_interval_minutes c with
  | Some n =>
      ret (mkResponse (rc_core c) (rc_enabled c) n (rc_last_reset c) (rc_next_reset c))
  | None => raise (ValueError "interval_minutes: Input should be a valid integer")
  end.

(** [update_reset_config]; [now] is the reading of [datetime.utcnow()]. *)
Definition update_reset_config (core : string) (config_update : ResetConfigUpdate)
    (now : Z) : St Session ResetConfigResponse :=
  if negb (known_core core)
  then raise (HTTPException 400 ("Invalid core: " +:+ core))
  else
    found <- select_config core ;;
    config <- match found with
              | Some c => ret c
              | None => attach core (mkResetConfig core false (Some 10) None None None)
              end ;;
    config <- match up_enabled config_update with
              | Some b => attach core (set_enabled b config)
              | None => ret config
              end ;;
    config <- match up_interval_minutes config_update with
              | Some n =>
                  if n <? 1
                  then raise (HTTPException 400 "Interval must be at least 1 minute")
                  else attach core (set_interval n config)
              | None => ret config
              end ;;
    config <- attach core (set_next_reset (schedule now config) config) ;;
    config <- attach core (set_updated_at now config) ;;
    commit ;;;
    response config.

(** Lines 210-217 of [manual_reset_core], after the reset itself. *)
Definition record_reset (core : string) (now : Z) : St Session unit :=
  found <- select_config core ;;
  match found with
  | Some config =>
      config <- attach core (set_last_reset now config) ;;
      _ <- match rc_enabled config, interval_set config with
           | true, Some n =>
               attach core (set_next_reset (Some (now + timedelta_minutes n)) config)
           | _, _ => ret config
           end ;;
      commit
  | None => ret tt
  end.

(** A request starts with an empty unit of work. *)
Definition request (db : gmap string CoreResetConfig) : Session := mkSession db ∅.

(** ** The schedule after an update *)

(** The row the request works on: the stored one, or the default. *)
Definition loaded (core : string) (s : Session) : CoreResetConfig :=
  match pending s !! core with
  | Some c => c
  | None =>
      match committed s !! core with
      | Some c => c
      | None => mkResetConfig core false (Some 10) None None None
      end
  end.

(** The row with the fields of the request applied. *)
Definition with_update (u : ResetConfigUpdate) (c : CoreResetConfig) : CoreResetConfig :=
  let c1 := match up_enabled u with Some b => set_enabled b c | None => c end in
  match up_interval_minutes u with Some n => set_interval n c1 | None => c1 end.

(** The row that a successful update commits. *)
Definition updated (u : ResetConfigUpdate) (now : Z) (c : CoreResetConfig)
    : CoreResetConfig :=
  let c2 := with_update u c in
  set_updated_at now (set_next_reset (schedule now c2) c2).

Definition rejected (u : ResetConfigUpdate) : bool :=
  match up_interval_minutes u with
  | Some n => n <? 1
  | None => false
  end.

Lemma update_reset_config_committed core u now s :
  committed (snd (update_reset_config core u now s)) =
  if known_core core && negb (rejected u)
  then <[core := updated u now (loaded core s)]> (pending s ∪ committed s)
  else committed s.
Proof.
  unfold update_reset_config, rejected, updated, with_update, loaded.
  destruct (known_core core); [|reflexivity].
  cbv beta iota zeta delta [negb andb bind select_config attach commit modify ret raise
                            response committed pending snd].
  destruct s as [db pend]. cbv beta iota delta [committed pending].
  destruct (pend !! core) as [c|] eqn:Ep; [|destruct (db !! core) as [c|] eqn:Ed];
    cbv beta iota delta [committed pending];
    destruct (up_enabled u) as [b|]; cbv beta iota delta [committed pending];
    destruct (up_interval_minutes u) as [n|]; cbv beta iota delta [committed pending];
    try (destruct (n <? 1); cbv beta iota delta [committed pending]);
    try reflexivity;
    repeat rewrite insert_insert_eq;
    try (match goal with
         | |- context [rc_interval_minutes ?x] =>
             destruct (rc_interval_minutes x) eqn:?; cbv beta iota delta [snd committed]
         end);
    rewrite ?insert_union_l; try reflexivity;
    try (rewrite (insert_id pend core c) at 1 by exact Ep; reflexivity).
Qed.

Lemma update_reset_config_result core u now s :
  fst (update_reset_config core u now s) =
  if known_core core then
    if rejected u
    then Raise (HTTPException 400 "Interval must be at least 1 minute")
    else
      let c := updated u now (loaded core s) in
      match rc_interval_minutes c with
      | Some n =>
          Ret (mkResponse (rc_core c) (rc_enabled c) n (rc_last_reset c) (rc_next_reset c))
      | None => Raise (ValueError "interval_minutes: Input should be a valid integer")
      end
  else Raise (HTTPException 400 ("Invalid core: " +:+ core)).
Proof.
  unfold update_reset_config, rejected, updated, with_update, loaded.
  destruct (known_core core); [|reflexivity].
  cbv beta iota zeta delta [negb bind select_config attach commit modify ret raise
                            response committed pending fst].
  destruct s as [db pend]. cbv beta iota delta [committed pending].
  destruct (pend !! core) as [c|] eqn:Ep; [|destruct (db !! core) as [c|] eqn:Ed];
    cbv beta iota delta [committed pending];
    destruct (up_enabled u) as [b|]; cbv beta iota delta [committed pending];
    destruct (up_interval_minutes u) as [n|]; cbv beta iota delta [committed pending];
    try (destruct (n <? 1); cbv beta iota delta [committed pending]);
    try reflexivity;
    match goal with
    | |- context [rc_interval_minutes ?x] =>
        destruct (rc_interval_minutes x) eqn:?; reflexivity
    end.
Qed.

Lemma schedule_set_iff now c :
  schedule now c <> None <-> rc_enabled c = true /\ interval_set c <> None.
Proof.
  unfold schedule.
  destruct (rc_enabled c); destruct (interval_set c) as [n|];
    try destruct (rc_last_reset c); intuition congruence.
Qed.


Definition db_example : gmap string CoreResetConfig :=
  {[ "rathole" := mkResetConfig "rathole" false (Some 5) (Some 1000) None None ]}.


(** C7.  A request whose [interval_minutes] is below 1 is answered with
    status 400 and commits nothing: the rows of the database are those from
    before the request, the [enabled] flag of the same request included. *)
Theorem update_rejects_small_interval
    (core : string) (u : ResetConfigUpdate) (now : Z) (s : Session) (n : Z) :
  up_interval_minutes u = Some n ->
  n < 1 ->
  (exists detail,
     fst (update_reset_config core u now s) = Raise (HTTPException 400 detail)) /\
  committed (snd (update_reset_config core u now s)) = committed s.
Proof.
  intros Hn Hlt.
  assert (rejected u = true) as Hrej
    by (unfold rejected; rewrite Hn; now apply Z.ltb_lt).
  rewrite update_reset_config_result, update_reset_config_committed, Hrej.
  destruct (known_core core); cbn [andb negb]; split; eauto.
Qed.

Lemma update_rejects_small_interval_witness :
  (exists detail,
     fst (update_reset_config "rathole" (mkUpdate (Some true) (Some 0)) 7
            (request db_example)) = Raise (HTTPException 400 detail)) /\
  committed (snd (update_reset_config "rathole" (mkUpdate (Some true) (Some 0)) 7
                    (request db_example))) = db_example.
Proof.
  apply (update_rejects_small_interval "rathole" (mkUpdate (Some true) (Some 0)) 7
           (request db_example) 0); [reflexivity|lia].
Defined.




(** ** [get_reset_configs] *)

(** The row a core gets when it has none. *)
Definition default_config (core : string) : CoreResetConfig :=
  mkResetConfig core false (Some 10) None None None.

(** The body of the loop of [get_reset_configs] (lines 131-150). *)
Definition reset_config_of (core : string) (configs : list ResetConfigResponse)
    : St Session (list ResetConfigResponse) :=
  found <- select_config core ;;
  config <- match found with
            | Some c => ret c
            | None =>
                config <- attach core (default_config core) ;;
                commit ;;;
                ret config
            end ;;
  rsp <- response config ;;
  ret (configs ++ [rsp]).

(** [get_reset_configs] *)
Definition get_reset_configs : St Session (list ResetConfigResponse) :=
  for_each CORES [] reset_config_of.

(** The row of a core as the endpoint reports it. *)
Definition row_of (db : gmap string CoreResetConfig) (core : string) : CoreResetConfig :=
  match db !! core with Some c => c | None => default_config core end.

Definition response_of (c : CoreResetConfig) : ResetConfigResponse :=
  mkResponse (rc_core c) (rc_enabled c)
             (match rc_interval_minutes c with Some n => n | None => 0 end)
             (rc_last_reset c) (rc_next_reset c).

(** The objects of the session are rows of the database, unchanged. *)
Definition clean (s : Session) : Prop :=
  forall k c, pending s !! k = Some c -> committed s !! k = Some c.

Definition has_interval (db : gmap string CoreResetConfig) : Prop :=
  forall k c, db !! k = Some c -> is_Some (rc_interval_minutes c).

Lemma reset_config_of_run core configs s :
  clean s -> has_interval (committed s) ->
  exists s',
    reset_config_of core configs s
    = (Ret (configs ++ [response_of (row_of (committed s) core)]), s') /\
    clean s' /\
    committed s' = <[core := row_of (committed s) core]> (committed s).
Proof.
  intros Hclean Hint. unfold reset_config_of, row_of.
  cbv beta iota zeta delta [bind select_config].
  destruct (pending s !! core) as [c|] eqn:Ep.
  - pose proof (Hclean _ _ Ep) as Ec. rewrite Ec.
    destruct (Hint _ _ Ec) as [n En].
    cbv beta iota delta [ret response bind response_of]. rewrite En.
    exists s. split; [reflexivity|]. split; [exact Hclean|].
    now rewrite insert_id.
  - destruct (committed s !! core) as [c|] eqn:Ec.
    + destruct (Hint _ _ Ec) as [n En].
      cbv beta iota delta [ret response bind response_of]. rewrite En.
      eexists. split; [reflexivity|]. cbn [committed pending]. split.
      * intros k c'. cbn [committed pending]. destruct (decide (core = k)) as [<-|Hne].
        -- rewrite lookup_insert_eq. congruence.
        -- rewrite lookup_insert_ne by exact Hne. apply Hclean.
      * now rewrite insert_id.
    + cbv beta iota zeta delta [ret response bind response_of attach commit modify].
      cbn [committed pending].
      change (rc_interval_minutes (default_config core)) with (Some 10).
      cbv beta iota.
      eexists. split; [reflexivity|]. cbn [committed pending].
      assert (<[core := default_config core]> (pending s) ∪ committed s
              = <[core := default_config core]> (committed s)) as Hdb.
      { apply map_eq. intros k. destruct (decide (core = k)) as [<-|Hne].
        - rewrite lookup_insert_eq. apply lookup_union_Some_l, lookup_insert_eq.
        - rewrite lookup_insert_ne by exact Hne.
          rewrite lookup_union, lookup_insert_ne by exact Hne.
          destruct (pending s !! k) as [c|] eqn:Ek.
          + rewrite (Hclean _ _ Ek). reflexivity.
          + now destruct (committed s !! k). }
      split.
      * intros k c'. cbn [committed pending]. rewrite Hdb.
        destruct (decide (core = k)) as [<-|Hne].
        -- now rewrite !lookup_insert_eq.
        -- rewrite !lookup_insert_ne by exact Hne. apply Hclean.
      * exact Hdb.
Qed.

Lemma row_of_has_interval db core :
  has_interval db -> is_Some (rc_interval_minutes (row_of db core)).
Proof.
  intros Hint. unfold row_of. destruct (db !! core) as [c|] eqn:E; [eauto|].
  cbn. eauto.
Qed.

Lemma row_of_insert db core k :
  row_of (<[core := row_of db core]> db) k = row_of db k.
Proof.
  unfold row_of at 1. destruct (decide (core = k)) as [<-|Hne].
  - now rewrite lookup_insert_eq.
  - rewrite lookup_insert_ne by exact Hne. reflexivity.
Qed.

Lemma for_each_reset_config_of cores :
  forall acc s,
    clean s -> has_interval (committed s) ->
    exists s',
      for_each cores acc reset_config_of s
      = (Ret (acc ++ map (fun core => response_of (row_of (committed s) core)) cores), s') /\
      (forall k, In k cores -> committed s' !! k = Some (row_of (committed s) k)) /\
      (forall k, ~ In k cores -> committed s' !! k = committed s !! k).
Proof.
  induction cores as [|core cores IH]; intros acc s Hclean Hint.
  - exists s. cbn [for_each map]. rewrite app_nil_r.
    split; [reflexivity|]. split; [intros k []|reflexivity].
  - cbn [for_each map]. unfold bind.
    destruct (reset_config_of_run core acc s Hclean Hint) as (s1 & -> & Hclean1 & Hdb1).
    assert (has_interval (committed s1)) as Hint1.
    { rewrite Hdb1. intros k c. destruct (decide (core = k)) as [<-|Hne].
      - rewrite lookup_insert_eq. intros [= <-]. now apply row_of_has_interval.
      - rewrite lookup_insert_ne by exact Hne. apply Hint. }
    destruct (IH (acc ++ [response_of (row_of (committed s) core)]) s1 Hclean1 Hint1)
      as (s2 & Hrun & Hin & Hout).
    exists s2. split; [|split].
    + rewrite Hrun, <- app_assoc. cbn [app].
      rewrite (map_ext (fun core => response_of (row_of (committed s1) core))
                       (fun core => response_of (row_of (committed s) core)));
        [reflexivity|].
      intros k. rewrite Hdb1. now rewrite row_of_insert.
    + intros k Hk. destruct (in_dec string_dec k cores) as [Hk'|Hk'].
      * rewrite (Hin k Hk'), Hdb1. f_equal. apply row_of_insert.
      * destruct Hk as [->|Hk]; [|contradiction].
        rewrite (Hout k Hk'), Hdb1. apply lookup_insert_eq.
    + intros k Hk. rewrite (Hout k) by (intros H; apply Hk; now right).
      rewrite Hdb1. apply lookup_insert_ne. intros ->. apply Hk. now left.
Qed.

Lemma known_core_In core : known_core core = true <-> In core CORES.
Proof.
  unfold known_core. rewrite existsb_exists. split.
  - intros (x & Hx & Heq). apply String.eqb_eq in Heq. now subst.
  - intros H. exists core. split; [exact H|apply String.eqb_refl].
Qed.

Lemma clean_request db : clean (request db).
Proof. intros k c. unfold request. cbn [pending]. now rewrite lookup_empty. Qed.

(** X14.  [get_reset_configs] reports the four cores in the order of
    [CORES], and stores the default row (disabled, every 10 minutes, never
    reset) for each core that has none; the rows that exist, of these cores
    or of others, are not changed. *)
Theorem get_reset_configs_fills_defaults (db : gmap string CoreResetConfig) :
  has_interval db ->
  exists s',
    get_reset_configs (request db)
    = (Ret (map (fun core => response_of (row_of db core)) CORES), s') /\
    (forall k c, db !! k = Some c -> committed s' !! k = Some c) /\
    (forall k, known_core k = true -> db !! k = None ->
               committed s' !! k = Some (mkResetConfig k false (Some 10) None None None)) /\
    (forall k, known_core k = false -> committed s' !! k = db !! k).
Proof.
  intros Hint.
  destruct (for_each_reset_config_of CORES [] (request db) (clean_request db) Hint)
    as (s' & Hrun & Hin & Hout).
  exists s'. split; [exact Hrun|]. cbn [request committed] in Hin, Hout.
  split; [|split].
  - intros k c Hk. destruct (in_dec string_dec k CORES) as [Hc|Hc].
    + rewrite (Hin k Hc). unfold row_of. now rewrite Hk.
    + now rewrite (Hout k Hc).
  - intros k Hk Hnone. apply known_core_In in Hk. rewrite (Hin k Hk).
    unfold row_of. now rewrite Hnone.
  - intros k Hk. apply Hout. intros Hc. apply known_core_In in Hc. congruence.
Qed.

Lemma has_interval_example : has_interval db_example.
Proof.
  intros k c H. unfold db_example in H.
  apply lookup_singleton_Some in H as [_ <-]. cbn. eauto.
Qed.

Lemma get_reset_configs_fills_defaults_witness :
  exists s',
    get_reset_configs (request db_example)
    = (Ret [ mkResponse "backhaul" false 10 None None;
             mkResponse "rathole" false 5 (Some 1000) None;
             mkResponse "chisel" false 10 None None;
             mkResponse "frp" false 10 None None ], s') /\
    committed s' !! "frp" = Some (mkResetConfig "frp" false (Some 10) None None None).
Proof.
  destruct (get_reset_configs_fills_defaults db_example has_interval_example)
    as (s' & H1 & _ & H2 & _).
  exists s'. split; [exact H1|]. apply H2; reflexivity.
Defined.

(** X15.  A second [get_reset_configs] creates nothing: it returns the same
    list and leaves the database as the first call left it. *)
Theorem get_reset_configs_idempotent (db : gmap string CoreResetConfig) :
  has_interval db ->
  fst (get_reset_configs (request (committed (snd (get_reset_configs (request db))))))
  = fst (get_reset_configs (request db)) /\
  committed (snd (get_reset_configs
                    (request (committed (snd (get_reset_configs (request db)))))))
  = committed (snd (get_reset_configs (request db))).
Proof.
  intros Hint.
  destruct (for_each_reset_config_of CORES [] (request db) (clean_request db) Hint)
    as (s1 & Hrun1 & Hin1 & Hout1).
  change (committed (request db)) with db in Hrun1, Hin1, Hout1.
  unfold get_reset_configs. rewrite !Hrun1. cbn [fst snd].
  assert (has_interval (committed s1)) as Hint1.
  { intros k c Hk. destruct (in_dec string_dec k CORES) as [Hc|Hc].
    - rewrite (Hin1 k Hc) in Hk. injection Hk as <-. now apply row_of_has_interval.
    - rewrite (Hout1 k Hc) in Hk. now apply (Hint k). }
  destruct (for_each_reset_config_of CORES [] (request (committed s1))
              (clean_request _) Hint1) as (s2 & Hrun2 & Hin2 & Hout2).
  change (committed (request (committed s1))) with (committed s1) in Hrun2, Hin2, Hout2.
  rewrite !Hrun2. cbn [fst snd].
  assert (forall k, In k CORES -> row_of (committed s1) k = row_of db k) as Hrow.
  { intros k Hk. unfold row_of at 1. now rewrite (Hin1 k Hk). }
  split.
  - rewrite (map_ext_in (fun core => response_of (row_of (committed s1) core))
                        (fun core => response_of (row_of db core)));
      [reflexivity|].
    intros k Hk. now rewrite (Hrow k Hk).
  - apply map_eq. intros k. destruct (in_dec string_dec k CORES) as [Hc|Hc].
    + now rewrite (Hin2 k Hc), (Hin1 k Hc), (Hrow k Hc).
    + now rewrite (Hout2 k Hc).
Qed.

Lemma get_reset_configs_idempotent_witness :
  committed (snd (get_reset_configs
                    (request (committed (snd (get_reset_configs (request db_example)))))))
  = committed (snd (get_reset_configs (request db_example))).
Proof. apply (get_reset_configs_idempotent db_example has_interval_example). Defined.

(** ** What an update keeps *)

(** No stored interval is below one minute. *)
Definition intervals_ok (db : gmap string CoreResetConfig) : Prop :=
  forall k c n, db !! k = Some c -> rc_interval_minutes c = Some n -> 1 <= n.

Lemma updated_interval u now c :
  rc_interval_minutes (updated u now c)
  = match up_interval_minutes u with
    | Some n => Some n
    | None => rc_interval_minutes c
    end.
Proof.
  unfold updated, with_update.
  destruct (up_enabled u), (up_interval_minutes u); reflexivity.
Qed.

(** X16.  [update_reset_config] keeps the rule that no stored interval is
    below one minute, whether the request is accepted or rejected and
    whether the row existed or not. *)
Theorem update_keeps_intervals
    (core : string) (u : ResetConfigUpdate) (now : Z) (db : gmap string CoreResetConfig) :
  intervals_ok db ->
  intervals_ok (committed (snd (update_reset_config core u now (request db)))).
Proof.
  intros Hok. rewrite update_reset_config_committed.
  destruct (known_core core && negb (rejected u))%bool eqn:E; [|exact Hok].
  apply andb_prop in E as [_ Hrej]. apply negb_true_iff in Hrej.
  cbn [request committed pending]. rewrite (left_id_L ∅ (∪)).
  intros k c n. destruct (decide (core = k)) as [<-|Hne].
  - rewrite lookup_insert_eq. intros [= <-]. rewrite updated_interval.
    unfold rejected in Hrej.
    destruct (up_interval_minutes u) as [m|].
    + intros [= <-]. now apply Z.ltb_ge in Hrej.
    + unfold loaded, request. cbn [pending committed]. rewrite lookup_empty.
      destruct (db !! core) as [c0|] eqn:Ec; [now apply (Hok core c0)|].
      cbn. intros [= <-]. lia.
  - rewrite lookup_insert_ne by exact Hne. apply Hok.
Qed.

Lemma update_keeps_intervals_witness :
  intervals_ok
    (committed (snd (update_reset_config "rathole" (mkUpdate (Some true) (Some 1)) 7
                       (request db_example)))).
Proof.
  apply update_keeps_intervals.
  intros k c n H. unfold db_example in H.
  apply lookup_singleton_Some in H as [_ <-]. cbn. intros [= <-]. lia.
Defined.

(** X17.  [update_reset_config] changes the row of the core it is called
    for and no other; for a core outside [CORES] it answers 400 and stores
    nothing, not even the default row. *)
Theorem update_touches_one_row
    (core : string) (u : ResetConfigUpdate) (now : Z) (db : gmap string CoreResetConfig) :
  (forall k, k <> core ->
     committed (snd (update_reset_config core u now (request db))) !! k = db !! k) /\
  (known_core core = false ->
     fst (update_reset_config core u now (request db))
     = Raise (HTTPException 400 ("Invalid core: " +:+ core)) /\
     committed (snd (update_reset_config core u now (request db))) = db).
Proof.
  rewrite update_reset_config_committed, update_reset_config_result.
  cbn [request committed pending]. rewrite (left_id_L ∅ (∪)).
  split.
  - intros k Hk. destruct (known_core core && negb (rejected u))%bool; [|reflexivity].
    apply lookup_insert_ne. congruence.
  - intros ->. split; reflexivity.
Qed.

(** ** An update, then the list *)

Lemma updated_core u now c : rc_core (updated u now c) = rc_core c.
Proof.
  unfold updated, with_update.
  destruct (up_enabled u), (up_interval_minutes u); reflexivity.
Qed.



End Schedule.

(* ===================================================================== *)
(** * [routers/core_health.py]: the reset of a core *)
(* ===================================================================== *)

Module Reset.

(** ** Python values of a tunnel spec

    A spec is a JSON object; the values met in it are null, booleans,
    integers and strings. *)
Inductive pyval : Type :=
| PNone
| PBool (b : bool)
| PInt (z : Z)
| PStr (s : string).

(** The truth value of a Python object. *)
Definition truthy (v : pyval) : bool :=
  match v with
  | PNone => false
  | PBool b => b
  | PInt z => negb (z =? 0)
  | PStr s => match s with EmptyString => false | String _ _ => true end
  end.

(** [a or b] *)
Definition py_or (a b : pyval) : pyval := if truthy a then a else b.

(** [str(v)], as an f-string formats it. *)
Definition py_str (v : pyval) : string :=
  match v with
  | PNone => "None"
  | PBool true => "True"
  | PBool false => "False"
  | PInt z => Str.of_int z
  | PStr s => s
  end.

Definition type_name (v : pyval) : string :=
  match v with
  | PNone => "NoneType"
  | PBool _ => "bool"
  | PInt _ => "int"
  | PStr _ => "str"
  end.

Definition is_space (c : ascii) : bool :=
  let n := nat_of_ascii c in
  (Nat.eqb n 32 || (Nat.leb 9 n && Nat.leb n 13) || (Nat.leb 28 n && Nat.leb n 31))%bool.

Fixpoint lstrip (s : string) : string :=
  match s with
  | String c s' => if is_space c then lstrip s' else s
  | EmptyString => EmptyString
  end.

Fixpoint rstrip (s : string) : string :=
  match s with
  | EmptyString => EmptyString
  | String c s' =>
      match rstrip s' with
      | EmptyString => if is_space c then EmptyString else String c EmptyString
      | r => String c r
      end
  end.

Definition digit_of (c : ascii) : option Z :=
  let n := nat_of_ascii c in
  if (Nat.leb 48 n && Nat.leb n 57)%bool then Some (Z.of_nat (n - 48)) else None.

(** The digits of a decimal literal, where single underscores may separate
    digits; [prev] tells whether the previous character was a digit. *)
Fixpoint digits (s : string) (acc : Z) (prev : bool) : option Z :=
  match s with
  | EmptyString => if prev then Some acc else None
  | String c s' =>
      match digit_of c with
      | Some d => digits s' (10 * acc + d) true
      | None =>
          if (Ascii.eqb c "_" && prev)%bool then
            match s' with
            | String c' _ =>
                match digit_of c' with
                | Some _ => digits s' acc false
                | None => None
                end
            | EmptyString => None
            end
          else None
      end
  end.

Definition parse_int (s : string) : option Z :=
  match rstrip (lstrip s) with
  | String "-" s' => Z.opp <$> digits s' 0 false
  | String "+" s' => digits s' 0 false
  | s' => digits s' 0 false
  end.

(** [int(v)] *)
Definition py_int (v : pyval) : exn + Z :=
  match v with
  | PInt z => inr z
  | PBool b => inr (if b then 1 else 0)
  | PStr s =>
      match parse_int s with
      | Some z => inr z
      | None => inl (ValueError ("invalid literal for int() with base 10: '" +:+ s +:+ "'"))
      end
  | PNone =>
      inl (TypeError ("int() argument must be a string, a bytes-like object or a "
                      +:+ "real number, not 'NoneType'"))
  end.

(** ** Tunnels, managers and collaborators *)

Record Tunnel : Type := mkTunnel {
  t_id : string;
  t_core : string;
  t_status : string;
  t_node_id : option string;
  t_spec : option (list (string * pyval))
}.

(** The keyword arguments of the four [start_server] methods. *)
Inductive StartArgs : Type :=
| BackhaulArgs (spec : list (string * pyval))
| RatholeArgs (remote_addr token : pyval) (proxy_port : Z)
| ChiselArgs (server_port : Z) (auth fingerprint : pyval) (use_ipv6 : bool)
| FrpArgs (bind_port : Z) (token : pyval).

(** A server manager, as [_reset_core] uses it. *)
Record Manager (S : Type) : Type := mkManager {
  stop_server : string -> St S unit;
  start_server : string -> StartArgs -> St S bool
}.
Arguments stop_server {S} _ _ _.
Arguments start_server {S} _ _ _ _.

(** What is sent to a node: [{"tunnel_id": ..., "core": ..., "spec": ...}]. *)
Record Payload : Type := mkPayload {
  pl_tunnel_id : string;
  pl_core : string;
  pl_spec : list (string * pyval)
}.

(** The calls [_reset_core] makes, in order. *)
Inductive Call : Type :=
| CallStop (tunnel_id : string)
| CallSleep
| CallStart (tunnel_id : string) (args : StartArgs)
| CallApply (node_id : string) (payload : Payload).

(** The database of nodes and the node agent: whether a node row exists,
    and the exception, if any, of [client.apply_tunnel]. *)
Record Collab : Type := mkCollab {
  node_exists : string -> bool;
  apply_tunnel_error : string -> Payload -> option exn
}.

Record App (S : Type) : Type := mkApp {
  app_manager : S;
  app_calls : list Call;
  app_log : list (level * string)
}.
Arguments mkApp {S} _ _ _.
Arguments app_manager {S} _.
Arguments app_calls {S} _.
Arguments app_log {S} _.

Section ResetCore.
Context {S : Type}.

Definition lift {A} (m : St S A) : St (App S) A :=
  fun a =>
    match m (app_manager a) with
    | (r, s') => (r, mkApp s' (app_calls a) (app_log a))
    end.

Definition call (c : Call) : St (App S) unit :=
  modify (fun a => mkApp (app_manager a) (app_calls a ++ [c]) (app_log a)).

Definition log_error (msg : string) : St (App S) unit :=
  modify (fun a => mkApp (app_manager a) (app_calls a) (app_log a ++ [(ERROR, msg)])).

(** [await asyncio.sleep(0.5)] *)
Definition sleep : St (App S) unit := call CallSleep.

(** [tunnel.spec.get(key, default)] *)
Definition spec_get (spec : option (list (string * pyval))) (key : string)
    (default : pyval) : St (App S) pyval :=
  match spec with
  | None => raise (AttributeError "'NoneType' object has no attribute 'get'")
  | Some d => ret (match Dict.get key d with Some v => v | None => default end)
  end.

Definition to_int (v : pyval) : St (App S) Z :=
  match py_int v with
  | inr z => ret z
  | inl e => raise e
  end.

Definition do_stop (m : Manager S) (tunnel_id : string) : St (App S) unit :=
  call (CallStop tunnel_id) ;;; lift (stop_server m tunnel_id).

Definition do_start (m : Manager S) (tunnel_id : string) (args : StartArgs)
    : St (App S) unit :=
  call (CallStart tunnel_id args) ;;;
  _ <- lift (start_server m tunnel_id args) ;;
  ret tt.

(** Lines 238-244. *)
Definition restart_backhaul (m : Manager S) (tunnel : Tunnel) : St (App S) unit :=
  do_stop m (t_id tunnel) ;;;
  sleep ;;;
  do_start m (t_id tunnel)
    (BackhaulArgs (match t_spec tunnel with Some d => d | None => [] end)).

(** Lines 249-261. *)
Definition restart_rathole (m : Manager S) (tunnel : Tunnel) : St (App S) unit :=
  remote_addr <- spec_get (t_spec tunnel) "remote_addr" PNone ;;
  token <- spec_get (t_spec tunnel) "token" PNone ;;
  remote_port <- spec_get (t_spec tunnel) "remote_port" PNone ;;
  listen_port <- spec_get (t_spec tunnel) "listen_port" PNone ;;
  let proxy_port := py_or remote_port listen_port in
  when (truthy remote_addr && truthy token && truthy proxy_port) (
    do_stop m (t_id tunnel) ;;;
    sleep ;;;
    port <- to_int proxy_port ;;
    do_start m (t_id tunnel) (RatholeArgs remote_addr token port)).

(** Lines 268-282. *)
Definition restart_chisel (m : Manager S) (tunnel : Tunnel) : St (App S) unit :=
  server_port0 <- spec_get (t_spec tunnel) "server_port" PNone ;;
  listen_port <- spec_get (t_spec tunnel) "listen_port" PNone ;;
  let server_port := py_or server_port0 listen_port in
  auth <- spec_get (t_spec tunnel) "auth" PNone ;;
  fingerprint <- spec_get (t_spec tunnel) "fingerprint" PNone ;;
  use_ipv6 <- spec_get (t_spec tunnel) "use_ipv6" (PBool false) ;;
  when (truthy server_port) (
    do_stop m (t_id tunnel) ;;;
    sleep ;;;
    port <- to_int server_port ;;
    do_start m (t_id tunnel) (ChiselArgs port auth fingerprint (truthy use_ipv6))).

(** Lines 289-299. *)
Definition restart_frp (m : Manager S) (tunnel : Tunnel) : St (App S) unit :=
  bind_port <- spec_get (t_spec tunnel) "bind_port" (PInt 7000) ;;
  token <- spec_get (t_spec tunnel) "token" PNone ;;
  when (truthy bind_port) (
    do_stop m (t_id tunnel) ;;;
    sleep ;;;
    port <- to_int bind_port ;;
    do_start m (t_id tunnel) (FrpArgs port token)).

(** The name of the core in the error message of its branch. *)
Definition server_label (core : string) : string :=
  if String.eqb core "frp" then "FRP" else core.

(** The body of the loop of one branch of lines 235-301, with its
    [try/except]. *)
Definition local_restart (core : string) (m : Manager S) (tunnel : Tunnel)
    : St (App S) unit :=
  try_except
    (if String.eqb core "backhaul" then restart_backhaul m tunnel
     else if String.eqb core "rathole" then restart_rathole m tunnel
     else if String.eqb core "chisel" then restart_chisel m tunnel
     else if String.eqb core "frp" then restart_frp m tunnel
     else ret tt)
    (fun e =>
       Some (log_error ("Error restarting " +:+ server_label core
                        +:+ " server for tunnel " +:+ t_id tunnel +:+ ": "
                        +:+ exn_str e))).

Definition has_branch (core : string) : bool :=
  (String.eqb core "backhaul" || String.eqb core "rathole"
   || String.eqb core "chisel" || String.eqb core "frp")%bool.

(** Lines 235-301; [manager] is [getattr(app.state, "<core>_manager", None)]. *)
Definition local_phase (core : string) (manager : option (Manager S))
    (active_tunnels : list Tunnel) : St (App S) unit :=
  if has_branch core then
    match manager with
    | Some m => for_each active_tunnels tt (fun tunnel _ => local_restart core m tunnel)
    | None => ret tt
    end
  else ret tt.

(** [":" in v] *)
Definition has_colon (v : pyval) : St (App S) bool :=
  match v with
  | PStr s => ret (Str.has_char ":" s)
  | _ => raise (TypeError ("argument of type '" +:+ type_name v +:+ "' is not iterable"))
  end.

(** Lines 321-332. *)
Definition rathole_spec (spec : option (list (string * pyval)))
    : St (App S) (list (string * pyval)) :=
  raw <- spec_get spec "remote_addr" (PStr EmptyString) ;;
  colon <- has_colon raw ;;
  let remote_addr :=
    if colon then PStr (nth 0 (Str.split ":" (py_str raw)) EmptyString) else raw in
  remote_port0 <- spec_get spec "remote_port" PNone ;;
  listen_port <- spec_get spec "listen_port" PNone ;;
  let remote_port := py_or remote_port0 listen_port in
  token <- spec_get spec "token" PNone ;;
  local_addr <- spec_get spec "local_addr" (PStr "127.0.0.1") ;;
  local_port <- spec_get spec "local_port" PNone ;;
  ret [ ("remote_addr", PStr (py_str remote_addr +:+ ":" +:+ py_str remote_port));
        ("token", token);
        ("local_addr", local_addr);
        ("local_port", local_port) ].

(** Lines 334-345. *)
Definition chisel_spec (spec : option (list (string * pyval)))
    : St (App S) (list (string * pyval)) :=
  server_port0 <- spec_get spec "server_port" PNone ;;
  listen_port <- spec_get spec "listen_port" PNone ;;
  let server_port := py_or server_port0 listen_port in
  server_addr <- spec_get spec "server_addr" (PStr "127.0.0.1") ;;
  auth <- spec_get spec "auth" PNone ;;
  fingerprint <- spec_get spec "fingerprint" PNone ;;
  remote_port <- spec_get spec "remote_port" PNone ;;
  local_addr <- spec_get spec "local_addr" (PStr "127.0.0.1") ;;
  local_port <- spec_get spec "local_port" PNone ;;
  reverse_spec <-
    spec_get spec "reverse_spec"
      (PStr ("R:" +:+ py_str remote_port +:+ ":" +:+ py_str local_addr +:+ ":"
             +:+ py_str local_port)) ;;
  ret [ ("server_url", PStr ("http://" +:+ py_str server_addr +:+ ":"
                             +:+ py_str server_port));
        ("reverse_spec", reverse_spec);
        ("auth", auth);
        ("fingerprint", fingerprint) ].

(** Lines 347-363. *)
Definition frp_spec (spec : option (list (string * pyval)))
    : St (App S) (list (string * pyval)) :=
  bind_port <- spec_get spec "bind_port" (PInt 7000) ;;
  server_addr <- spec_get spec "server_addr" (PStr "127.0.0.1") ;;
  token <- spec_get spec "token" PNone ;;
  local_ip <- spec_get spec "local_ip" (PStr "127.0.0.1") ;;
  local_port <- spec_get spec "local_port" PNone ;;
  remote_port0 <- spec_get spec "remote_port" PNone ;;
  listen_port <- spec_get spec "listen_port" PNone ;;
  let remote_port := py_or remote_port0 listen_port in
  tunnel_type <- spec_get spec "type" (PStr "tcp") ;;
  ret [ ("server_addr", server_addr);
        ("server_port", bind_port);
        ("token", token);
        ("local_ip", local_ip);
        ("local_port", local_port);
        ("remote_port", remote_port);
        ("type", tunnel_type) ].

(** Lines 316-363: the spec sent to the node. *)
Definition spec_for_node (core : string) (tunnel : Tunnel)
    : St (App S) (list (string * pyval)) :=
  copy <- match t_spec tunnel with
          | Some d => ret d
          | None => raise (AttributeError "'NoneType' object has no attribute 'copy'")
          end ;;
  if String.eqb core "backhaul" then ret copy
  else if String.eqb core "rathole" then rathole_spec (t_spec tunnel)
  else if String.eqb core "chisel" then chisel_spec (t_spec tunnel)
  else if String.eqb core "frp" then frp_spec (t_spec tunnel)
  else ret copy.

(** Lines 314-375: the body of the inner loop, with its [try/except]. *)
Definition push (core : string) (env : Collab) (node_id : string) (tunnel : Tunnel)
    : St (App S) unit :=
  try_except
    (spec <- spec_for_node core tunnel ;;
     let payload := mkPayload (t_id tunnel) core spec in
     call (CallApply node_id payload) ;;;
     match apply_tunnel_error env node_id payload with
     | Some e => raise e
     | None => ret tt
     end ;;;
     sleep)
    (fun e =>
       Some (log_error ("Error restarting " +:+ core +:+ " client for tunnel "
                        +:+ t_id tunnel +:+ " on node " +:+ node_id +:+ ": "
                        +:+ exn_str e))).

(** [t.node_id] as a condition, and [t.node_id == node_id]. *)
Definition node_of (t : Tunnel) : option string :=
  match t_node_id t with
  | Some n => match n with EmptyString => None | String _ _ => Some n end
  | None => None
  end.

Definition on_node (node_id : string) (t : Tunnel) : bool :=
  match t_node_id t with
  | Some n => String.eqb n node_id
  | None => false
  end.

(** [set(t.node_id for t in active_tunnels if t.node_id)], iterated in order
    of first occurrence. *)
Definition node_ids (active_tunnels : list Tunnel) : list string :=
  remove_dups (omap node_of active_tunnels).

(** Lines 303-375. *)
Definition remote_phase (core : string) (env : Collab) (active_tunnels : list Tunnel)
    : St (App S) unit :=
  for_each (node_ids active_tunnels) tt
    (fun node_id _ =>
       if negb (node_exists env node_id) then ret tt
       else for_each (List.filter (on_node node_id) active_tunnels) tt
              (fun tunnel _ => push core env node_id tunnel)).

(** [select(Tunnel).where(Tunnel.core == core, Tunnel.status == "active")] *)
Definition active_of (core : string) (tunnels : list Tunnel) : list Tunnel :=
  List.filter (fun t => (String.eqb (t_core t) core && String.eqb (t_status t) "active")%bool)
              tunnels.

(** [_reset_core] *)
Definition _reset_core (core : string) (manager : option (Manager S)) (env : Collab)
    (tunnels : list Tunnel) : St (App S) unit :=
  let active_tunnels := active_of core tunnels in
  local_phase core manager active_tunnels ;;;
  remote_phase core env active_tunnels.

End ResetCore.

(* ===================================================================== *)
(** ** What a reset pass calls *)
(* ===================================================================== *)

Section ResetPlan.
Context {S : Type}.
Implicit Types (m : Manager S) (a : App S).

(** The hypotheses on a manager: [stop_server] returns (for Rathole this is
    a theorem), and [start_server] returns or raises. *)
Definition stops_cleanly m : Prop :=
  forall tid s, exists s', stop_server m tid s = (Ret tt, s').

Definition start_terminates m : Prop :=
  forall tid args s, fst (start_server m tid args s) <> Hang.

Definition lookup_default (d : list (string * pyval)) (key : string) (default : pyval)
    : pyval :=
  match Dict.get key d with Some v => v | None => default end.

(** What the local loop decides for one tunnel before it calls anything. *)
Inductive Plan : Type :=
| Skip
| Fail (e : exn)
| Restart (port : exn + Z) (args : Z -> StartArgs).

Definition plan (core : string) (t : Tunnel) : Plan :=
  if String.eqb core "backhaul" then
    Restart (inr 0)
            (fun _ => BackhaulArgs (match t_spec t with Some d => d | None => [] end))
  else
    match t_spec t with
    | None =>
        if has_branch core
        then Fail (AttributeError "'NoneType' object has no attribute 'get'")
        else Skip
    | Some d =>
        if String.eqb core "rathole" then
          let remote_addr := lookup_default d "remote_addr" PNone in
          let token := lookup_default d "token" PNone in
          let proxy_port := py_or (lookup_default d "remote_port" PNone)
                                  (lookup_default d "listen_port" PNone) in
          if (truthy remote_addr && truthy token && truthy proxy_port)%bool
          then Restart (py_int proxy_port) (RatholeArgs remote_addr token)
          else Skip
        else if String.eqb core "chisel" then
          let server_port := py_or (lookup_default d "server_port" PNone)
                                   (lookup_default d "listen_port" PNone) in
          if truthy server_port
          then Restart (py_int server_port)
                 (fun port => ChiselArgs port (lookup_default d "auth" PNone)
                                (lookup_default d "fingerprint" PNone)
                                (truthy (lookup_default d "use_ipv6" (PBool false))))
          else Skip
        else if String.eqb core "frp" then
          let bind_port := lookup_default d "bind_port" (PInt 7000) in
          if truthy bind_port
          then Restart (py_int bind_port)
                 (fun port => FrpArgs port (lookup_default d "token" PNone))
          else Skip
        else Skip
    end.

(** The manager calls of the local loop for one tunnel. *)
Definition local_calls (core : string) (t : Tunnel) : list Call :=
  match plan core t with
  | Restart (inr port) args => [CallStop (t_id t); CallSleep; CallStart (t_id t) (args port)]
  | Restart (inl _) _ => [CallStop (t_id t); CallSleep]
  | _ => []
  end.

Lemma restart_sequence m tid (port : exn + Z) (args : Z -> StartArgs) a :
  stops_cleanly m -> start_terminates m ->
  exists r a',
    (do_stop m tid ;;;
     sleep ;;;
     p <- (match port with inr z => ret z | inl e => raise e end) ;;
     do_start m tid (args p)) a = (r, a') /\
    r <> Hang /\
    app_log a' = app_log a /\
    app_calls a' = app_calls a ++
      match port with
      | inr p => [CallStop tid; CallSleep; CallStart tid (args p)]
      | inl _ => [CallStop tid; CallSleep]
      end.
Proof.
  intros Hstop Hstart.
  destruct (Hstop tid (app_manager a)) as [s1 Hs1].
  cbv beta iota zeta delta [do_stop do_start sleep call lift bind modify ret raise
                            app_manager app_calls app_log].
  destruct a as [s0 calls lg]. cbv beta iota delta [app_manager] in Hs1.
  rewrite Hs1. cbv beta iota.
  destruct port as [e|p]; cbv beta iota.
  - eexists _, _. split; [reflexivity|]. split; [discriminate|]. split; [reflexivity|].
    now rewrite <- app_assoc.
  - pose proof (Hstart tid (args p) s1) as Hnh.
    destruct (start_server m tid (args p) s1) as [[b|e|] s2]; cbn [fst] in Hnh;
      [| |congruence];
      (eexists _, _; split; [reflexivity|]; split; [discriminate|];
       split; [reflexivity|]; now rewrite <- !app_assoc).
Qed.

(** A [try/except Exception] whose handler logs: the exception is replaced
    by a log record, the calls made so far stay. *)
Lemma caught_and_logged (body : St (App S) unit) (msg : exn -> string) a r a1 :
  body a = (r, a1) -> r <> Hang ->
  exists a2,
    try_except body (fun e => Some (log_error (msg e))) a = (Ret tt, a2) /\
    app_calls a2 = app_calls a1 /\
    (forall u, r = Ret u -> a2 = a1).
Proof.
  intros Hrun Hnh. unfold try_except. rewrite Hrun.
  destruct r as [[]|e|]; [| |congruence].
  - exists a1. auto.
  - eexists. split; [reflexivity|]. split; [reflexivity|]. discriminate.
Qed.

Lemma eqb_backhaul_branch core : String.eqb core "backhaul" = true -> has_branch core = true.
Proof. intros H. unfold has_branch. now rewrite H. Qed.

Lemma local_restart_run core m t a :
  stops_cleanly m -> start_terminates m ->
  exists a',
    local_restart core m t a = (Ret tt, a') /\
    app_calls a' = app_calls a ++ local_calls core t /\
    (plan core t = Skip -> a' = a).
Proof.
  intros Hstop Hstart.
  assert (forall (port : exn + Z) (args : Z -> StartArgs),
    exists a',
      try_except
        (do_stop m (t_id t) ;;;
         sleep ;;;
         p <- (match port with inr z => ret z | inl e => raise e end) ;;
         do_start m (t_id t) (args p))
        (fun e =>
           Some (log_error ("Error restarting " +:+ server_label core
                            +:+ " server for tunnel " +:+ t_id t +:+ ": "
                            +:+ exn_str e))) a = (Ret tt, a') /\
      app_calls a' = app_calls a ++
        match port with
        | inr p => [CallStop (t_id t); CallSleep; CallStart (t_id t) (args p)]
        | inl _ => [CallStop (t_id t); CallSleep]
        end) as Hseq.
  { intros port args.
    destruct (restart_sequence m (t_id t) port args a Hstop Hstart)
      as (r & a1 & Hrun & Hnh & _ & Hcalls).
    destruct (caught_and_logged _
                (fun e => "Error restarting " +:+ server_label core
                          +:+ " server for tunnel " +:+ t_id t +:+ ": " +:+ exn_str e)
                a r a1 Hrun Hnh) as (a2 & H2 & Hc2 & _).
    exists a2. split; [exact H2|]. now rewrite Hc2. }
  unfold local_restart, local_calls, plan.
  destruct (String.eqb core "backhaul") eqn:Eb.
  { destruct (Hseq (inr 0)
               (fun _ => BackhaulArgs (match t_spec t with Some d => d | None => [] end)))
      as (a' & Hrun & Hcalls).
    exists a'. split; [exact Hrun|]. split; [exact Hcalls|]. discriminate. }
  unfold has_branch. rewrite Eb. cbn [orb].
  destruct (t_spec t) as [d|] eqn:Espec.
  - destruct (String.eqb core "rathole") eqn:Er.
    { unfold restart_rathole. rewrite Espec. unfold spec_get.
      cbv beta iota zeta delta [bind ret] . fold (@bind (App S)).
      change (match Dict.get "remote_addr" d with Some v => v | None => PNone end)
        with (lookup_default d "remote_addr" PNone).
      change (match Dict.get "token" d with Some v => v | None => PNone end)
        with (lookup_default d "token" PNone).
      change (match Dict.get "remote_port" d with Some v => v | None => PNone end)
        with (lookup_default d "remote_port" PNone).
      change (match Dict.get "listen_port" d with Some v => v | None => PNone end)
        with (lookup_default d "listen_port" PNone).
      destruct (truthy (lookup_default d "remote_addr" PNone)
                && truthy (lookup_default d "token" PNone)
                && truthy (py_or (lookup_default d "remote_port" PNone)
                                 (lookup_default d "listen_port" PNone)))%bool.
      - unfold when, to_int.
        destruct (Hseq (py_int (py_or (lookup_default d "remote_port" PNone)
                                      (lookup_default d "listen_port" PNone)))
                    (RatholeArgs (lookup_default d "remote_addr" PNone)
                                 (lookup_default d "token" PNone)))
          as (a' & Hrun & Hcalls).
        exists a'. split; [exact Hrun|]. split; [|discriminate].
        rewrite Hcalls. now destruct (py_int _).
      - exists a. split; [reflexivity|]. split; [now rewrite app_nil_r|reflexivity]. }
    destruct (String.eqb core "chisel") eqn:Ec.
    { unfold restart_chisel. rewrite Espec. unfold spec_get.
      cbv beta iota zeta delta [bind ret]. fold (@bind (App S)).
      change (match Dict.get "server_port" d with Some v => v | None => PNone end)
        with (lookup_default d "server_port" PNone).
      change (match Dict.get "listen_port" d with Some v => v | None => PNone end)
        with (lookup_default d "listen_port" PNone).
      change (match Dict.get "auth" d with Some v => v | None => PNone end)
        with (lookup_default d "auth" PNone).
      change (match Dict.get "fingerprint" d with Some v => v | None => PNone end)
        with (lookup_default d "fingerprint" PNone).
      change (match Dict.get "use_ipv6" d with Some v => v | None => PBool false end)
        with (lookup_default d "use_ipv6" (PBool false)).
      destruct (truthy (py_or (lookup_default d "server_port" PNone)
                              (lookup_default d "listen_port" PNone))).
      - unfold when, to_int.
        destruct (Hseq (py_int (py_or (lookup_default d "server_port" PNone)
                                      (lookup_default d "listen_port" PNone)))
                    (fun port => ChiselArgs port (lookup_default d "auth" PNone)
                                   (lookup_default d "fingerprint" PNone)
                                   (truthy (lookup_default d "use_ipv6" (PBool false)))))
          as (a' & Hrun & Hcalls).
        exists a'. split; [exact Hrun|]. split; [|discriminate].
        rewrite Hcalls. now destruct (py_int _).
      - exists a. split; [reflexivity|]. split; [now rewrite app_nil_r|reflexivity]. }
    destruct (String.eqb core "frp") eqn:Ef.
    { unfold restart_frp. rewrite Espec. unfold spec_get.
      cbv beta iota zeta delta [bind ret]. fold (@bind (App S)).
      change (match Dict.get "bind_port" d with Some v => v | None => PInt 7000 end)
        with (lookup_default d "bind_port" (PInt 7000)).
      change (match Dict.get "token" d with Some v => v | None => PNone end)
        with (lookup_default d "token" PNone).
      destruct (truthy (lookup_default d "bind_port" (PInt 7000))).
      - unfold when, to_int.
        destruct (Hseq (py_int (lookup_default d "bind_port" (PInt 7000)))
                    (fun port => FrpArgs port (lookup_default d "token" PNone)))
          as (a' & Hrun & Hcalls).
        exists a'. split; [exact Hrun|]. split; [|discriminate].
        rewrite Hcalls. now destruct (py_int _).
      - exists a. split; [reflexivity|]. split; [now rewrite app_nil_r|reflexivity]. }
    exists a. split; [reflexivity|]. split; [now rewrite app_nil_r|reflexivity].
  - destruct (String.eqb core "rathole") eqn:Er.
    { cbn [orb]. unfold restart_rathole. rewrite Espec.
      eexists. split; [reflexivity|]. split; [now rewrite app_nil_r|discriminate]. }
    destruct (String.eqb core "chisel") eqn:Ec.
    { cbn [orb]. unfold restart_chisel. rewrite Espec.
      eexists. split; [reflexivity|]. split; [now rewrite app_nil_r|discriminate]. }
    destruct (String.eqb core "frp") eqn:Ef.
    { cbn [orb]. unfold restart_frp. rewrite Espec.
      eexists. split; [reflexivity|]. split; [now rewrite app_nil_r|discriminate]. }
    cbn [orb]. exists a. split; [reflexivity|]. split; [now rewrite app_nil_r|reflexivity].
Qed.

(** The spec sent to the node, as a function of the tunnel. *)
Definition node_spec (core : string) (t : Tunnel) : exn + list (string * pyval) :=
  match t_spec t with
  | None => inl (AttributeError "'NoneType' object has no attribute 'copy'")
  | Some d =>
      if String.eqb core "backhaul" then inr d
      else if String.eqb core "rathole" then
        let raw := lookup_default d "remote_addr" (PStr EmptyString) in
        match raw with
        | PStr s =>
            let remote_addr :=
              if Str.has_char ":" s
              then PStr (nth 0 (Str.split ":" (py_str raw)) EmptyString) else raw in
            inr [ ("remote_addr",
                   PStr (py_str remote_addr +:+ ":"
                         +:+ py_str (py_or (lookup_default d "remote_port" PNone)
                                           (lookup_default d "listen_port" PNone))));
                  ("token", lookup_default d "token" PNone);
                  ("local_addr", lookup_default d "local_addr" (PStr "127.0.0.1"));
                  ("local_port", lookup_default d "local_port" PNone) ]
        | _ => inl (TypeError ("argument of type '" +:+ type_name raw
                               +:+ "' is not iterable"))
        end
      else if String.eqb core "chisel" then
        inr [ ("server_url",
               PStr ("http://"
                     +:+ py_str (lookup_default d "server_addr" (PStr "127.0.0.1"))
                     +:+ ":"
                     +:+ py_str (py_or (lookup_default d "server_port" PNone)
                                       (lookup_default d "listen_port" PNone))));
              ("reverse_spec",
               lookup_default d "reverse_spec"
                 (PStr ("R:" +:+ py_str (lookup_default d "remote_port" PNone) +:+ ":"
                        +:+ py_str (lookup_default d "local_addr" (PStr "127.0.0.1"))
                        +:+ ":" +:+ py_str (lookup_default d "local_port" PNone))));
              ("auth", lookup_default d "auth" PNone);
              ("fingerprint", lookup_default d "fingerprint" PNone) ]
      else if String.eqb core "frp" then
        inr [ ("server_addr", lookup_default d "server_addr" (PStr "127.0.0.1"));
              ("server_port", lookup_default d "bind_port" (PInt 7000));
              ("token", lookup_default d "token" PNone);
              ("local_ip", lookup_default d "local_ip" (PStr "127.0.0.1"));
              ("local_port", lookup_default d "local_port" PNone);
              ("remote_port", py_or (lookup_default d "remote_port" PNone)
                                    (lookup_default d "listen_port" PNone));
              ("type", lookup_default d "type" (PStr "tcp")) ]
      else inr d
  end.

Lemma spec_for_node_run core t a :
  @spec_for_node S core t a
  = (match node_spec core t with inr d => Ret d | inl e => Raise e end, a).
Proof.
  unfold spec_for_node, node_spec.
  destruct (t_spec t) as [d|]; [|reflexivity].
  unfold bind at 1. unfold ret at 1.
  destruct (String.eqb core "backhaul"); [reflexivity|].
  destruct (String.eqb core "rathole").
  { unfold rathole_spec, spec_get, lookup_default.
    cbv beta iota zeta delta [bind ret].
    destruct (match Dict.get "remote_addr" d with Some v => v | None => PStr EmptyString end);
      reflexivity. }
  destruct (String.eqb core "chisel"); [reflexivity|].
  destruct (String.eqb core "frp"); reflexivity.
Qed.

(** The calls of the inner loop of the node phase for one tunnel. *)
Definition push_calls (core : string) (env : Collab) (node_id : string) (t : Tunnel)
    : list Call :=
  match node_spec core t with
  | inr d =>
      let payload := mkPayload (t_id t) core d in
      CallApply node_id payload ::
      match apply_tunnel_error env node_id payload with
      | Some _ => []
      | None => [CallSleep]
      end
  | inl _ => []
  end.

Lemma push_run core env node_id t a :
  exists a',
    push core env node_id t a = (Ret tt, a') /\
    app_calls a' = app_calls a ++ push_calls core env node_id t.
Proof.
  unfold push, push_calls, try_except. unfold bind at 1.
  rewrite spec_for_node_run.
  destruct (node_spec core t) as [e|d].
  - eexists. split; [reflexivity|]. cbn. now rewrite app_nil_r.
  - cbv beta iota zeta delta [bind call sleep modify ret raise log_error].
    destruct (apply_tunnel_error env node_id (mkPayload (t_id t) core d));
      (eexists; split; [reflexivity|]; cbn; now rewrite <- ?app_assoc).
Qed.

Lemma for_each_calls {A} (xs : list A) (body : A -> St (App S) unit)
    (f : A -> list Call) :
  (forall x a, exists a', body x a = (Ret tt, a') /\ app_calls a' = app_calls a ++ f x) ->
  forall a, exists a',
    for_each xs tt (fun x _ => body x) a = (Ret tt, a') /\
    app_calls a' = app_calls a ++ flat_map f xs.
Proof.
  intros Hbody. induction xs as [|x xs IH]; intros a.
  - exists a. split; [reflexivity|]. cbn. now rewrite app_nil_r.
  - cbn [for_each flat_map]. unfold bind.
    destruct (Hbody x a) as (a1 & -> & H1).
    destruct (IH a1) as (a2 & H2 & H3).
    exists a2. split; [exact H2|]. now rewrite H3, H1, <- app_assoc.
Qed.

(** All the calls of a reset pass. *)
Definition local_plan (core : string) (registered : bool) (active : list Tunnel)
    : list Call :=
  if (has_branch core && registered)%bool then flat_map (local_calls core) active else [].

Definition remote_plan (core : string) (env : Collab) (active : list Tunnel)
    : list Call :=
  flat_map (fun node_id =>
              if node_exists env node_id
              then flat_map (push_calls core env node_id)
                            (List.filter (on_node node_id) active)
              else [])
           (node_ids active).

Lemma remote_phase_run core env active a :
  exists a',
    remote_phase core env active a = (Ret tt, a') /\
    app_calls a' = app_calls a ++ remote_plan core env active.
Proof.
  unfold remote_phase, remote_plan.
  apply (for_each_calls (node_ids active)
           (fun node_id =>
              if negb (node_exists env node_id) then ret tt
              else for_each (List.filter (on_node node_id) active) tt
                     (fun tunnel _ => push core env node_id tunnel))).
  intros node_id a0. destruct (node_exists env node_id); cbn [negb].
  - apply (for_each_calls _ (push core env node_id)). intros t a1. apply push_run.
  - exists a0. split; [reflexivity|]. now rewrite app_nil_r.
Qed.

Lemma local_phase_run core m active a :
  stops_cleanly m -> start_terminates m ->
  exists a',
    local_phase core (Some m) active a = (Ret tt, a') /\
    app_calls a' = app_calls a ++ local_plan core true active.
Proof.
  intros Hstop Hstart. unfold local_phase, local_plan.
  destruct (has_branch core); cbn [andb].
  - apply (for_each_calls active (local_restart core m)). intros t a0.
    destruct (local_restart_run core m t a0 Hstop Hstart) as (a' & H1 & H2 & _). eauto.
  - exists a. split; [reflexivity|]. now rewrite app_nil_r.
Qed.

Lemma reset_core_run core m env tunnels a :
  stops_cleanly m -> start_terminates m ->
  exists a',
    _reset_core core (Some m) env tunnels a = (Ret tt, a') /\
    app_calls a' = app_calls a ++ local_plan core true (active_of core tunnels)
                   ++ remote_plan core env (active_of core tunnels).
Proof.
  intros Hstop Hstart. unfold _reset_core. cbv zeta. unfold bind.
  destruct (local_phase_run core m (active_of core tunnels) a Hstop Hstart)
    as (a1 & -> & H1).
  destruct (remote_phase_run core env (active_of core tunnels) a1) as (a2 & H2 & H3).
  exists a2. split; [exact H2|]. now rewrite H3, H1, <- app_assoc.
Qed.

Lemma node_of_Some t n : node_of t = Some n -> t_node_id t = Some n.
Proof.
  unfold node_of. destruct (t_node_id t) as [[|c s]|]; [discriminate| |discriminate].
  congruence.
Qed.

Lemma remote_plan_pushes core env active t n d :
  In t active -> node_of t = Some n -> node_exists env n = true ->
  node_spec core t = inr d ->
  In (CallApply n (mkPayload (t_id t) core d)) (remote_plan core env active).
Proof.
  intros Hin Hn Hex Hspec. unfold remote_plan.
  apply in_flat_map. exists n. split.
  - unfold node_ids. apply list_elem_of_In, elem_of_remove_dups, list_elem_of_omap.
    exists t. split; [now apply list_elem_of_In|exact Hn].
  - rewrite Hex. apply in_flat_map. exists t. split.
    + apply filter_In. split; [exact Hin|].
      unfold on_node. rewrite (node_of_Some _ _ Hn). apply String.eqb_refl.
    + unfold push_calls. rewrite Hspec. now left.
Qed.

Lemma local_plan_restarts core active t port args :
  In t active -> has_branch core = true ->
  plan core t = Restart (inr port) args ->
  In (CallStop (t_id t)) (local_plan core true active) /\
  In (CallStart (t_id t) (args port)) (local_plan core true active).
Proof.
  intros Hin Hb Hplan. unfold local_plan. rewrite Hb. cbn [andb].
  split; apply in_flat_map; exists t; (split; [exact Hin|]);
    unfold local_calls; rewrite Hplan; cbn; auto.
Qed.

Lemma plan_restart_has_branch core t port args :
  plan core t = Restart port args -> has_branch core = true.
Proof.
  unfold plan, has_branch.
  destruct (String.eqb core "backhaul"), (String.eqb core "rathole"),
           (String.eqb core "chisel"), (String.eqb core "frp");
    cbn [orb]; try reflexivity; destruct (t_spec t); discriminate.
Qed.

Lemma skip_is_silent core m t a :
  stops_cleanly m -> start_terminates m ->
  plan core t = Skip -> local_restart core m t a = (Ret tt, a).
Proof.
  intros Hstop Hstart Hskip.
  destruct (local_restart_run core m t a Hstop Hstart) as (a' & Hrun & _ & Hsame).
  now rewrite Hrun, (Hsame Hskip).
Qed.


End ResetPlan.

(* ===================================================================== *)
(** ** The Rathole manager under a reset pass *)
(* ===================================================================== *)

Section RatholeReset.

(** [app.state.rathole_server_manager], called with the keyword arguments of
    lines 255-260.  [env] is what the machine decides during each start.  A
    [remote_addr] that is not a string makes [":" in remote_addr] raise
    inside [start_server], whose handler logs and re-raises; the token is
    interpolated into the configuration with [str]. *)
Definition rathole_server_manager (env : string -> StartEnv) : Manager World :=
  {| stop_server := Rathole.stop_server;
     start_server := fun tunnel_id args =>
       match args with
       | RatholeArgs (PStr remote_addr) token proxy_port =>
           Rathole.start_server tunnel_id remote_addr (py_str token) proxy_port
             (env tunnel_id)
       | RatholeArgs remote_addr _ _ =>
           let e := TypeError ("argument of type '" +:+ type_name remote_addr
                               +:+ "' is not iterable") in
           logger ERROR ("Failed to start Rathole server for tunnel " +:+ tunnel_id
                         +:+ ": " +:+ exn_str e) ;;;
           raise e
       | _ => raise (TypeError "start_server() got an unexpected keyword argument")
       end |}.

Lemma rathole_stops_cleanly env : stops_cleanly (rathole_server_manager env).
Proof. intros tid s. eexists. apply stop_server_run. Qed.

Lemma rathole_start_terminates env : start_terminates (rathole_server_manager env).
Proof.
  intros tid args s. destruct args as [d|ra tok pp|? ? ? ?|? ?];
    cbn [start_server rathole_server_manager]; try discriminate.
  destruct ra; try discriminate.
  rewrite start_server_run. unfold start_result.
  destruct (Str.has_char ":" s0); [|discriminate].
  destruct (launcher _); [|discriminate].
  destruct (child_exit _); discriminate.
Qed.

(** Two active Rathole tunnels on one node; the first has no token. *)
Definition tunnel_without_token : Tunnel :=
  mkTunnel "t1" "rathole" "active" (Some "n1")
    (Some [ ("remote_addr", PStr "panel.example.com:23333");
            ("remote_port", PInt 8989);
            ("local_port", PInt 8080) ]).

Definition tunnel_complete : Tunnel :=
  mkTunnel "t2" "rathole" "active" (Some "n1")
    (Some [ ("remote_addr", PStr "panel.example.com:23334");
            ("token", PStr "secret");
            ("remote_port", PInt 8990);
            ("local_port", PInt 8081) ]).

Definition nodes_ok : Collab := mkCollab (fun _ => true) (fun _ _ => None).

Definition panel : Manager World := rathole_server_manager (fun _ => env_ok).

Definition app_example : App World := mkApp (init_world bins_ok) [] [].


(** The reading under which the skip leaves a log record. *)
Definition skipped_restart_is_logged : Prop :=
  forall core (m : Manager World) env tunnels (a : App World) t,
    stops_cleanly m -> start_terminates m ->
    has_branch core = true ->
    In t (active_of core tunnels) ->
    plan core t = Skip ->
    app_log (snd (_reset_core core (Some m) env tunnels a)) <> app_log a.


End RatholeReset.

(* ===================================================================== *)
(** ** A reset pass, tunnel by tunnel *)
(* ===================================================================== *)

Section ResetFacts.
Context {S : Type}.
Implicit Types (m : Manager S) (a : App S).

(** The restart of one tunnel once its parameters are read. *)
Definition restart (core : string) (m : Manager S) (t : Tunnel) (port : exn + Z)
    (args : Z -> StartArgs) : St (App S) unit :=
  try_except
    (do_stop m (t_id t) ;;;
     sleep ;;;
     p <- (match port with inr z => ret z | inl e => raise e end) ;;
     do_start m (t_id t) (args p))
    (fun e =>
       Some (log_error ("Error restarting " +:+ server_label core
                        +:+ " server for tunnel " +:+ t_id t +:+ ": "
                        +:+ exn_str e))).

(** The body of the local loop is determined by the plan of the tunnel. *)
Lemma local_restart_plan core m t a :
  local_restart core m t a =
  match plan core t with
  | Skip => (Ret tt, a)
  | Fail e =>
      (Ret tt,
       mkApp (app_manager a) (app_calls a)
             (app_log a ++ [(ERROR, "Error restarting " +:+ server_label core
                                    +:+ " server for tunnel " +:+ t_id t +:+ ": "
                                    +:+ exn_str e)]))
  | Restart port args => restart core m t port args a
  end.
Proof.
  unfold local_restart, plan, restart.
  destruct (String.eqb core "backhaul") eqn:Eb; [reflexivity|].
  unfold has_branch. rewrite Eb. cbn [orb].
  destruct (t_spec t) as [d|] eqn:Espec.
  - destruct (String.eqb core "rathole") eqn:Er.
    { unfold restart_rathole. rewrite Espec. unfold spec_get.
      cbv beta iota zeta delta [bind ret]. fold (@bind (App S)).
      fold (lookup_default d "remote_addr" PNone).
      fold (lookup_default d "token" PNone).
      fold (lookup_default d "remote_port" PNone).
      fold (lookup_default d "listen_port" PNone).
      destruct (truthy (lookup_default d "remote_addr" PNone)
                && truthy (lookup_default d "token" PNone)
                && truthy (py_or (lookup_default d "remote_port" PNone)
                                 (lookup_default d "listen_port" PNone)))%bool;
        [|reflexivity].
      unfold when, to_int. now destruct (py_int _). }
    destruct (String.eqb core "chisel") eqn:Ec.
    { unfold restart_chisel. rewrite Espec. unfold spec_get.
      cbv beta iota zeta delta [bind ret]. fold (@bind (App S)).
      fold (lookup_default d "server_port" PNone).
      fold (lookup_default d "listen_port" PNone).
      fold (lookup_default d "auth" PNone).
      fold (lookup_default d "fingerprint" PNone).
      fold (lookup_default d "use_ipv6" (PBool false)).
      destruct (truthy (py_or (lookup_default d "server_port" PNone)
                              (lookup_default d "listen_port" PNone)));
        [|reflexivity].
      unfold when, to_int. now destruct (py_int _). }
    destruct (String.eqb core "frp") eqn:Ef; [|reflexivity].
    unfold restart_frp. rewrite Espec. unfold spec_get.
    cbv beta iota zeta delta [bind ret]. fold (@bind (App S)).
    fold (lookup_default d "bind_port" (PInt 7000)).
    fold (lookup_default d "token" PNone).
    destruct (truthy (lookup_default d "bind_port" (PInt 7000))); [|reflexivity].
    unfold when, to_int. now destruct (py_int _).
  - destruct (String.eqb core "rathole") eqn:Er.
    { cbn [orb]. unfold restart_rathole. now rewrite Espec. }
    destruct (String.eqb core "chisel") eqn:Ec.
    { cbn [orb]. unfold restart_chisel. now rewrite Espec. }
    destruct (String.eqb core "frp") eqn:Ef; [|reflexivity].
    cbn [orb]. unfold restart_frp. now rewrite Espec.
Qed.

(** X18.  When [start_server] raises for a tunnel, the exception is caught
    and logged with the tunnel id and the text of the exception.  By then
    [stop_server] has run: the tunnel is left stopped, in the state the
    failed start left behind. *)
Theorem restart_failure_is_logged
    core m (t : Tunnel) a (port : Z) (args : Z -> StartArgs) (e : exn) (s1 s2 : S) :
  plan core t = Restart (inr port) args ->
  stop_server m (t_id t) (app_manager a) = (Ret tt, s1) ->
  start_server m (t_id t) (args port) s1 = (Raise e, s2) ->
  local_restart core m t a
  = (Ret tt,
     mkApp s2
       (app_calls a ++ [CallStop (t_id t); CallSleep; CallStart (t_id t) (args port)])
       (app_log a ++ [(ERROR, "Error restarting " +:+ server_label core
                              +:+ " server for tunnel " +:+ t_id t +:+ ": "
                              +:+ exn_str e)])).
Proof.
  intros Hplan Hstop Hstart. rewrite local_restart_plan, Hplan.
  destruct a as [s0 calls lg]. cbn [app_manager] in Hstop.
  cbv beta iota zeta delta [restart try_except do_stop do_start sleep call lift bind
                            modify ret raise log_error app_manager app_calls app_log].
  rewrite Hstop. cbv beta iota. rewrite Hstart. cbv beta iota.
  now rewrite <- !app_assoc.
Qed.

End ResetFacts.

Lemma restart_failure_is_logged_witness :
  exists s2,
    local_restart "rathole" panel tunnel_complete (mkApp (init_world ∅) [] [])
    = (Ret tt,
       mkApp s2
         [CallStop "t2"; CallSleep;
          CallStart "t2" (RatholeArgs (PStr "panel.example.com:23334") (PStr "secret") 8990)]
         [(ERROR, "Error restarting rathole server for tunnel t2: "
                  +:+ "[Errno 2] No such file or directory: 'rathole'")]) /\
    Dict.get "t2" (active_servers s2) = None.
Proof.
  eexists. split.
  - apply (restart_failure_is_logged "rathole" panel tunnel_complete
             (mkApp (init_world ∅) [] []) 8990
             (RatholeArgs (PStr "panel.example.com:23334") (PStr "secret"))
             (FileNotFoundError "[Errno 2] No such file or directory: 'rathole'")
             (init_world ∅)); [reflexivity|reflexivity|].
    vm_compute. reflexivity.
  - vm_compute. reflexivity.
Defined.

Section ResetPass.
Context {S : Type}.
Implicit Types (m : Manager S) (a : App S).

(** A loop whose body appends to an observation of the state appends the
    bodies' contributions in order. *)
Lemma for_each_appends {A X} (obs : App S -> list X) (xs : list A)
    (body : A -> St (App S) unit) (f : A -> list X) :
  (forall x a, exists a', body x a = (Ret tt, a') /\ obs a' = obs a ++ f x) ->
  forall a, exists a',
    for_each xs tt (fun x _ => body x) a = (Ret tt, a') /\
    obs a' = obs a ++ flat_map f xs.
Proof.
  intros Hbody. induction xs as [|x xs IH]; intros a.
  - exists a. split; [reflexivity|]. cbn. now rewrite app_nil_r.
  - cbn [for_each flat_map]. unfold bind.
    destruct (Hbody x a) as (a1 & -> & H1).
    destruct (IH a1) as (a2 & H2 & H3).
    exists a2. split; [exact H2|]. now rewrite H3, H1, <- app_assoc.
Qed.

Lemma for_each_keeps {A X} (obs : App S -> X) (xs : list A)
    (body : A -> St (App S) unit) :
  (forall x a, exists a', body x a = (Ret tt, a') /\ obs a' = obs a) ->
  forall a, exists a',
    for_each xs tt (fun x _ => body x) a = (Ret tt, a') /\ obs a' = obs a.
Proof.
  intros Hbody. induction xs as [|x xs IH]; intros a.
  - exists a. split; reflexivity.
  - cbn [for_each]. unfold bind.
    destruct (Hbody x a) as (a1 & -> & H1).
    destruct (IH a1) as (a2 & H2 & H3).
    exists a2. split; [exact H2|]. now rewrite H3.
Qed.

(** What [push] logs. *)
Definition push_log (core : string) (env : Collab) (node_id : string) (t : Tunnel)
    : list (level * string) :=
  let record e :=
    (ERROR, "Error restarting " +:+ core +:+ " client for tunnel " +:+ t_id t
            +:+ " on node " +:+ node_id +:+ ": " +:+ exn_str e) in
  match node_spec core t with
  | inl e => [record e]
  | inr d =>
      match apply_tunnel_error env node_id (mkPayload (t_id t) core d) with
      | Some e => [record e]
      | None => []
      end
  end.

Lemma push_effect core env node_id t a :
  push core env node_id t a
  = (Ret tt, mkApp (app_manager a) (app_calls a ++ push_calls core env node_id t)
                   (app_log a ++ push_log core env node_id t)).
Proof.
  destruct a as [s calls lg].
  unfold push, push_calls, push_log, try_except. unfold bind at 1.
  rewrite spec_for_node_run.
  destruct (node_spec core t) as [e|d].
  - cbn. now rewrite app_nil_r.
  - cbv beta iota zeta delta [bind call sleep modify ret raise log_error
                              app_manager app_calls app_log].
    destruct (apply_tunnel_error env node_id (mkPayload (t_id t) core d));
      cbn; now rewrite <- ?app_assoc, ?app_nil_r.
Qed.

Definition remote_log (core : string) (env : Collab) (active : list Tunnel)
    : list (level * string) :=
  flat_map (fun node_id =>
              if node_exists env node_id
              then flat_map (push_log core env node_id)
                            (List.filter (on_node node_id) active)
              else [])
           (node_ids active).

Lemma remote_phase_appends {X} (obs : App S -> list X)
    (f : string -> Tunnel -> list X) core env active :
  (forall n t a, obs (snd (push core env n t a)) = obs a ++ f n t) ->
  forall a, exists a',
    remote_phase core env active a = (Ret tt, a') /\
    obs a' = obs a ++
             flat_map (fun n => if node_exists env n
                                then flat_map (f n) (List.filter (on_node n) active)
                                else [])
                      (node_ids active).
Proof.
  intros Hpush. unfold remote_phase.
  apply (for_each_appends obs (node_ids active)
           (fun node_id =>
              if negb (node_exists env node_id) then ret tt
              else for_each (List.filter (on_node node_id) active) tt
                     (fun tunnel _ => push core env node_id tunnel))).
  intros n a0. destruct (node_exists env n); cbn [negb].
  - apply (for_each_appends obs _ (push core env n)). intros t a1.
    exists (snd (push core env n t a1)). split; [|apply Hpush].
    now rewrite push_effect.
  - exists a0. split; [reflexivity|]. now rewrite app_nil_r.
Qed.

Lemma remote_phase_manager core env active a :
  exists a', remote_phase core env active a = (Ret tt, a') /\
             app_manager a' = app_manager a.
Proof.
  unfold remote_phase.
  apply (for_each_keeps app_manager (node_ids active)
           (fun node_id =>
              if negb (node_exists env node_id) then ret tt
              else for_each (List.filter (on_node node_id) active) tt
                     (fun tunnel _ => push core env node_id tunnel))).
  intros n a0. destruct (node_exists env n); cbn [negb].
  - apply (for_each_keeps app_manager _ (push core env n)). intros t a1.
    rewrite push_effect. eauto.
  - eauto.
Qed.

(** X19.  A push that fails (the client spec cannot be built, or the node
    agent raises) is caught and logged with the tunnel id, the node id and
    the text of the exception; the pass still returns. *)
Theorem push_failure_is_logged core m env tunnels a (t : Tunnel) (n : string) (e : exn) :
  stops_cleanly m -> start_terminates m ->
  In t (active_of core tunnels) ->
  node_of t = Some n ->
  node_exists env n = true ->
  match node_spec core t with
  | inl e' => e' = e
  | inr d => apply_tunnel_error env n (mkPayload (t_id t) core d) = Some e
  end ->
  exists a',
    _reset_core core (Some m) env tunnels a = (Ret tt, a') /\
    In (ERROR, "Error restarting " +:+ core +:+ " client for tunnel " +:+ t_id t
               +:+ " on node " +:+ n +:+ ": " +:+ exn_str e) (app_log a').
Proof.
  intros Hstop Hstart Hin Hn Hex Hfail. unfold _reset_core. cbv zeta. unfold bind.
  destruct (local_phase_run core m (active_of core tunnels) a Hstop Hstart)
    as (a1 & -> & _).
  destruct (remote_phase_appends app_log (push_log core env) core env
              (active_of core tunnels)) with (a := a1) as (a2 & Hrun & Hlog).
  { intros n0 t0 a0. now rewrite push_effect. }
  exists a2. split; [exact Hrun|]. rewrite Hlog.
  apply in_or_app. right. apply in_flat_map. exists n. split.
  - unfold node_ids. apply list_elem_of_In, elem_of_remove_dups, list_elem_of_omap.
    exists t. split; [now apply list_elem_of_In|exact Hn].
  - rewrite Hex. apply in_flat_map. exists t. split.
    + apply filter_In. split; [exact Hin|].
      unfold on_node. rewrite (node_of_Some _ _ Hn). apply String.eqb_refl.
    + unfold push_log. destruct (node_spec core t) as [e'|d].
      * subst e'. now left.
      * rewrite Hfail. now left.
Qed.

(** The calls that stop or start a server. *)
Definition is_local_call (c : Call) : bool :=
  match c with
  | CallStop _ | CallStart _ _ => true
  | _ => false
  end.

Lemma push_calls_remote core env n t :
  forallb (fun c => negb (is_local_call c)) (push_calls core env n t) = true.
Proof.
  unfold push_calls. destruct (node_spec core t); [reflexivity|].
  destruct (apply_tunnel_error _ _ _); reflexivity.
Qed.

Lemma remote_plan_remote core env active :
  forallb (fun c => negb (is_local_call c)) (remote_plan core env active) = true.
Proof.
  unfold remote_plan. apply forallb_forall. intros c Hc.
  apply in_flat_map in Hc as (n & _ & Hc).
  destruct (node_exists env n); [|destruct Hc].
  apply in_flat_map in Hc as (t & _ & Hc).
  pose proof (push_calls_remote core env n t) as H.
  rewrite forallb_forall in H. now apply H.
Qed.

(** X20.  Without a registered manager a reset pass stops and starts
    nothing and leaves the manager state alone, but it still pushes the
    client configuration of every active tunnel on an existing node. *)
Theorem reset_without_manager core env tunnels a :
  exists a',
    _reset_core core None env tunnels a = (Ret tt, a') /\
    app_manager a' = app_manager a /\
    (exists cs, app_calls a' = app_calls a ++ cs /\
                forallb (fun c => negb (is_local_call c)) cs = true /\
                forall t n d,
                  In t (active_of core tunnels) ->
                  node_of t = Some n -> node_exists env n = true ->
                  node_spec core t = inr d ->
                  In (CallApply n (mkPayload (t_id t) core d)) cs).
Proof.
  unfold _reset_core. cbv zeta.
  assert (local_phase core None (active_of core tunnels) a = (Ret tt, a)) as Hlocal
    by (unfold local_phase; now destruct (has_branch core)).
  unfold bind. rewrite Hlocal.
  destruct (remote_phase_manager core env (active_of core tunnels) a) as (a1 & Hrun & Hm).
  destruct (remote_phase_run core env (active_of core tunnels) a) as (a2 & Hrun2 & Hcalls).
  rewrite Hrun in Hrun2. injection Hrun2 as <-.
  exists a1. split; [exact Hrun|]. split; [exact Hm|].
  exists (remote_plan core env (active_of core tunnels)).
  split; [exact Hcalls|]. split; [apply remote_plan_remote|].
  intros t n d. apply remote_plan_pushes.
Qed.

(** What a call of a pass is about. *)
Definition concerns (core : string) (tunnels : list Tunnel) (c : Call) : Prop :=
  c = CallSleep \/
  exists t,
    In t tunnels /\ t_core t = core /\ t_status t = "active" /\
    (c = CallStop (t_id t) \/
     (exists args, c = CallStart (t_id t) args) \/
     (exists n spec, t_node_id t = Some n /\
                     c = CallApply n (mkPayload (t_id t) core spec))).

Lemma active_of_In core tunnels t :
  In t (active_of core tunnels) ->
  In t tunnels /\ t_core t = core /\ t_status t = "active".
Proof.
  unfold active_of. rewrite filter_In. intros [Hin Hb].
  apply andb_prop in Hb as [Hc Hs].
  apply String.eqb_eq in Hc, Hs. auto.
Qed.

(** X21.  A reset pass touches the active tunnels of its core only: every
    stop, start and push of the pass is for a tunnel of that core whose
    status is [active], and a push goes to the node of its tunnel. *)
Theorem reset_only_active_tunnels core m env tunnels a :
  stops_cleanly m -> start_terminates m ->
  exists a' cs,
    _reset_core core (Some m) env tunnels a = (Ret tt, a') /\
    app_calls a' = app_calls a ++ cs /\
    Forall (concerns core tunnels) cs.
Proof.
  intros Hstop Hstart.
  destruct (reset_core_run core m env tunnels a Hstop Hstart) as (a' & Hrun & Hcalls).
  exists a', (local_plan core true (active_of core tunnels)
              ++ remote_plan core env (active_of core tunnels)).
  split; [exact Hrun|]. split; [exact Hcalls|].
  apply Forall_forall. intros c Hc. apply list_elem_of_In, in_app_or in Hc.
  destruct Hc as [Hc|Hc].
  - unfold local_plan in Hc. destruct (has_branch core && true)%bool; [|destruct Hc].
    apply in_flat_map in Hc as (t & Ht & Hc).
    apply active_of_In in Ht as (Hin & Hcore & Hst).
    unfold local_calls in Hc.
    destruct (plan core t) as [|e|[e|p] args]; [destruct Hc|destruct Hc| |].
    + destruct Hc as [<-|[<-|[]]]; [right|now left].
      exists t. auto.
    + destruct Hc as [<-|[<-|[<-|[]]]]; [right|now left|right]; exists t; eauto 10.
  - unfold remote_plan in Hc. apply in_flat_map in Hc as (n & _ & Hc).
    destruct (node_exists env n); [|destruct Hc].
    apply in_flat_map in Hc as (t & Ht & Hc).
    apply filter_In in Ht as [Ht Hnode].
    apply active_of_In in Ht as (Hin & Hcore & Hst).
    unfold on_node in Hnode. destruct (t_node_id t) as [n'|] eqn:En; [|discriminate].
    apply String.eqb_eq in Hnode. subst n'.
    unfold push_calls in Hc. destruct (node_spec core t) as [e|d]; [destruct Hc|].
    destruct Hc as [<-|Hc].
    + right. exists t. eauto 10.
    + destruct (apply_tunnel_error _ _ _); [destruct Hc|].
      destruct Hc as [<-|[]]. now left.
Qed.

(** X22.  The client spec of a Rathole tunnel keeps the host of
    [remote_addr] (the text before its first colon) and replaces what
    follows by [remote_port], or [listen_port] when [remote_port] is
    missing or zero; when neither is there the address ends in [":None"].
    The token is passed on, and [local_addr] defaults to [127.0.0.1]. *)
Theorem rathole_client_spec (t : Tunnel) (d : list (string * pyval))
    (host rest : string) a :
  t_spec t = Some d ->
  Dict.get "remote_addr" d = Some (PStr (host +:+ ":" +:+ rest)) ->
  Str.has_char ":" host = false ->
  spec_for_node "rathole" t a
  = (Ret [ ("remote_addr",
            PStr (host +:+ ":"
                  +:+ py_str (py_or (lookup_default d "remote_port" PNone)
                                    (lookup_default d "listen_port" PNone))));
           ("token", lookup_default d "token" PNone);
           ("local_addr", lookup_default d "local_addr" (PStr "127.0.0.1"));
           ("local_port", lookup_default d "local_port" PNone) ], a) /\
  (Dict.get "remote_port" d = None -> Dict.get "listen_port" d = None ->
   py_str (py_or (lookup_default d "remote_port" PNone)
                 (lookup_default d "listen_port" PNone)) = "None").
Proof.
  intros Hspec Haddr Hhost. split.
  - rewrite spec_for_node_run. unfold node_spec. rewrite Hspec.
    cbn [String.eqb Ascii.eqb Bool.eqb].
    assert (lookup_default d "remote_addr" (PStr EmptyString)
            = PStr (host +:+ ":" +:+ rest)) as Hraw
      by (unfold lookup_default; now rewrite Haddr).
    rewrite !Hraw.
    assert (Str.has_char ":" (host +:+ ":" +:+ rest) = true) as ->.
    { rewrite has_char_app. change (":" +:+ rest) with (String ":" rest).
      cbn [Str.has_char]. rewrite Ascii.eqb_refl. apply orb_true_r. }
    cbn [py_str]. change (":" +:+ rest) with (String ":" rest).
    rewrite split_sep by exact Hhost. reflexivity.
  - intros Hr Hl. unfold lookup_default. now rewrite Hr, Hl.
Qed.

End ResetPass.

(** A node agent that refuses the first tunnel. *)
Definition nodes_refusing : Collab :=
  mkCollab (fun _ => true)
           (fun _ payload =>
              if String.eqb (pl_tunnel_id payload) "t1"
              then Some (OSError "connection refused") else None).

Lemma push_failure_is_logged_witness :
  exists a',
    _reset_core "rathole" (Some panel) nodes_refusing
      [tunnel_without_token; tunnel_complete] app_example = (Ret tt, a') /\
    In (ERROR, "Error restarting rathole client for tunnel t1 on node n1: "
               +:+ "connection refused") (app_log a').
Proof.
  apply (push_failure_is_logged "rathole" panel nodes_refusing
           [tunnel_without_token; tunnel_complete] app_example
           tunnel_without_token "n1" (OSError "connection refused")
           (rathole_stops_cleanly _) (rathole_start_terminates _));
    [left; reflexivity|reflexivity|reflexivity|reflexivity].
Defined.

Definition tunnel_inactive : Tunnel :=
  mkTunnel "t3" "rathole" "stopped" (Some "n1")
    (Some [ ("remote_addr", PStr "panel.example.com:23335");
            ("token", PStr "secret");
            ("remote_port", PInt 8991) ]).

Lemma reset_only_active_tunnels_witness :
  exists a' cs,
    _reset_core "rathole" (Some panel) nodes_ok
      [tunnel_inactive; tunnel_complete] app_example = (Ret tt, a') /\
    app_calls a' = app_calls app_example ++ cs /\
    Forall (concerns "rathole" [tunnel_inactive; tunnel_complete]) cs.
Proof.
  apply (reset_only_active_tunnels "rathole" panel nodes_ok
           [tunnel_inactive; tunnel_complete] app_example
           (rathole_stops_cleanly _) (rathole_start_terminates _)).
Defined.

Lemma rathole_client_spec_witness :
  spec_for_node "rathole" tunnel_complete app_example
  = (Ret [ ("remote_addr", PStr "panel.example.com:8990");
           ("token", PStr "secret");
           ("local_addr", PStr "127.0.0.1");
           ("local_port", PInt 8081) ], app_example).
Proof.
  apply (rathole_client_spec tunnel_complete
           [ ("remote_addr", PStr "panel.example.com:23334");
             ("token", PStr "secret");
             ("remote_port", PInt 8990);
             ("local_port", PInt 8081) ]
           "panel.example.com" "23334" app_example);
    reflexivity.
Defined.

(** ** Defaults and ports that are not numbers *)

Section ResetEdges.
Context {S : Type}.
Implicit Types (m : Manager S) (a : App S).

(** X26.  Two cores are never skipped for a missing parameter: a Backhaul
    tunnel is restarted with its spec, or with the empty spec when it has
    none, and an FRP tunnel without [bind_port] is restarted on port 7000.
    A Chisel tunnel without [server_port] is restarted on its
    [listen_port]. *)
Theorem restart_defaults m (t : Tunnel) a :
  stops_cleanly m -> start_terminates m ->
  (exists a',
     local_restart "backhaul" m t a = (Ret tt, a') /\
     app_calls a'
     = app_calls a ++
       [CallStop (t_id t); CallSleep;
        CallStart (t_id t)
          (BackhaulArgs (match t_spec t with Some d => d | None => [] end))]) /\
  (forall d,
     t_spec t = Some d -> Dict.get "bind_port" d = None ->
     exists a',
       local_restart "frp" m t a = (Ret tt, a') /\
       app_calls a'
       = app_calls a ++
         [CallStop (t_id t); CallSleep;
          CallStart (t_id t) (FrpArgs 7000 (lookup_default d "token" PNone))]) /\
  (forall d port,
     t_spec t = Some d -> Dict.get "server_port" d = None ->
     Dict.get "listen_port" d = Some (PInt port) -> port <> 0 ->
     exists a',
       local_restart "chisel" m t a = (Ret tt, a') /\
       app_calls a'
       = app_calls a ++
         [CallStop (t_id t); CallSleep;
          CallStart (t_id t)
            (ChiselArgs port (lookup_default d "auth" PNone)
                        (lookup_default d "fingerprint" PNone)
                        (truthy (lookup_default d "use_ipv6" (PBool false))))]).
Proof.
  intros Hstop Hstart. split; [|split].
  - destruct (local_restart_run "backhaul" m t a Hstop Hstart) as (a' & Hrun & Hcalls & _).
    exists a'. split; [exact Hrun|]. rewrite Hcalls. reflexivity.
  - intros d Hspec Hport.
    destruct (local_restart_run "frp" m t a Hstop Hstart) as (a' & Hrun & Hcalls & _).
    exists a'. split; [exact Hrun|]. rewrite Hcalls.
    unfold local_calls, plan. rewrite Hspec. cbn [String.eqb Ascii.eqb Bool.eqb].
    unfold lookup_default at 1 2. rewrite Hport. reflexivity.
  - intros d port Hspec Hsp Hlp Hne.
    destruct (local_restart_run "chisel" m t a Hstop Hstart) as (a' & Hrun & Hcalls & _).
    exists a'. split; [exact Hrun|]. rewrite Hcalls.
    unfold local_calls, plan. rewrite Hspec. cbn [String.eqb Ascii.eqb Bool.eqb].
    assert (py_or (lookup_default d "server_port" PNone)
                  (lookup_default d "listen_port" PNone) = PInt port) as ->
      by (unfold lookup_default; now rewrite Hsp, Hlp).
    cbn [truthy py_int]. destruct (Z.eqb_spec port 0); [contradiction|reflexivity].
Qed.


End ResetEdges.

Definition tunnel_frp : Tunnel :=
  mkTunnel "t4" "frp" "active" None (Some [("token", PStr "secret")]).

(** A manager whose two methods do nothing. *)
Definition idle_manager : Manager unit :=
  {| stop_server := fun _ => ret tt; start_server := fun _ _ => ret true |}.

Lemma idle_stops_cleanly : stops_cleanly idle_manager.
Proof. intros tid s. now exists s. Qed.

Lemma idle_start_terminates : start_terminates idle_manager.
Proof. intros tid args s. discriminate. Qed.

Lemma restart_defaults_witness :
  exists a',
    local_restart "frp" idle_manager tunnel_frp (mkApp tt [] []) = (Ret tt, a') /\
    app_calls a'
    = [CallStop "t4"; CallSleep; CallStart "t4" (FrpArgs 7000 (PStr "secret"))].
Proof.
  destruct (restart_defaults idle_manager tunnel_frp (mkApp tt [] [])
              idle_stops_cleanly idle_start_terminates) as (_ & Hfrp & _).
  apply (Hfrp [("token", PStr "secret")]); reflexivity.
Defined.

Definition tunnel_bad_port : Tunnel :=
  mkTunnel "t5" "rathole" "active" None
    (Some [ ("remote_addr", PStr "panel.example.com:23333");
            ("token", PStr "secret");
            ("remote_port", PStr "http") ]).


End Reset.

(* ===================================================================== *)
(** * [routers/core_health.py]: the manual reset *)
(* ===================================================================== *)

Module Manual.
Import Schedule Reset.

(** What a request to [manual_reset_core] works on: the application (the
    manager, the calls made, the log) and the database session. *)
Record Backend (S : Type) : Type := mkBackend {
  be_app : App S;
  be_db : Session
}.
Arguments mkBackend {S} _ _.
Arguments be_app {S} _.
Arguments be_db {S} _.

(** The answer [{"status": ..., "message": ...}]. *)
Record Answer : Type := mkAnswer {
  status : string;
  message : string
}.

Section ManualReset.
Context {S : Type}.

Definition in_app {A} (m : St (App S) A) : St (Backend S) A :=
  fun b =>
    match m (be_app b) with
    | (r, a') => (r, mkBackend a' (be_db b))
    end.

Definition in_db {A} (m : St Session A) : St (Backend S) A :=
  fun b =>
    match m (be_db b) with
    | (r, s') => (r, mkBackend (be_app b) s')
    end.

(** [manual_reset_core]; [tunnels] is the table the reset reads, [now] the
    reading of [datetime.utcnow()]. *)
Definition manual_reset_core (core : string) (manager : option (Manager S))
    (env : Collab) (tunnels : list Tunnel) (now : Z) : St (Backend S) Answer :=
  if negb (known_core core)
  then raise (HTTPException 400 ("Invalid core: " +:+ core))
  else
    try_except
      (in_app (_reset_core core manager env tunnels) ;;;
       in_db (record_reset core now) ;;;
       ret (mkAnswer "success" (core +:+ " reset successfully")))
      (fun e =>
         Some (in_app (log_error ("Error resetting " +:+ core +:+ ": " +:+ exn_str e)) ;;;
               raise (HTTPException 500 (exn_str e)))).

Lemma record_reset_returns core now s :
  exists s', record_reset core now s = (Ret tt, s').
Proof.
  cbv beta iota zeta delta [record_reset bind select_config attach commit modify ret].
  repeat case_match; simplify_eq; eauto.
Qed.


End ManualReset.


End Manual.

(* ===================================================================== *)
(** * [routers/core_health.py]: the health report *)
(* ===================================================================== *)

Module Health.
Import Reset.

(** An entry of [nodes_status]. *)
Record NodeStatus : Type := mkNodeStatus {
  ns_healthy : bool;
  ns_status : string;
  ns_active_tunnels : nat
}.

(** [CoreHealthResponse] *)
Record CoreHealthResponse : Type := mkCoreHealth {
  ch_core : string;
  ch_panel_status : string;
  ch_panel_healthy : bool;
  ch_nodes_status : list (string * NodeStatus)
}.

(** The node table and the node agent: whether a node row exists, and what
    [client.get_tunnel_status(node_id, "")] answers or raises. *)
Record Nodes : Type := mkNodes {
  known_node : string -> bool;
  tunnel_status : string -> exn + option (list (string * pyval))
}.

(** [response and response.get("status") == "ok"] *)
Definition is_ok (response : option (list (string * pyval))) : bool :=
  match response with
  | Some (item :: d) =>
      match Dict.get "status" (item :: d) with
      | Some (PStr s) => String.eqb s "ok"
      | _ => false
      end
  | _ => false
  end.

Section GetCoreHealth.
Context {S : Type}.

(** The [get_active_servers] method of the manager registered for a core
    in [app.state], if there is one. *)
Definition Registry : Type := string -> option (St S (list string)).

(** Lines 51-79. *)
Definition panel_health (managers : Registry) (core : string)
    : St (App S) (string * bool) :=
  try_except
    (if has_branch core then
       match managers core with
       | Some get_active_servers =>
           active_servers <- lift get_active_servers ;;
           let panel_healthy := Nat.ltb 0 (length active_servers) in
           ret (if panel_healthy then "healthy" else "no_active_servers", panel_healthy)
       | None => ret ("unknown", false)
       end
     else ret ("unknown", false))
    (fun e =>
       Some (log_error ("Error checking " +:+ core +:+ " panel health: " +:+ exn_str e) ;;;
             ret ("error", false))).

(** Lines 88-113: the body of the loop over the nodes. *)
Definition node_health (core : string) (nodes : Nodes) (active_tunnels : list Tunnel)
    (node_id : string) (nodes_status : list (string * NodeStatus))
    : St (App S) (list (string * NodeStatus)) :=
  if negb (known_node nodes node_id) then ret nodes_status
  else
    checked <-
      try_except
        (response <- (match tunnel_status nodes node_id with
                      | inr response => ret response
                      | inl e => raise e
                      end) ;;
         ret (if is_ok response then (true, "connected") else (false, "disconnected")))
        (fun e =>
           Some (log_error ("Error checking " +:+ core +:+ " node " +:+ node_id
                            +:+ " health: " +:+ exn_str e) ;;;
                 ret (false, "error"))) ;;
    let node_tunnels := List.filter (on_node node_id) active_tunnels in
    ret (Dict.set node_id
           (mkNodeStatus (fst checked) (snd checked) (length node_tunnels))
           nodes_status).

(** Lines 46-120: the body of the loop over the cores. *)
Definition core_health (managers : Registry) (nodes : Nodes) (tunnels : list Tunnel)
    (core : string) (health_data : list CoreHealthResponse)
    : St (App S) (list CoreHealthResponse) :=
  panel <- panel_health managers core ;;
  let active_tunnels := active_of core tunnels in
  nodes_status <- for_each (node_ids active_tunnels) []
                    (node_health core nodes active_tunnels) ;;
  ret (health_data ++ [mkCoreHealth core (fst panel) (snd panel) nodes_status]).

(** [get_core_health] *)
Definition get_core_health (managers : Registry) (nodes : Nodes) (tunnels : list Tunnel)
    : St (App S) (list CoreHealthResponse) :=
  for_each Schedule.CORES [] (core_health managers nodes tunnels).

(** ** The report *)

(** The entry of a node that has a row. *)
Definition node_report (nodes : Nodes) (active_tunnels : list Tunnel) (node_id : string)
    : NodeStatus :=
  let count := length (List.filter (on_node node_id) active_tunnels) in
  match tunnel_status nodes node_id with
  | inr response =>
      if is_ok response then mkNodeStatus true "connected" count
      else mkNodeStatus false "disconnected" count
  | inl _ => mkNodeStatus false "error" count
  end.

Definition terminating (managers : Registry) : Prop :=
  forall core g s, managers core = Some g -> fst (g s) <> Hang.

Definition panel_states : list (string * bool) :=
  [("healthy", true); ("no_active_servers", false); ("unknown", false); ("error", false)].

Lemma panel_health_run managers core a :
  terminating managers ->
  exists p a', panel_health managers core a = (Ret p, a') /\ In p panel_states.
Proof.
  intros Hterm. unfold panel_health, try_except.
  destruct (has_branch core); [|eexists _, _; split; [reflexivity|cbn; auto]].
  destruct (managers core) as [g|] eqn:Eg;
    [|eexists _, _; split; [reflexivity|cbn; auto]].
  unfold bind, lift. pose proof (Hterm core g (app_manager a) Eg) as Hnh.
  destruct (g (app_manager a)) as [[l|e|] s']; cbn [fst] in Hnh; [| |congruence].
  - eexists _, _. split; [reflexivity|].
    destruct l; cbn; auto.
  - eexists _, _. split; [reflexivity|]. cbn; auto.
Qed.

Lemma node_health_run core nodes active n acc a :
  exists a',
    node_health core nodes active n acc a
    = (Ret (if known_node nodes n
            then Dict.set n (node_report nodes active n) acc else acc), a').
Proof.
  unfold node_health, node_report.
  destruct (known_node nodes n); cbn [negb]; [|eexists; reflexivity].
  cbv beta iota zeta delta [bind try_except ret raise log_error modify fst snd].
  destruct (tunnel_status nodes n) as [e|response].
  - eexists. reflexivity.
  - destruct (is_ok response); eexists; reflexivity.
Qed.

Lemma for_each_node_health core nodes active ns :
  forall acc a,
    exists a',
      for_each ns acc (node_health core nodes active) a
      = (Ret (fold_left (fun acc n => if known_node nodes n
                                      then Dict.set n (node_report nodes active n) acc
                                      else acc) ns acc), a').
Proof.
  induction ns as [|n ns IH]; intros acc a; [eexists; reflexivity|].
  cbn [for_each fold_left]. unfold bind.
  destruct (node_health_run core nodes active n acc a) as (a1 & ->).
  apply IH.
Qed.

Lemma fold_set_get (f : string -> NodeStatus) (keep : string -> bool) ns :
  forall acc n,
    Dict.get n (fold_left (fun acc n => if keep n then Dict.set n (f n) acc else acc) ns acc)
    = if (keep n && bool_decide (n ∈ ns))%bool then Some (f n) else Dict.get n acc.
Proof.
  induction ns as [|n0 ns IH]; intros acc n.
  - cbn. now rewrite andb_false_r.
  - cbn [fold_left]. rewrite IH.
    destruct (decide (n0 = n)) as [->|Hne].
    + rewrite (bool_decide_true (n ∈ n :: ns)) by apply list_elem_of_here.
      rewrite andb_true_r.
      destruct (keep n) eqn:Ek; cbn [andb].
      * destruct (bool_decide (n ∈ ns)); [reflexivity|apply dict_get_set_eq].
      * reflexivity.
    + assert (bool_decide (n ∈ n0 :: ns) = bool_decide (n ∈ ns)) as ->.
      { apply bool_decide_ext. rewrite elem_of_cons. intuition congruence. }
      destruct (keep n && bool_decide (n ∈ ns))%bool; [reflexivity|].
      destruct (keep n0); [now apply dict_get_set_ne|reflexivity].
Qed.

(** What [get_core_health] says about a core. *)
Definition reports (nodes : Nodes) (tunnels : list Tunnel) (h : CoreHealthResponse)
    : Prop :=
  In (ch_panel_status h, ch_panel_healthy h) panel_states /\
  forall n,
    Dict.get n (ch_nodes_status h)
    = if (known_node nodes n
          && bool_decide (n ∈ node_ids (active_of (ch_core h) tunnels)))%bool
      then Some (node_report nodes (active_of (ch_core h) tunnels) n)
      else None.

Lemma core_health_run managers nodes tunnels core acc a :
  terminating managers ->
  exists h a',
    core_health managers nodes tunnels core acc a = (Ret (acc ++ [h]), a') /\
    ch_core h = core /\ reports nodes tunnels h.
Proof.
  intros Hterm. unfold core_health. cbv zeta. unfold bind.
  destruct (panel_health_run managers core a Hterm) as ([st ok] & a1 & -> & Hp).
  destruct (for_each_node_health core nodes (active_of core tunnels)
              (node_ids (active_of core tunnels)) [] a1) as (a2 & ->).
  eexists _, _. split; [reflexivity|]. split; [reflexivity|].
  split; [exact Hp|]. intros n. cbn [ch_nodes_status ch_core].
  now rewrite fold_set_get.
Qed.

Lemma for_each_core_health managers nodes tunnels cores :
  terminating managers ->
  forall acc a,
    exists hs a',
      for_each cores acc (core_health managers nodes tunnels) a = (Ret (acc ++ hs), a') /\
      map ch_core hs = cores /\
      Forall (reports nodes tunnels) hs.
Proof.
  intros Hterm. induction cores as [|core cores IH]; intros acc a.
  - exists [], a. rewrite app_nil_r. split; [reflexivity|]. split; [reflexivity|constructor].
  - cbn [for_each]. unfold bind.
    destruct (core_health_run managers nodes tunnels core acc a Hterm)
      as (h & a1 & -> & Hcore & Hrep).
    destruct (IH (acc ++ [h]) a1) as (hs & a2 & Hrun & Hcores & Hreps).
    exists (h :: hs), a2. split; [now rewrite Hrun, <- app_assoc|].
    split; [cbn; now rewrite Hcore, Hcores|now constructor].
Qed.


End GetCoreHealth.

(** ** The Rathole panel in the report *)

Section RatholeHealth.

(** [app.state] with the Rathole manager only. *)
Definition rathole_registry : @Registry World :=
  fun core =>
    if String.eqb core "rathole" then Some Rathole.get_active_servers else None.

Lemma for_each_poll_terminates items :
  forall acc w, fst (for_each items acc Rathole.poll_entry w) <> Hang.
Proof.
  induction items as [|item items IH]; intros acc w; [discriminate|].
  cbn [for_each]. unfold bind.
  destruct (poll_entry_returns_or_raises item acc w)
    as [(acc' & w' & ->)|(e & w' & ->)]; [apply IH|discriminate].
Qed.

Lemma rathole_registry_terminating : terminating rathole_registry.
Proof.
  intros core g s Hg. unfold rathole_registry in Hg.
  destruct (String.eqb core "rathole"); [|discriminate]. injection Hg as <-.
  unfold Rathole.get_active_servers, bind, gets. apply for_each_poll_terminates.
Qed.

(** X25.  After a start that succeeds, the health report of the Rathole
    panel is ["error"], not healthy: [get_active_servers] raises on the log
    handle that [start_server] stored, and the report logs the exception. *)
Theorem rathole_health_after_start
    (tid ra tok : string) (pp : Z) (env : StartEnv) (w : World) :
  Str.has_char ":" ra = true ->
  primary_bin ∈ installed w \/ fallback_bin ∈ installed w ->
  child_exit (env_child env) = None ->
  exists w1,
    Rathole.start_server tid ra tok pp env w = (Ret true, w1) /\
    forall calls lg,
      exists e a',
        panel_health rathole_registry "rathole" (mkApp w1 calls lg)
        = (Ret ("error", false), a') /\
        app_log a'
        = lg ++ [(ERROR, "Error checking rathole panel health: " +:+ exn_str e)].
Proof.
  intros Hcolon Hbin Hlives.
  pose proof (start_server_succeeds tid ra tok pp env w Hcolon Hbin Hlives) as Hrun.
  eexists. split; [exact Hrun|]. intros calls lg.
  destruct (start_server_ok_state _ _ _ _ _ _ _ Hrun) as (pid & fd & _ & Hlog & _).
  destruct (get_active_servers_log_handle _
              (ex_intro _ _ (ex_intro _ fd (dict_get_In _ _ _ Hlog))))
    as (e & w2 & Hraise).
  exists e. eexists. unfold panel_health, try_except, rathole_registry.
  cbn [has_branch String.eqb Ascii.eqb Bool.eqb orb].
  unfold bind at 1. unfold lift. cbn [app_manager app_calls app_log].
  rewrite Hraise. split; reflexivity.
Qed.

Lemma rathole_health_after_start_witness :
  exists e a',
    panel_health rathole_registry "rathole" (mkApp world_started [] [])
    = (Ret ("error", false), a') /\
    app_log a' = [(ERROR, "Error checking rathole panel health: " +:+ exn_str e)].
Proof.
  destruct (rathole_health_after_start "t1" "0.0.0.0:23333" "abc" 8989 env_ok
              (init_world bins_ok) eq_refl) as (w1 & Hrun & Hreport).
  - left. unfold init_world, machine, bins_ok, primary_bin. cbn [installed]. set_solver.
  - reflexivity.
  - assert (w1 = world_started) as -> by (unfold world_started; now rewrite Hrun).
    apply (Hreport [] []).
Defined.

Definition nodes_example : Nodes :=
  mkNodes (fun n => String.eqb n "n1")
          (fun _ => inr (Some [("status", PStr "ok")])).


End RatholeHealth.

End Health.
